(** * gdrcopy: the Python bindings of the GDRCopy library

    A shallow embedding of [python/build/lib/gdrcopy/gdrcopy.py]: the
    device context [GDRCopy], the buffer handle [GDRHandle], and the
    module-level version queries, run against an arbitrary native driver.

    The native library [_lib] is an external collaborator.  It is modelled
    as a record of functions ([Driver]); every function receives the list
    of native calls issued so far, so that a driver may answer by history.
    The wrappers log each native call they issue in the world, which makes
    "no driver operation is performed" a statement about that log. *)

From Stdlib Require Import ZArith Lia.
From stdpp Require Import base option list gmap strings pretty.

Local Open Scope Z_scope.

(** ** Constants from gdrapi.h *)

Definition GDR_MAPPING_TYPE_NONE : Z := 0.
Definition GDR_MAPPING_TYPE_WC : Z := 1.
Definition GDR_MAPPING_TYPE_CACHING : Z := 2.
Definition GDR_MAPPING_TYPE_DEVICE : Z := 3.

Definition GDR_PIN_FLAG_DEFAULT : Z := 0.
Definition GDR_PIN_FLAG_FORCE_PCIE : Z := 1.

Definition GDR_ATTR_USE_PERSISTENT_MAPPING : Z := 1.
Definition GDR_ATTR_SUPPORT_PIN_FLAG_FORCE_PCIE : Z := 2.

(** ** C data of [_C_DECLARATIONS] *)

(** A pointer cdata ([gdr_t], [void *]) is its address; [NULL] is 0.
    Addresses lie in [0, 2^64). *)
Definition ptr : Type := Z.
Definition NULL : ptr := 0.

(** [typedef struct gdr_mh_s { unsigned long h; } gdr_mh_t;] *)
Record gdr_mh_t : Type := Build_gdr_mh { mh_h : Z }.

(** [typedef struct gdr_info_v2 { ... } gdr_info_v2_t;] with the two
    one-bit fields as integers. *)
Module gdr_info_v2.
Record t : Type := Build {
  va : Z;
  mapped_size : Z;
  page_size : Z;
  tm_cycles : Z;
  cycles_per_ms : Z;
  mapped : Z;
  wc_mapping : Z;
  mapping_type : Z
}.
End gdr_info_v2.

(** The dictionary built by [GDRHandle.get_info].  Its six keys are fixed
    and its values are of mixed type, hence a record. *)
Module InfoDict.
Record t : Type := Build {
  va : Z;
  mapped_size : Z;
  page_size : Z;
  mapped : bool;
  wc_mapping : bool;
  mapping_type : Z
}.
End InfoDict.

(** Python's [bool(x)] on a C integer. *)
Definition bool_of_int (x : Z) : bool := negb (x =? 0).

(** ** Exceptions *)

(** [class GDRError(Exception)] *)
Record GDRError : Type := Build_GDRError { code : Z; message : string }.

Definition GDRError__init__ (c : Z) (m : string) : GDRError :=
  {| code := c;
     message := if String.eqb m "" then "GDRCopy error code: " +:+ pretty c else m |}.

(** The exceptions that the module can raise: its own [RuntimeError]s and
    [GDRError]s, and the two that cffi raises while converting the
    arguments of a native call ([TypeError] when [None] is passed for a
    pointer or a struct, [OverflowError] when an integer does not fit the
    C type).  [DanglingReference] is not a Python exception: it marks a
    method run on a reference that the store does not hold, which no
    Python program can do. *)
Inductive PyExc : Type :=
| RuntimeError (msg : string)
| Exc_GDRError (e : GDRError)
| TypeError
| OverflowError
| DanglingReference.

(** The error taxonomy of the specification, by condition. *)
Definition AlreadyOpenError : PyExc := RuntimeError "GDRCopy is already open".
Definition NotOpenError : PyExc := RuntimeError "GDRCopy is not open".
Definition AlreadyMappedError : PyExc := RuntimeError "Buffer is already mapped".
Definition NotMappedError : PyExc := RuntimeError "Buffer is not mapped".

(** [DriverError(code)] raised for the operation described by [msg]. *)
Definition DriverError (c : Z) (msg : string) : PyExc :=
  Exc_GDRError (GDRError__init__ c (msg +:+ " (error code: " +:+ pretty c +:+ ")")).

(** ** Native calls *)

Inductive Call : Type :=
| c_gdr_open
| c_gdr_close (g : ptr)
| c_gdr_pin_buffer (g : ptr) (addr size p2p_token va_space : Z)
| c_gdr_pin_buffer_v2 (g : ptr) (addr size flags : Z)
| c_gdr_unpin_buffer (g : ptr) (handle : gdr_mh_t)
| c_gdr_get_callback_flag (g : ptr) (handle : gdr_mh_t)
| c_gdr_get_info_v2 (g : ptr) (handle : gdr_mh_t)
| c_gdr_map (g : ptr) (handle : gdr_mh_t) (size : Z)
| c_gdr_unmap (g : ptr) (handle : gdr_mh_t) (va : ptr) (size : Z)
| c_gdr_copy_to_mapping (handle : gdr_mh_t) (map_d_ptr h_ptr : ptr) (size : Z)
| c_gdr_copy_from_mapping (handle : gdr_mh_t) (h_ptr map_d_ptr : ptr) (size : Z)
| c_gdr_runtime_get_version
| c_gdr_driver_get_version (g : ptr)
| c_gdr_get_attribute (g : ptr) (attr : Z).

(** The native library.  An [int] status comes first; what the function
    writes through its out-pointer follows (the wrappers allocate every
    out-parameter with [ffi.new], so it is zero when nothing is written). *)
Record Driver : Type := Build_Driver {
  gdr_open : list Call -> ptr;
  gdr_close : list Call -> ptr -> Z;
  gdr_pin_buffer : list Call -> ptr -> Z -> Z -> Z -> Z -> Z * gdr_mh_t;
  gdr_pin_buffer_v2 : list Call -> ptr -> Z -> Z -> Z -> Z * gdr_mh_t;
  gdr_unpin_buffer : list Call -> ptr -> gdr_mh_t -> Z;
  gdr_get_callback_flag : list Call -> ptr -> gdr_mh_t -> Z * Z;
  gdr_get_info_v2 : list Call -> ptr -> gdr_mh_t -> Z * gdr_info_v2.t;
  gdr_map : list Call -> ptr -> gdr_mh_t -> Z -> Z * ptr;
  gdr_unmap : list Call -> ptr -> gdr_mh_t -> ptr -> Z -> Z;
  gdr_copy_to_mapping : list Call -> gdr_mh_t -> ptr -> ptr -> Z -> Z;
  gdr_copy_from_mapping : list Call -> gdr_mh_t -> ptr -> ptr -> Z -> Z;
  gdr_runtime_get_version : list Call -> Z * Z;
  gdr_driver_get_version : list Call -> ptr -> Z * (Z * Z);
  gdr_get_attribute : list Call -> ptr -> Z -> Z * Z
}.

(** ** Objects and the store *)

Definition ref : Type := nat.

(** [class GDRCopy]: [_handle] is [None] or a [gdr_t] cdata. *)
Module GDRCopy.
Record obj : Type := Build { _handle : option ptr }.
End GDRCopy.

(** [class GDRHandle]: [_gdr] refers to the context object (shared, not
    copied); [_handle] is [None] or the [gdr_mh_t] struct cdata, taken by
    value; [_mapped_ptr] is [None] or a [void *] cdata; [_info] is [None]
    or the cached dictionary. *)
Module GDRHandle.
Record obj : Type := Build {
  _gdr : ref;
  _handle : option gdr_mh_t;
  _mapped_ptr : option ptr;
  _mapped_size : Z;
  _info : option InfoDict.t
}.

Definition set__handle (v : option gdr_mh_t) (o : obj) : obj :=
  Build (_gdr o) v (_mapped_ptr o) (_mapped_size o) (_info o).
Definition set__mapped_ptr (v : option ptr) (o : obj) : obj :=
  Build (_gdr o) (_handle o) v (_mapped_size o) (_info o).
Definition set__mapped_size (v : Z) (o : obj) : obj :=
  Build (_gdr o) (_handle o) (_mapped_ptr o) v (_info o).
Definition set__info (v : option InfoDict.t) (o : obj) : obj :=
  Build (_gdr o) (_handle o) (_mapped_ptr o) (_mapped_size o) v.
End GDRHandle.

(** The world: the log of native calls (oldest first) and the two kinds of
    Python objects, by reference. *)
Record World : Type := Build_World {
  calls : list Call;
  contexts : gmap ref GDRCopy.obj;
  handles : gmap ref GDRHandle.obj
}.

Definition empty_world : World := Build_World [] ∅ ∅.

(** Truth value of a pointer attribute: [None] and a [NULL] cdata are
    false. *)
Definition truthy_ptr (p : option ptr) : bool :=
  match p with
  | Some a => negb (a =? NULL)
  | None => false
  end.

(** Truth value of a struct attribute: a struct cdata is always true. *)
Definition truthy_struct {A : Type} (s : option A) : bool :=
  match s with
  | Some _ => true
  | None => false
  end.

(** The states of the specification's data model, by the tests of the
    code: a context is open, and a handle has a live mapping, when the
    attribute holds a non-[NULL] cdata; a handle is pinned while it holds
    its pin token. *)
Definition is_open (c : GDRCopy.obj) : bool := truthy_ptr (GDRCopy._handle c).
Definition is_mapped (o : GDRHandle.obj) : bool := truthy_ptr (GDRHandle._mapped_ptr o).
Definition is_pinned (o : GDRHandle.obj) : bool := truthy_struct (GDRHandle._handle o).

(** ** The monad of a Python statement: state, and an exception or a value.
    The state reached when an exception is raised is kept. *)

Inductive Outcome (A : Type) : Type :=
| Return (a : A)
| Raise (e : PyExc).
Arguments Return {A} a.
Arguments Raise {A} e.

Definition M (A : Type) : Type := World -> Outcome A * World.

Definition ret {A : Type} (a : A) : M A := fun w => (Return a, w).
Definition raise {A : Type} (e : PyExc) : M A := fun w => (Raise e, w).
Definition bind {A B : Type} (m : M A) (k : A -> M B) : M B :=
  fun w =>
    match m w with
    | (Return a, w') => k a w'
    | (Raise e, w') => (Raise e, w')
    end.

Notation "x <- m ;; k" := (bind m (fun x => k))
  (at level 100, m at next level, right associativity).
Notation "m ;;; k" := (bind m (fun _ => k))
  (at level 100, right associativity).

Definition raises {A : Type} (r : Outcome A * World) : bool :=
  match r.1 with Raise _ => true | Return _ => false end.

(** ** Store access *)

Definition set_calls (c : list Call) (w : World) : World :=
  Build_World c (contexts w) (handles w).
Definition set_contexts (m : gmap ref GDRCopy.obj) (w : World) : World :=
  Build_World (calls w) m (handles w).
Definition set_handles (m : gmap ref GDRHandle.obj) (w : World) : World :=
  Build_World (calls w) (contexts w) m.

(** The world after one more native call, and after an object is written. *)
Definition log (c : Call) (w : World) : World :=
  set_calls (calls w ++ [c]) w.
Definition with_context (r : ref) (c : GDRCopy.obj) (w : World) : World :=
  set_contexts (<[r := c]> (contexts w)) w.
Definition with_handle (r : ref) (o : GDRHandle.obj) (w : World) : World :=
  set_handles (<[r := o]> (handles w)) w.

(** Reading the object behind a reference. *)
Definition get_context (r : ref) : M GDRCopy.obj :=
  fun w =>
    match contexts w !! r with
    | Some c => (Return c, w)
    | None => (Raise DanglingReference, w)
    end.

Definition get_handle (r : ref) : M GDRHandle.obj :=
  fun w =>
    match handles w !! r with
    | Some o => (Return o, w)
    | None => (Raise DanglingReference, w)
    end.

(** Attribute assignment on the object behind a reference. *)
Definition put_context (r : ref) (c : GDRCopy.obj) : M unit :=
  fun w => (Return tt, with_context r c w).

Definition upd_handle (r : ref) (f : GDRHandle.obj -> GDRHandle.obj) : M unit :=
  fun w => (Return tt, set_handles (alter f r (handles w)) w).

(** Object creation: a reference that the store does not hold yet. *)
Definition new_context (c : GDRCopy.obj) : M ref :=
  fun w =>
    let r := fresh (dom (contexts w)) in
    (Return r, with_context r c w).

Definition new_handle (o : GDRHandle.obj) : M ref :=
  fun w =>
    let r := fresh (dom (handles w)) in
    (Return r, with_handle r o w).

(** ** The cffi boundary *)

(** Passing a Python value for a pointer parameter.  cffi takes a cdata
    (the null pointer is [ffi.NULL], a cdata too) and refuses [None] with a
    [TypeError], before the native function is entered. *)
Definition conv_pointer (p : option ptr) : M ptr :=
  match p with
  | Some a => ret a
  | None => raise TypeError
  end.

(** Passing a Python value for a struct parameter: [None] is refused in
    the same way. *)
Definition conv_struct (s : option gdr_mh_t) : M gdr_mh_t :=
  match s with
  | Some v => ret v
  | None => raise TypeError
  end.

(** Passing a Python integer for an unsigned C integer of [bits] bits
    ([unsigned long] and [size_t] have 64 bits on the platforms of the
    library). *)
Definition conv_unsigned (bits : Z) (v : Z) : M Z :=
  if (0 <=? v) && (v <? 2 ^ bits) then ret v else raise OverflowError.

(** [ffi.cast("void *", n)] on a Python integer wraps around. *)
Definition ffi_cast_void_p (n : Z) : ptr := n `mod` 2 ^ 64.

(** [int(ffi.cast("uintptr_t", p))]: the address. *)
Definition int_of_uintptr (p : ptr) : Z := p.

(** The native call itself: answered from the calls issued so far, then
    logged. *)
Definition native {A : Type} (c : Call) (answer : list Call -> A) : M A :=
  fun w => (Return (answer (calls w)), log c w).

(** [_check_error] *)
Definition _check_error (ret_ : Z) (msg : string) : M unit :=
  if negb (ret_ =? 0)
  then raise (Exc_GDRError
                (GDRError__init__ ret_ (msg +:+ " (error code: " +:+ pretty ret_ +:+ ")")))
  else ret tt.

Section Bindings.

Context (_lib : Driver).

(** The functions of [_lib] as Python sees them: the arguments are
    converted from left to right, then the native function runs. *)

Definition lib_gdr_open : M ptr :=
  native c_gdr_open (fun tr => gdr_open _lib tr).

Definition lib_gdr_close (g : option ptr) : M Z :=
  g' <- conv_pointer g ;;
  native (c_gdr_close g') (fun tr => gdr_close _lib tr g').

Definition lib_gdr_pin_buffer (g : option ptr) (addr size p2p_token va_space : Z)
  : M (Z * gdr_mh_t) :=
  g' <- conv_pointer g ;;
  addr' <- conv_unsigned 64 addr ;;
  size' <- conv_unsigned 64 size ;;
  tok' <- conv_unsigned 64 p2p_token ;;
  vs' <- conv_unsigned 32 va_space ;;
  native (c_gdr_pin_buffer g' addr' size' tok' vs')
         (fun tr => gdr_pin_buffer _lib tr g' addr' size' tok' vs').

Definition lib_gdr_pin_buffer_v2 (g : option ptr) (addr size flags : Z)
  : M (Z * gdr_mh_t) :=
  g' <- conv_pointer g ;;
  addr' <- conv_unsigned 64 addr ;;
  size' <- conv_unsigned 64 size ;;
  flags' <- conv_unsigned 32 flags ;;
  native (c_gdr_pin_buffer_v2 g' addr' size' flags')
         (fun tr => gdr_pin_buffer_v2 _lib tr g' addr' size' flags').

Definition lib_gdr_unpin_buffer (g : option ptr) (handle : option gdr_mh_t) : M Z :=
  g' <- conv_pointer g ;;
  mh <- conv_struct handle ;;
  native (c_gdr_unpin_buffer g' mh) (fun tr => gdr_unpin_buffer _lib tr g' mh).

Definition lib_gdr_get_callback_flag (g : option ptr) (handle : option gdr_mh_t)
  : M (Z * Z) :=
  g' <- conv_pointer g ;;
  mh <- conv_struct handle ;;
  native (c_gdr_get_callback_flag g' mh) (fun tr => gdr_get_callback_flag _lib tr g' mh).

Definition lib_gdr_get_info_v2 (g : option ptr) (handle : option gdr_mh_t)
  : M (Z * gdr_info_v2.t) :=
  g' <- conv_pointer g ;;
  mh <- conv_struct handle ;;
  native (c_gdr_get_info_v2 g' mh) (fun tr => gdr_get_info_v2 _lib tr g' mh).

Definition lib_gdr_map (g : option ptr) (handle : option gdr_mh_t) (size : Z)
  : M (Z * ptr) :=
  g' <- conv_pointer g ;;
  mh <- conv_struct handle ;;
  size' <- conv_unsigned 64 size ;;
  native (c_gdr_map g' mh size') (fun tr => gdr_map _lib tr g' mh size').

Definition lib_gdr_unmap (g : option ptr) (handle : option gdr_mh_t)
    (va : option ptr) (size : Z) : M Z :=
  g' <- conv_pointer g ;;
  mh <- conv_struct handle ;;
  va' <- conv_pointer va ;;
  size' <- conv_unsigned 64 size ;;
  native (c_gdr_unmap g' mh va' size') (fun tr => gdr_unmap _lib tr g' mh va' size').

Definition lib_gdr_copy_to_mapping (handle : option gdr_mh_t)
    (map_d_ptr : option ptr) (h_ptr : ptr) (size : Z) : M Z :=
  mh <- conv_struct handle ;;
  d' <- conv_pointer map_d_ptr ;;
  size' <- conv_unsigned 64 size ;;
  native (c_gdr_copy_to_mapping mh d' h_ptr size')
         (fun tr => gdr_copy_to_mapping _lib tr mh d' h_ptr size').

Definition lib_gdr_copy_from_mapping (handle : option gdr_mh_t)
    (h_ptr : ptr) (map_d_ptr : option ptr) (size : Z) : M Z :=
  mh <- conv_struct handle ;;
  d' <- conv_pointer map_d_ptr ;;
  size' <- conv_unsigned 64 size ;;
  native (c_gdr_copy_from_mapping mh h_ptr d' size')
         (fun tr => gdr_copy_from_mapping _lib tr mh h_ptr d' size').

Definition lib_gdr_runtime_get_version : M (Z * Z) :=
  native c_gdr_runtime_get_version (fun tr => gdr_runtime_get_version _lib tr).

Definition lib_gdr_driver_get_version (g : option ptr) : M (Z * (Z * Z)) :=
  g' <- conv_pointer g ;;
  native (c_gdr_driver_get_version g') (fun tr => gdr_driver_get_version _lib tr g').

Definition lib_gdr_get_attribute (g : option ptr) (attr : Z) : M (Z * Z) :=
  g' <- conv_pointer g ;;
  attr' <- conv_unsigned 32 attr ;;
  native (c_gdr_get_attribute g' attr') (fun tr => gdr_get_attribute _lib tr g' attr').

(** ** Module-level functions *)

(** [get_version] *)
Definition get_version : M (Z * Z) :=
  lib_gdr_runtime_get_version.

(** [get_driver_version]: [gdr_handle] is a [GDRCopy] object. *)
Definition get_driver_version (gdr_handle : ref) : M (Z * Z) :=
  c <- get_context gdr_handle ;;
  r <- lib_gdr_driver_get_version (GDRCopy._handle c) ;;
  _check_error r.1 "Failed to get driver version" ;;;
  ret r.2.

(** ** [class GDRHandle] *)

(** [self._gdr._handle] *)
Definition gdr_handle_of (o : GDRHandle.obj) : M (option ptr) :=
  c <- get_context (GDRHandle._gdr o) ;;
  ret (GDRCopy._handle c).

(** [GDRHandle.__init__] *)
Definition GDRHandle__init__ (gdr : ref) (handle : gdr_mh_t) : M ref :=
  new_handle (GDRHandle.Build gdr (Some handle) None 0 None).

(** [GDRHandle.unpin].  Every attribute is set by [__init__], so the
    [hasattr] tests hold on every object. *)
Definition GDRHandle_unpin (self : ref) : M unit :=
  o <- get_handle self ;;
  if truthy_struct (GDRHandle._handle o) then
    g <- gdr_handle_of o ;;
    ret_ <- lib_gdr_unpin_buffer g (GDRHandle._handle o) ;;
    upd_handle self (GDRHandle.set__handle None) ;;;
    _check_error ret_ "Failed to unpin buffer"
  else ret tt.

(** The dictionary that [get_info] builds from the struct. *)
Definition info_dict (info : gdr_info_v2.t) : InfoDict.t :=
  InfoDict.Build
    (gdr_info_v2.va info)
    (gdr_info_v2.mapped_size info)
    (gdr_info_v2.page_size info)
    (bool_of_int (gdr_info_v2.mapped info))
    (bool_of_int (gdr_info_v2.wc_mapping info))
    (gdr_info_v2.mapping_type info).

(** [GDRHandle.get_info]: the value of [self._info] is returned; a
    dictionary with six keys is true, so [not self._info] holds exactly
    when the attribute is [None]. *)
Definition GDRHandle_get_info (self : ref) : M (option InfoDict.t) :=
  o <- get_handle self ;;
  (if negb (truthy_struct (GDRHandle._info o)) then
     g <- gdr_handle_of o ;;
     r <- lib_gdr_get_info_v2 g (GDRHandle._handle o) ;;
     _check_error r.1 "Failed to get info" ;;;
     upd_handle self (GDRHandle.set__info (Some (info_dict r.2)))
   else ret tt) ;;;
  o' <- get_handle self ;;
  ret (GDRHandle._info o').

(** [GDRHandle.map] *)
Definition GDRHandle_map (self : ref) (size : Z) : M Z :=
  o <- get_handle self ;;
  if truthy_ptr (GDRHandle._mapped_ptr o) then
    raise (RuntimeError "Buffer is already mapped")
  else
    g <- gdr_handle_of o ;;
    r <- lib_gdr_map g (GDRHandle._handle o) size ;;
    _check_error r.1 "Failed to map buffer" ;;;
    upd_handle self (GDRHandle.set__mapped_ptr (Some r.2)) ;;;
    upd_handle self (GDRHandle.set__mapped_size size) ;;;
    o' <- get_handle self ;;
    ret (from_option int_of_uintptr 0 (GDRHandle._mapped_ptr o')).

(** [GDRHandle.unmap] *)
Definition GDRHandle_unmap (self : ref) : M unit :=
  o <- get_handle self ;;
  if truthy_ptr (GDRHandle._mapped_ptr o) then
    g <- gdr_handle_of o ;;
    ret_ <- lib_gdr_unmap g (GDRHandle._handle o)
              (GDRHandle._mapped_ptr o) (GDRHandle._mapped_size o) ;;
    upd_handle self (GDRHandle.set__mapped_ptr None) ;;;
    upd_handle self (GDRHandle.set__mapped_size 0) ;;;
    _check_error ret_ "Failed to unmap buffer"
  else ret tt.

(** [GDRHandle.copy_to_mapping] *)
Definition GDRHandle_copy_to_mapping (self : ref) (host_ptr size : Z) : M unit :=
  o <- get_handle self ;;
  if negb (truthy_ptr (GDRHandle._mapped_ptr o)) then
    raise (RuntimeError "Buffer is not mapped")
  else
    let h_ptr := ffi_cast_void_p host_ptr in
    ret_ <- lib_gdr_copy_to_mapping (GDRHandle._handle o)
              (GDRHandle._mapped_ptr o) h_ptr size ;;
    _check_error ret_ "Failed to copy to mapping".

(** [GDRHandle.copy_from_mapping] *)
Definition GDRHandle_copy_from_mapping (self : ref) (host_ptr size : Z) : M unit :=
  o <- get_handle self ;;
  if negb (truthy_ptr (GDRHandle._mapped_ptr o)) then
    raise (RuntimeError "Buffer is not mapped")
  else
    let h_ptr := ffi_cast_void_p host_ptr in
    ret_ <- lib_gdr_copy_from_mapping (GDRHandle._handle o) h_ptr
              (GDRHandle._mapped_ptr o) size ;;
    _check_error ret_ "Failed to copy from mapping".

(** [GDRHandle.get_callback_flag] *)
Definition GDRHandle_get_callback_flag (self : ref) : M bool :=
  o <- get_handle self ;;
  g <- gdr_handle_of o ;;
  r <- lib_gdr_get_callback_flag g (GDRHandle._handle o) ;;
  _check_error r.1 "Failed to get callback flag" ;;;
  ret (bool_of_int r.2).

(** [GDRHandle.__del__], as a method.  (When the collector runs it, the
    interpreter reports an exception that leaves it and goes on; what the
    method left undone stays undone.) *)
Definition GDRHandle__del__ (self : ref) : M unit :=
  GDRHandle_unmap self ;;;
  GDRHandle_unpin self.

(** ** [class GDRCopy] *)

(** [GDRCopy.__init__] *)
Definition GDRCopy__init__ : M ref :=
  new_context (GDRCopy.Build None).

(** [GDRCopy.open] *)
Definition GDRCopy_open (self : ref) : M unit :=
  c <- get_context self ;;
  if truthy_ptr (GDRCopy._handle c) then
    raise (RuntimeError "GDRCopy is already open")
  else
    p <- lib_gdr_open ;;
    put_context self (GDRCopy.Build (Some p)) ;;;
    if negb (truthy_ptr (Some p)) then
      raise (Exc_GDRError (GDRError__init__ (-1) "Failed to open GDRCopy"))
    else ret tt.

(** [GDRCopy.close] *)
Definition GDRCopy_close (self : ref) : M unit :=
  c <- get_context self ;;
  if truthy_ptr (GDRCopy._handle c) then
    ret_ <- lib_gdr_close (GDRCopy._handle c) ;;
    put_context self (GDRCopy.Build None) ;;;
    _check_error ret_ "Failed to close GDRCopy"
  else ret tt.

(** [GDRCopy.__del__] *)
Definition GDRCopy__del__ (self : ref) : M unit :=
  GDRCopy_close self.

(** [GDRCopy.pin_buffer]; [p2p_token] and [va_space] default to 0. *)
Definition GDRCopy_pin_buffer (self : ref) (addr size p2p_token va_space : Z) : M ref :=
  c <- get_context self ;;
  if negb (truthy_ptr (GDRCopy._handle c)) then
    raise (RuntimeError "GDRCopy is not open")
  else
    r <- lib_gdr_pin_buffer (GDRCopy._handle c) addr size p2p_token va_space ;;
    _check_error r.1 "Failed to pin buffer" ;;;
    GDRHandle__init__ self r.2.

(** [GDRCopy.pin_buffer_v2]; [flags] defaults to [GDR_PIN_FLAG_DEFAULT]. *)
Definition GDRCopy_pin_buffer_v2 (self : ref) (addr size flags : Z) : M ref :=
  c <- get_context self ;;
  if negb (truthy_ptr (GDRCopy._handle c)) then
    raise (RuntimeError "GDRCopy is not open")
  else
    r <- lib_gdr_pin_buffer_v2 (GDRCopy._handle c) addr size flags ;;
    _check_error r.1 "Failed to pin buffer (v2)" ;;;
    GDRHandle__init__ self r.2.

(** [GDRCopy.get_attribute] *)
Definition GDRCopy_get_attribute (self : ref) (attr : Z) : M Z :=
  c <- get_context self ;;
  if negb (truthy_ptr (GDRCopy._handle c)) then
    raise (RuntimeError "GDRCopy is not open")
  else
    r <- lib_gdr_get_attribute (GDRCopy._handle c) attr ;;
    _check_error r.1 ("Failed to get attribute " +:+ pretty attr) ;;;
    ret r.2.

End Bindings.

(** ** Running calls one after the other *)

(** [run_all ms] runs the calls of [ms] in order and collects the outcomes;
    an exception does not stop the caller from going on. *)
Fixpoint run_all {A : Type} (ms : list (M A)) (w : World) : list (Outcome A) * World :=
  match ms with
  | [] => ([], w)
  | m :: ms' =>
      let r := m w in
      let rs := run_all ms' r.2 in
      (r.1 :: rs.1, rs.2)
  end.

(** ** Programs over the store

    One statement of a caller: a call of a method or of a module-level
    function on the objects of the store.  [exec] gives the world after
    the statement, whether it returned or raised; [exec_all] runs a whole
    program whose exceptions are caught. *)
Inductive Op : Type :=
| op_GDRCopy
| op_open (gdr : ref)
| op_close (gdr : ref)
| op_del_context (gdr : ref)
| op_pin_buffer (gdr : ref) (addr size p2p_token va_space : Z)
| op_pin_buffer_v2 (gdr : ref) (addr size flags : Z)
| op_get_attribute (gdr : ref) (attr : Z)
| op_get_version
| op_get_driver_version (gdr : ref)
| op_unpin (h : ref)
| op_get_info (h : ref)
| op_map (h : ref) (size : Z)
| op_unmap (h : ref)
| op_copy_to_mapping (h : ref) (host_ptr size : Z)
| op_copy_from_mapping (h : ref) (host_ptr size : Z)
| op_get_callback_flag (h : ref)
| op_del_handle (h : ref).

Definition exec (lib : Driver) (op : Op) (w : World) : World :=
  match op with
  | op_GDRCopy => (GDRCopy__init__ w).2
  | op_open gdr => (GDRCopy_open lib gdr w).2
  | op_close gdr => (GDRCopy_close lib gdr w).2
  | op_del_context gdr => (GDRCopy__del__ lib gdr w).2
  | op_pin_buffer gdr addr size tok vs =>
      (GDRCopy_pin_buffer lib gdr addr size tok vs w).2
  | op_pin_buffer_v2 gdr addr size flags =>
      (GDRCopy_pin_buffer_v2 lib gdr addr size flags w).2
  | op_get_attribute gdr attr => (GDRCopy_get_attribute lib gdr attr w).2
  | op_get_version => (get_version lib w).2
  | op_get_driver_version gdr => (get_driver_version lib gdr w).2
  | op_unpin h => (GDRHandle_unpin lib h w).2
  | op_get_info h => (GDRHandle_get_info lib h w).2
  | op_map h size => (GDRHandle_map lib h size w).2
  | op_unmap h => (GDRHandle_unmap lib h w).2
  | op_copy_to_mapping h host size =>
      (GDRHandle_copy_to_mapping lib h host size w).2
  | op_copy_from_mapping h host size =>
      (GDRHandle_copy_from_mapping lib h host size w).2
  | op_get_callback_flag h => (GDRHandle_get_callback_flag lib h w).2
  | op_del_handle h => (GDRHandle__del__ lib h w).2
  end.

Definition exec_all (lib : Driver) (ops : list Op) (w : World) : World :=
  foldl (fun w' op => exec lib op w') w ops.

(** ** A mock driver

    [mock_driver fail] answers every native call; the calls selected by
    [fail] return the status 22 and write nothing, the others succeed.
    Its [gdr_get_info_v2] reports [mapped] from the calls it has seen: the
    handle is mapped when its last successful [gdr_map] has not been
    followed by a [gdr_unmap]. *)

Definition mh_eqb (a b : gdr_mh_t) : bool := mh_h a =? mh_h b.

Definition status_of (fail : Call -> bool) (c : Call) : Z :=
  if fail c then 22 else 0.

Definition track_mapping (fail : Call -> bool) (mh : gdr_mh_t) (st : bool) (c : Call) : bool :=
  match c with
  | c_gdr_map _ mh' _ => if mh_eqb mh' mh then negb (fail c) else st
  | c_gdr_unmap _ mh' _ _ => if mh_eqb mh' mh then false else st
  | _ => st
  end.

Definition driver_mapped (fail : Call -> bool) (tr : list Call) (mh : gdr_mh_t) : bool :=
  foldl (track_mapping fail mh) false tr.

Definition mock_context : ptr := 28672.
Definition mock_host_va : ptr := 139637976727552.

Definition mock_info (is_mapped_now : bool) : gdr_info_v2.t :=
  gdr_info_v2.Build 4096 (if is_mapped_now then 4096 else 0) 65536 0 0
    (if is_mapped_now then 1 else 0) (if is_mapped_now then 1 else 0)
    (if is_mapped_now then GDR_MAPPING_TYPE_WC else GDR_MAPPING_TYPE_NONE).

Definition zero_info : gdr_info_v2.t := gdr_info_v2.Build 0 0 0 0 0 0 0 0.

Definition mock_driver (fail : Call -> bool) : Driver :=
  {| gdr_open := fun tr => if fail c_gdr_open then NULL else mock_context;
     gdr_close := fun tr g => status_of fail (c_gdr_close g);
     gdr_pin_buffer := fun tr g addr size tok vs =>
       let c := c_gdr_pin_buffer g addr size tok vs in
       (status_of fail c,
        Build_gdr_mh (if fail c then 0 else Z.of_nat (length tr) + 1));
     gdr_pin_buffer_v2 := fun tr g addr size flags =>
       let c := c_gdr_pin_buffer_v2 g addr size flags in
       (status_of fail c,
        Build_gdr_mh (if fail c then 0 else Z.of_nat (length tr) + 1));
     gdr_unpin_buffer := fun tr g mh => status_of fail (c_gdr_unpin_buffer g mh);
     gdr_get_callback_flag := fun tr g mh =>
       (status_of fail (c_gdr_get_callback_flag g mh), 0);
     gdr_get_info_v2 := fun tr g mh =>
       let c := c_gdr_get_info_v2 g mh in
       (status_of fail c,
        if fail c then zero_info else mock_info (driver_mapped fail tr mh));
     gdr_map := fun tr g mh size =>
       let c := c_gdr_map g mh size in
       (status_of fail c, if fail c then NULL else mock_host_va);
     gdr_unmap := fun tr g mh va size => status_of fail (c_gdr_unmap g mh va size);
     gdr_copy_to_mapping := fun tr mh d h size =>
       status_of fail (c_gdr_copy_to_mapping mh d h size);
     gdr_copy_from_mapping := fun tr mh h d size =>
       status_of fail (c_gdr_copy_from_mapping mh h d size);
     gdr_runtime_get_version := fun tr => (2, 5);
     gdr_driver_get_version := fun tr g =>
       let c := c_gdr_driver_get_version g in
       (status_of fail c, if fail c then (0, 0) else (2, 5));
     gdr_get_attribute := fun tr g attr =>
       let c := c_gdr_get_attribute g attr in
       (status_of fail c, if fail c then 0 else 1) |}.

(** The driver whose calls all succeed. *)
Definition mock_ok : Driver := mock_driver (fun _ => false).

Definition is_unmap (c : Call) : bool :=
  match c with c_gdr_unmap _ _ _ _ => true | _ => false end.
Definition is_unpin (c : Call) : bool :=
  match c with c_gdr_unpin_buffer _ _ => true | _ => false end.
Definition is_close (c : Call) : bool :=
  match c with c_gdr_close _ => true | _ => false end.
Definition is_map (c : Call) : bool :=
  match c with c_gdr_map _ _ _ => true | _ => false end.
Definition is_copy (c : Call) : bool :=
  match c with
  | c_gdr_copy_to_mapping _ _ _ _ | c_gdr_copy_from_mapping _ _ _ _ => true
  | _ => false
  end.
Definition is_open_call (c : Call) : bool :=
  match c with c_gdr_open => true | _ => false end.

(** ** Programs used as concrete inputs *)

(** [gdr = GDRCopy(); gdr.open(); h = gdr.pin_buffer_v2(0x1000, 4096)] *)
Definition pinned_program (lib : Driver) : M (ref * ref) :=
  gdr <- GDRCopy__init__ ;;
  GDRCopy_open lib gdr ;;;
  h <- GDRCopy_pin_buffer_v2 lib gdr 4096 4096 GDR_PIN_FLAG_DEFAULT ;;
  ret (gdr, h).

(** ... followed by [h.map(4096)] *)
Definition mapped_program (lib : Driver) : M (ref * ref) :=
  p <- pinned_program lib ;;
  GDRHandle_map lib p.2 4096 ;;;
  ret p.

(** ... followed by [gdr.close()], as [examples/basic_example.py] does in
    its [finally] clause while the handle is still mapped and pinned. *)
Definition orphaned_program (lib : Driver) : M (ref * ref) :=
  p <- mapped_program lib ;;
  GDRCopy_close lib p.1 ;;;
  ret p.

Definition pinned_world (lib : Driver) : World := (pinned_program lib empty_world).2.
Definition mapped_world (lib : Driver) : World := (mapped_program lib empty_world).2.
Definition orphaned_world (lib : Driver) : World := (orphaned_program lib empty_world).2.

(** The scenario of the specification's testable properties. *)
Definition scenario (lib : Driver)
  : M (option InfoDict.t * Z * option InfoDict.t) :=
  gdr <- GDRCopy__init__ ;;
  GDRCopy_open lib gdr ;;;
  h <- GDRCopy_pin_buffer_v2 lib gdr 4096 4096 GDR_PIN_FLAG_DEFAULT ;;
  info1 <- GDRHandle_get_info lib h ;;
  addr <- GDRHandle_map lib h 4096 ;;
  info2 <- GDRHandle_get_info lib h ;;
  GDRHandle_unmap lib h ;;;
  GDRHandle_unpin lib h ;;;
  GDRCopy_close lib gdr ;;;
  ret (info1, addr, info2).

(** ** Outcomes and objects named in the statements *)

(** The outcome of a wrapper that ends in [_check_error]. *)
Definition status_outcome (st : Z) (msg : string) : Outcome unit :=
  if st =? 0 then Return tt else Raise (DriverError st msg).

(** The handle as [unmap] leaves it. *)
Definition unmapped_obj (o : GDRHandle.obj) : GDRHandle.obj :=
  GDRHandle.set__mapped_size 0 (GDRHandle.set__mapped_ptr None o).

(** The objects of the concrete worlds built with the mock driver. *)
Definition mock_mh : gdr_mh_t := Build_gdr_mh 2.
Definition open_ctx : GDRCopy.obj := GDRCopy.Build (Some mock_context).
Definition pinned_obj : GDRHandle.obj :=
  GDRHandle.Build 0%nat (Some mock_mh) None 0 None.
Definition mapped_obj : GDRHandle.obj :=
  GDRHandle.Build 0%nat (Some mock_mh) (Some mock_host_va) 4096 None.
Definition unpinned_obj : GDRHandle.obj :=
  GDRHandle.Build 0%nat None None 0 None.

(** [gdr = GDRCopy()] alone. *)
Definition fresh_context_world : World := exec_all mock_ok [op_GDRCopy] empty_world.

(** [gdr = GDRCopy(); gdr.open()] against a driver that refuses to open:
    the context is left with the [NULL] cdata in [_handle]. *)
Definition failed_open_world : World :=
  exec_all (mock_driver is_open_call) [op_GDRCopy; op_open 0%nat] empty_world.

(** A driver whose calls all succeed: every status is 0, [gdr_open]
    returns a context and [gdr_map] an address. *)
Definition always_succeeds (lib : Driver) : Prop :=
  (forall tr, gdr_open lib tr <> NULL)
  /\ (forall tr g, gdr_close lib tr g = 0)
  /\ (forall tr g a s t v, (gdr_pin_buffer lib tr g a s t v).1 = 0)
  /\ (forall tr g a s f, (gdr_pin_buffer_v2 lib tr g a s f).1 = 0)
  /\ (forall tr g mh, gdr_unpin_buffer lib tr g mh = 0)
  /\ (forall tr g mh, (gdr_get_callback_flag lib tr g mh).1 = 0)
  /\ (forall tr g mh, (gdr_get_info_v2 lib tr g mh).1 = 0)
  /\ (forall tr g mh s,
        (gdr_map lib tr g mh s).1 = 0 /\ (gdr_map lib tr g mh s).2 <> NULL)
  /\ (forall tr g mh va s, gdr_unmap lib tr g mh va s = 0)
  /\ (forall tr mh d h s, gdr_copy_to_mapping lib tr mh d h s = 0)
  /\ (forall tr mh h d s, gdr_copy_from_mapping lib tr mh h d s = 0)
  /\ (forall tr g, (gdr_driver_get_version lib tr g).1 = 0)
  /\ (forall tr g a, (gdr_get_attribute lib tr g a).1 = 0).

(** The native calls of the scenario up to and including [map]. *)
Definition scenario_calls_until_map : list Call :=
  [c_gdr_open;
   c_gdr_pin_buffer_v2 mock_context 4096 4096 GDR_PIN_FLAG_DEFAULT;
   c_gdr_get_info_v2 mock_context mock_mh;
   c_gdr_map mock_context mock_mh 4096].

(** ** Predicates on programs and stores *)

(** The statements that call [unmap] on the handle [h]. *)
Definition calls_unmap (h : ref) (op : Op) : bool :=
  match op with
  | op_unmap h' | op_del_handle h' => Nat.eqb h h'
  | _ => false
  end.

(** The handle [h] of [w] holds the mapping record of [o]. *)
Definition same_mapping (h : ref) (o : GDRHandle.obj) (w : World) : Prop :=
  exists o', handles w !! h = Some o'
             /\ GDRHandle._mapped_ptr o' = GDRHandle._mapped_ptr o
             /\ GDRHandle._mapped_size o' = GDRHandle._mapped_size o.

(** Well-formed stores: the context of every handle is in the store, and
    the size recorded with a live mapping is a [size_t] value. *)
Definition well_formed (w : World) : Prop :=
  forall (h : ref) (o : GDRHandle.obj),
    handles w !! h = Some o ->
    is_Some (contexts w !! GDRHandle._gdr o)
    /\ (is_mapped o = true -> 0 <= GDRHandle._mapped_size o < 2 ^ 64).

(** ** What a statement raised *)

Definition raised {A : Type} (r : Outcome A * World) : option PyExc :=
  match r.1 with
  | Raise e => Some e
  | Return _ => None
  end.

(** The exception that leaves the statement [op], if any; the world after
    it is [exec lib op w]. *)
Definition raised_by (lib : Driver) (op : Op) (w : World) : option PyExc :=
  match op with
  | op_GDRCopy => raised (GDRCopy__init__ w)
  | op_open gdr => raised (GDRCopy_open lib gdr w)
  | op_close gdr => raised (GDRCopy_close lib gdr w)
  | op_del_context gdr => raised (GDRCopy__del__ lib gdr w)
  | op_pin_buffer gdr addr size tok vs =>
      raised (GDRCopy_pin_buffer lib gdr addr size tok vs w)
  | op_pin_buffer_v2 gdr addr size flags =>
      raised (GDRCopy_pin_buffer_v2 lib gdr addr size flags w)
  | op_get_attribute gdr attr => raised (GDRCopy_get_attribute lib gdr attr w)
  | op_get_version => raised (get_version lib w)
  | op_get_driver_version gdr => raised (get_driver_version lib gdr w)
  | op_unpin h => raised (GDRHandle_unpin lib h w)
  | op_get_info h => raised (GDRHandle_get_info lib h w)
  | op_map h size => raised (GDRHandle_map lib h size w)
  | op_unmap h => raised (GDRHandle_unmap lib h w)
  | op_copy_to_mapping h host size =>
      raised (GDRHandle_copy_to_mapping lib h host size w)
  | op_copy_from_mapping h host size =>
      raised (GDRHandle_copy_from_mapping lib h host size w)
  | op_get_callback_flag h => raised (GDRHandle_get_callback_flag lib h w)
  | op_del_handle h => raised (GDRHandle__del__ lib h w)
  end.

(** The native functions that a statement may call. *)
Definition may_call (op : Op) (c : Call) : bool :=
  match op, c with
  | op_open _, c_gdr_open => true
  | (op_close _ | op_del_context _), c_gdr_close _ => true
  | op_pin_buffer _ _ _ _ _, c_gdr_pin_buffer _ _ _ _ _ => true
  | op_pin_buffer_v2 _ _ _ _, c_gdr_pin_buffer_v2 _ _ _ _ => true
  | op_get_attribute _ _, c_gdr_get_attribute _ _ => true
  | op_get_version, c_gdr_runtime_get_version => true
  | op_get_driver_version _, c_gdr_driver_get_version _ => true
  | (op_unpin _ | op_del_handle _), c_gdr_unpin_buffer _ _ => true
  | op_get_info _, c_gdr_get_info_v2 _ _ => true
  | op_map _ _, c_gdr_map _ _ _ => true
  | (op_unmap _ | op_del_handle _), c_gdr_unmap _ _ _ _ => true
  | op_copy_to_mapping _ _ _, c_gdr_copy_to_mapping _ _ _ _ => true
  | op_copy_from_mapping _ _ _, c_gdr_copy_from_mapping _ _ _ _ => true
  | op_get_callback_flag _, c_gdr_get_callback_flag _ _ => true
  | _, _ => false
  end.

(** How many native calls a statement may issue. *)
Definition max_calls (op : Op) : nat :=
  match op with
  | op_GDRCopy => 0
  | op_del_handle _ => 2
  | _ => 1
  end.

(** The handle on which a statement calls a method. *)
Definition handle_of_op (op : Op) : option ref :=
  match op with
  | op_unpin h | op_get_info h | op_map h _ | op_unmap h
  | op_copy_to_mapping h _ _ | op_copy_from_mapping h _ _
  | op_get_callback_flag h | op_del_handle h => Some h
  | _ => None
  end.


(** The context on which a statement calls a method that assigns to it. *)
Definition context_written_by (op : Op) : option ref :=
  match op with
  | op_open g | op_close g | op_del_context g => Some g
  | _ => None
  end.

(** ** Loading the native library (module level, at import)

    [environ_get] is [os.environ.get("GDRCOPY_LIBRARY_PATH")];
    [package_root] is the value of
    [os.path.dirname(os.path.dirname(os.path.abspath(__file__)))];
    [dlopen] is [ffi.dlopen]: the library, or the text of the [OSError]. *)

Definition starts_with_sep (s : string) : bool :=
  match s with
  | String c _ => String.eqb (String c "") "/"
  | EmptyString => false
  end.

Fixpoint ends_with_sep (s : string) : bool :=
  match s with
  | EmptyString => false
  | String c EmptyString => String.eqb (String c "") "/"
  | String _ s' => ends_with_sep s'
  end.

(** One step of [posixpath.join]. *)
Definition join_step (path b : string) : string :=
  if starts_with_sep b then b
  else if String.eqb path "" || ends_with_sep path then path +:+ b
  else path +:+ "/" +:+ b.

(** [os.path.join(a, *p)] *)
Definition os_path_join (a : string) (p : list string) : string :=
  foldl join_step a p.

Inductive Loaded (L : Type) : Type :=
| Library (l : L)
| ImportError (msg : string).
Arguments Library {L} l.
Arguments ImportError {L} msg.

Definition load_library {L : Type} (environ_get : option string)
    (package_root : string) (dlopen : string -> L + string) : Loaded L :=
  let first_try :=
    match environ_get with
    | Some lib_path =>
        if negb (String.eqb lib_path "")
        then dlopen (os_path_join lib_path ["libgdrapi.so"])
        else dlopen "libgdrapi.so"
    | None => dlopen "libgdrapi.so"
    end in
  match first_try with
  | inl l => Library l
  | inr _ =>
      match dlopen (os_path_join package_root ["src"; "libgdrapi.so"]) with
      | inl l => Library l
      | inr e =>
          ImportError
            ("Could not load GDRCopy library: " +:+ e +:+
             ". Make sure libgdrapi.so is installed or set GDRCOPY_LIBRARY_PATH environment variable.")
      end
  end.

(** The names that the module hands to [ffi.dlopen], in order. *)
Definition library_candidates (environ_get : option string) (package_root : string)
  : list string :=
  [ match environ_get with
    | Some lib_path =>
        if negb (String.eqb lib_path "")
        then os_path_join lib_path ["libgdrapi.so"]
        else "libgdrapi.so"
    | None => "libgdrapi.so"
    end;
    os_path_join package_root ["src"; "libgdrapi.so"] ].

(** The first candidate that opens. *)
Fixpoint first_opening {L : Type} (dlopen : string -> L + string)
    (names : list string) : option L :=
  match names with
  | [] => None
  | n :: names' =>
      match dlopen n with
      | inl l => Some l
      | inr _ => first_opening dlopen names'
      end
  end.

(** ** The driver section of [examples/basic_example.py]

    [try: body finally: fin]: [fin] runs however [body] ends, and an
    exception of [fin] replaces the outcome of [body]. *)
Definition try_finally {A : Type} (body : M A) (fin : M unit) : M A :=
  fun w =>
    let r := body w in
    match fin r.2 with
    | (Return _, w') => (r.1, w')
    | (Raise e, w') => (Raise e, w')
    end.

(** A statement on cupy or numpy objects: it returns or raises, and does
    not touch the bindings. *)
Definition foreign {A : Type} (r : Outcome A) : M A := fun w => (r, w).

(** [main] from [gdr = GDRCopy()] to the end of the [finally] clause.
    [gpu_ptr] and [nbytes] are [gpu_array.data.ptr] and [gpu_array.nbytes];
    [np_zeros_like] is the allocation of the host array, giving
    [host_array.ctypes.data]; [np_iadd] is [host_array += 100] and
    [cp_asnumpy] the final read-back.  The [print] statements are left
    out. *)
Definition basic_example (lib : Driver) (gpu_ptr nbytes : Z)
    (np_zeros_like : Outcome Z) (np_iadd cp_asnumpy : Outcome unit) : M unit :=
  gdr <- GDRCopy__init__ ;;
  GDRCopy_open lib gdr ;;;
  try_finally
    (handle <- GDRCopy_pin_buffer_v2 lib gdr gpu_ptr nbytes GDR_PIN_FLAG_DEFAULT ;;
     info <- GDRHandle_get_info lib handle ;;
     mapped_ptr <- GDRHandle_map lib handle nbytes ;;
     host_ptr <- foreign np_zeros_like ;;
     GDRHandle_copy_from_mapping lib handle host_ptr nbytes ;;;
     foreign np_iadd ;;;
     GDRHandle_copy_to_mapping lib handle host_ptr nbytes ;;;
     foreign cp_asnumpy)
    (GDRCopy_close lib gdr).

(** ** Invariants of a computation *)

(** [m] keeps [I]: whatever [m] returns or raises, the world after it
    satisfies [I] when the world before did. *)
Definition preserves {A : Type} (I : World -> Prop) (m : M A) : Prop :=
  forall w, I w -> I (m w).2.

(** The log is [base] followed by calls that all satisfy [P]. *)
Definition log_extends (base : list Call) (P : Call -> bool) (w : World) : Prop :=
  exists l, calls w = base ++ l /\ forallb P l = true.

(** Neither [gdr_unmap] nor [gdr_unpin_buffer]. *)
Definition not_a_release (c : Call) : bool := negb (is_unmap c || is_unpin c).

(** * Properties *)

(** ** Store and monad lemmas *)

Lemma world_eta (w : World) :
  Build_World (calls w) (contexts w) (handles w) = w.
Proof. by destruct w. Qed.

Lemma get_handle_ok (w : World) (r : ref) (o : GDRHandle.obj) :
  handles w !! r = Some o -> get_handle r w = (Return o, w).
Proof. intros H. unfold get_handle. by rewrite H. Qed.

Lemma get_context_ok (w : World) (r : ref) (c : GDRCopy.obj) :
  contexts w !! r = Some c -> get_context r w = (Return c, w).
Proof. intros H. unfold get_context. by rewrite H. Qed.

Lemma upd_handle_ok (w : World) (r : ref) (o : GDRHandle.obj) f :
  handles w !! r = Some o ->
  upd_handle r f w = (Return tt, with_handle r (f o) w).
Proof.
  intros H. unfold upd_handle, with_handle. do 2 f_equal.
  apply map_eq. intros i. rewrite lookup_alter, lookup_insert.
  case_decide; subst; by rewrite ?H.
Qed.

Lemma with_handle_lookup (w : World) (r : ref) (o : GDRHandle.obj) :
  handles (with_handle r o w) !! r = Some o.
Proof. unfold with_handle. simpl. apply lookup_insert_eq. Qed.

Lemma with_handle_twice (w : World) (r : ref) (o o' : GDRHandle.obj) :
  with_handle r o' (with_handle r o w) = with_handle r o' w.
Proof. unfold with_handle, set_handles. simpl. by rewrite insert_insert_eq. Qed.

Lemma with_handle_same (w : World) (r : ref) (o : GDRHandle.obj) :
  handles w !! r = Some o -> with_handle r o w = w.
Proof.
  intros H. unfold with_handle, set_handles. rewrite insert_id by done.
  apply world_eta.
Qed.

Lemma with_context_lookup (w : World) (r : ref) (c : GDRCopy.obj) :
  contexts (with_context r c w) !! r = Some c.
Proof. unfold with_context. simpl. apply lookup_insert_eq. Qed.

Lemma conv_unsigned_ok (bits v : Z) (w : World) :
  0 <= v < 2 ^ bits -> conv_unsigned bits v w = (Return v, w).
Proof.
  intros [H1 H2]. unfold conv_unsigned.
  apply Z.leb_le in H1. apply Z.ltb_lt in H2. by rewrite H1, H2.
Qed.

Lemma check_error_zero (msg : string) (w : World) :
  _check_error 0 msg w = (Return tt, w).
Proof. reflexivity. Qed.

Lemma check_error_nonzero (st : Z) (msg : string) (w : World) :
  st <> 0 -> _check_error st msg w = (Raise (DriverError st msg), w).
Proof.
  intros H. unfold _check_error, DriverError.
  apply Z.eqb_neq in H. by rewrite H.
Qed.

Lemma truthy_ptr_Some (p : option ptr) :
  truthy_ptr p = true -> exists a, p = Some a /\ a <> NULL.
Proof.
  destruct p as [a|]; simpl; [|done].
  intros H. exists a. split; [done|].
  apply negb_true_iff, Z.eqb_neq in H. done.
Qed.

(** Projections of the worlds that the wrappers build. *)
Lemma calls_log c w : calls (log c w) = calls w ++ [c].
Proof. reflexivity. Qed.
Lemma contexts_log c w : contexts (log c w) = contexts w.
Proof. reflexivity. Qed.
Lemma handles_log c w : handles (log c w) = handles w.
Proof. reflexivity. Qed.
Lemma calls_with_handle r o w : calls (with_handle r o w) = calls w.
Proof. reflexivity. Qed.
Lemma contexts_with_handle r o w : contexts (with_handle r o w) = contexts w.
Proof. reflexivity. Qed.
Lemma handles_with_handle r o w :
  handles (with_handle r o w) = <[r := o]> (handles w).
Proof. reflexivity. Qed.
Lemma calls_with_context r c w : calls (with_context r c w) = calls w.
Proof. reflexivity. Qed.
Lemma contexts_with_context r c w :
  contexts (with_context r c w) = <[r := c]> (contexts w).
Proof. reflexivity. Qed.
Lemma handles_with_context r c w : handles (with_context r c w) = handles w.
Proof. reflexivity. Qed.

Create Rewrite HintDb world.
#[export] Hint Rewrite calls_log contexts_log handles_log calls_with_handle
  contexts_with_handle handles_with_handle calls_with_context
  contexts_with_context handles_with_context : world.

Lemma bind_return {A B : Type} (m : M A) (k : A -> M B) (w w' : World) (a : A) :
  m w = (Return a, w') -> bind m k w = k a w'.
Proof. intros H. unfold bind. by rewrite H. Qed.

Lemma bind_raise {A B : Type} (m : M A) (k : A -> M B) (w w' : World) (e : PyExc) :
  m w = (Raise e, w') -> bind m k w = (Raise e, w').
Proof. intros H. unfold bind. by rewrite H. Qed.

(** Looking an object up in a world built by the wrappers. *)
Ltac lookup_tac :=
  autorewrite with world;
  first [ eassumption | apply lookup_insert_eq ].

(** One monadic step through a primitive whose outcome is known. *)
Ltac mstep :=
  first
    [ erewrite (bind_return (get_handle _)) by (apply get_handle_ok; lookup_tac)
    | erewrite (bind_return (get_context _)) by (apply get_context_ok; lookup_tac)
    | erewrite (bind_return (conv_unsigned _ _)) by (apply conv_unsigned_ok; assumption)
    | erewrite (bind_return (ret _)) by reflexivity
    | erewrite (bind_return (native _ _)) by reflexivity ].

(** ** The native calls whose arguments convert *)

Section Native.

Context (lib : Driver).

Lemma gdr_handle_of_ok (w : World) (o : GDRHandle.obj) (c : GDRCopy.obj) :
  contexts w !! GDRHandle._gdr o = Some c ->
  gdr_handle_of o w = (Return (GDRCopy._handle c), w).
Proof. intros H. unfold gdr_handle_of. by mstep. Qed.

Lemma lib_gdr_map_ok (w : World) (g : ptr) (mh : gdr_mh_t) (size : Z) :
  0 <= size < 2 ^ 64 ->
  lib_gdr_map lib (Some g) (Some mh) size w =
    (Return (gdr_map lib (calls w) g mh size), log (c_gdr_map g mh size) w).
Proof. intros H. unfold lib_gdr_map. simpl. by repeat mstep. Qed.

Lemma lib_gdr_unmap_ok (w : World) (g : ptr) (mh : gdr_mh_t) (va : ptr) (size : Z) :
  0 <= size < 2 ^ 64 ->
  lib_gdr_unmap lib (Some g) (Some mh) (Some va) size w =
    (Return (gdr_unmap lib (calls w) g mh va size),
     log (c_gdr_unmap g mh va size) w).
Proof. intros H. unfold lib_gdr_unmap. simpl. by repeat mstep. Qed.

Lemma lib_gdr_unpin_buffer_ok (w : World) (g : ptr) (mh : gdr_mh_t) :
  lib_gdr_unpin_buffer lib (Some g) (Some mh) w =
    (Return (gdr_unpin_buffer lib (calls w) g mh), log (c_gdr_unpin_buffer g mh) w).
Proof. unfold lib_gdr_unpin_buffer. simpl. by repeat mstep. Qed.

Lemma lib_gdr_get_info_v2_ok (w : World) (g : ptr) (mh : gdr_mh_t) :
  lib_gdr_get_info_v2 lib (Some g) (Some mh) w =
    (Return (gdr_get_info_v2 lib (calls w) g mh), log (c_gdr_get_info_v2 g mh) w).
Proof. unfold lib_gdr_get_info_v2. simpl. by repeat mstep. Qed.

Lemma lib_gdr_copy_to_mapping_ok (w : World) (mh : gdr_mh_t) (d h : ptr) (size : Z) :
  0 <= size < 2 ^ 64 ->
  lib_gdr_copy_to_mapping lib (Some mh) (Some d) h size w =
    (Return (gdr_copy_to_mapping lib (calls w) mh d h size),
     log (c_gdr_copy_to_mapping mh d h size) w).
Proof. intros H. unfold lib_gdr_copy_to_mapping. simpl. by repeat mstep. Qed.

Lemma lib_gdr_copy_from_mapping_ok (w : World) (mh : gdr_mh_t) (d h : ptr) (size : Z) :
  0 <= size < 2 ^ 64 ->
  lib_gdr_copy_from_mapping lib (Some mh) h (Some d) size w =
    (Return (gdr_copy_from_mapping lib (calls w) mh h d size),
     log (c_gdr_copy_from_mapping mh h d size) w).
Proof. intros H. unfold lib_gdr_copy_from_mapping. simpl. by repeat mstep. Qed.

Lemma lib_gdr_close_ok (w : World) (g : ptr) :
  lib_gdr_close lib (Some g) w =
    (Return (gdr_close lib (calls w) g), log (c_gdr_close g) w).
Proof. unfold lib_gdr_close. simpl. by repeat mstep. Qed.

Lemma lib_gdr_pin_buffer_v2_ok (w : World) (g : ptr) (addr size flags : Z) :
  0 <= addr < 2 ^ 64 -> 0 <= size < 2 ^ 64 -> 0 <= flags < 2 ^ 32 ->
  lib_gdr_pin_buffer_v2 lib (Some g) addr size flags w =
    (Return (gdr_pin_buffer_v2 lib (calls w) g addr size flags),
     log (c_gdr_pin_buffer_v2 g addr size flags) w).
Proof. intros H1 H2 H3. unfold lib_gdr_pin_buffer_v2. simpl. by repeat mstep. Qed.

End Native.

(** The outcome of the next call of a method body. *)
Ltac call_tac :=
  first
    [ apply get_handle_ok; lookup_tac
    | apply get_context_ok; lookup_tac
    | apply upd_handle_ok; lookup_tac
    | apply gdr_handle_of_ok; lookup_tac
    | apply lib_gdr_map_ok; assumption
    | apply lib_gdr_unmap_ok; assumption
    | apply lib_gdr_unpin_buffer_ok
    | apply lib_gdr_get_info_v2_ok
    | apply lib_gdr_copy_to_mapping_ok; assumption
    | apply lib_gdr_copy_from_mapping_ok; assumption
    | apply lib_gdr_close_ok
    | apply lib_gdr_pin_buffer_v2_ok; assumption
    | apply check_error_zero
    | reflexivity ].

(** Running a method body as far as the outcomes are known. *)
Ltac run :=
  repeat first
    [ erewrite bind_return by call_tac
    | erewrite (bind_raise (_check_error _ _))
        by (apply check_error_nonzero; assumption)
    | erewrite (bind_raise (raise _)) by reflexivity ].

(** ** [GDRHandle.map] *)

Lemma map_already_mapped (lib : Driver) (w : World) (self : ref)
    (o : GDRHandle.obj) (size : Z) :
  handles w !! self = Some o ->
  is_mapped o = true ->
  GDRHandle_map lib self size w = (Raise AlreadyMappedError, w).
Proof.
  intros Hs Hm. unfold GDRHandle_map. run.
  unfold is_mapped in Hm. by rewrite Hm.
Qed.

Lemma map_native (lib : Driver) (w : World) (self : ref) (o : GDRHandle.obj)
    (g : ptr) (mh : gdr_mh_t) (size : Z) :
  handles w !! self = Some o ->
  is_mapped o = false ->
  contexts w !! GDRHandle._gdr o = Some (GDRCopy.Build (Some g)) ->
  GDRHandle._handle o = Some mh ->
  0 <= size < 2 ^ 64 ->
  let r := gdr_map lib (calls w) g mh size in
  GDRHandle_map lib self size w =
    if r.1 =? 0
    then (Return r.2,
          with_handle self
            (GDRHandle.Build (GDRHandle._gdr o) (Some mh) (Some r.2) size
               (GDRHandle._info o))
            (log (c_gdr_map g mh size) w))
    else (Raise (DriverError r.1 "Failed to map buffer"),
          log (c_gdr_map g mh size) w).
Proof.
  intros Hs Hm Hc Hh Hsz r. unfold GDRHandle_map. run.
  unfold is_mapped in Hm. rewrite Hm, Hh. run. simpl. run.
  fold r. destruct (r.1 =? 0) eqn:E.
  - apply Z.eqb_eq in E. rewrite E. run.
    unfold ret. simpl. rewrite with_handle_twice.
    unfold GDRHandle.set__mapped_size, GDRHandle.set__mapped_ptr. simpl.
    by rewrite Hh.
  - apply Z.eqb_neq in E. by run.
Qed.

(** Whatever the driver does, [map] on a handle without a live mapping is
    not refused as already mapped. *)
Lemma map_unmapped_not_rejected (lib : Driver) (w : World) (self : ref)
    (o : GDRHandle.obj) (size : Z) :
  handles w !! self = Some o ->
  is_mapped o = false ->
  (GDRHandle_map lib self size w).1 <> Raise AlreadyMappedError.
Proof.
  intros Hs Hm. unfold GDRHandle_map. run.
  unfold is_mapped in Hm. rewrite Hm.
  unfold bind, gdr_handle_of, bind, get_context, lib_gdr_map, bind, conv_pointer,
    conv_struct, conv_unsigned, _check_error, raise, ret, native, get_handle,
    upd_handle.
  repeat (case_match; simplify_eq/=; try done).
Qed.

(** The failed attempts of a caller that keeps calling [map]. *)
Lemma map_retries_rejected (lib : Driver) (w : World) (self : ref)
    (o : GDRHandle.obj) (sizes : list Z) :
  handles w !! self = Some o ->
  is_mapped o = true ->
  run_all (GDRHandle_map lib self <$> sizes) w =
    ((fun _ => Raise AlreadyMappedError) <$> sizes, w).
Proof.
  intros Hs Hm. induction sizes as [|size sizes IH]; [done|].
  cbn [fmap list_fmap run_all].
  rewrite (map_already_mapped lib w self o size Hs Hm). cbn [fst snd].
  change (list_fmap Z (M Z) (GDRHandle_map lib self) sizes)
    with (GDRHandle_map lib self <$> sizes).
  by rewrite IH.
Qed.

(** ** [GDRHandle.unmap] *)

Lemma check_error_outcome (st : Z) (msg : string) (w : World) :
  _check_error st msg w = (status_outcome st msg, w).
Proof.
  unfold status_outcome. destruct (st =? 0) eqn:E.
  - apply Z.eqb_eq in E. by subst.
  - apply Z.eqb_neq in E. by apply check_error_nonzero.
Qed.

Lemma unmap_unmapped (lib : Driver) (w : World) (self : ref) (o : GDRHandle.obj) :
  handles w !! self = Some o ->
  is_mapped o = false ->
  GDRHandle_unmap lib self w = (Return tt, w).
Proof.
  intros Hs Hm. unfold GDRHandle_unmap. run.
  unfold is_mapped in Hm. by rewrite Hm.
Qed.

Lemma unmap_native (lib : Driver) (w : World) (self : ref) (o : GDRHandle.obj)
    (g : ptr) (mh : gdr_mh_t) (va : ptr) :
  handles w !! self = Some o ->
  GDRHandle._mapped_ptr o = Some va ->
  va <> NULL ->
  contexts w !! GDRHandle._gdr o = Some (GDRCopy.Build (Some g)) ->
  GDRHandle._handle o = Some mh ->
  0 <= GDRHandle._mapped_size o < 2 ^ 64 ->
  GDRHandle_unmap lib self w =
    (status_outcome (gdr_unmap lib (calls w) g mh va (GDRHandle._mapped_size o))
       "Failed to unmap buffer",
     with_handle self (unmapped_obj o)
       (log (c_gdr_unmap g mh va (GDRHandle._mapped_size o)) w)).
Proof.
  intros Hs Hp Hva Hc Hh Hsz. unfold GDRHandle_unmap. run.
  rewrite Hp. simpl. apply Z.eqb_neq in Hva. rewrite Hva. simpl.
  rewrite Hh. run. simpl. run.
  rewrite check_error_outcome. by rewrite with_handle_twice.
Qed.

(** ** [GDRHandle.unpin] *)

Lemma unpin_unpinned (lib : Driver) (w : World) (self : ref) (o : GDRHandle.obj) :
  handles w !! self = Some o ->
  is_pinned o = false ->
  GDRHandle_unpin lib self w = (Return tt, w).
Proof.
  intros Hs Hp. unfold GDRHandle_unpin. run.
  unfold is_pinned in Hp. by rewrite Hp.
Qed.

Lemma unpin_native (lib : Driver) (w : World) (self : ref) (o : GDRHandle.obj)
    (g : ptr) (mh : gdr_mh_t) :
  handles w !! self = Some o ->
  GDRHandle._handle o = Some mh ->
  contexts w !! GDRHandle._gdr o = Some (GDRCopy.Build (Some g)) ->
  GDRHandle_unpin lib self w =
    (status_outcome (gdr_unpin_buffer lib (calls w) g mh) "Failed to unpin buffer",
     with_handle self (GDRHandle.set__handle None o)
       (log (c_gdr_unpin_buffer g mh) w)).
Proof.
  intros Hs Hh Hc. unfold GDRHandle_unpin. run.
  rewrite Hh. simpl. run. simpl. run.
  by rewrite check_error_outcome.
Qed.


(** ** The mapping record between [map] and [unmap] *)

Lemma fresh_handle_ne (w : World) (h : ref) (o : GDRHandle.obj) :
  handles w !! h = Some o -> fresh (dom (handles w)) <> h.
Proof.
  intros Hs E. pose proof (is_fresh (dom (handles w))) as Hf.
  rewrite E in Hf. apply Hf. apply elem_of_dom. eauto.
Qed.

Ltac unfold_methods :=
  unfold GDRCopy__init__, GDRCopy_open, GDRCopy_close, GDRCopy__del__,
    GDRCopy_close, GDRCopy_pin_buffer, GDRCopy_pin_buffer_v2,
    GDRCopy_get_attribute, get_version, get_driver_version, GDRHandle_unpin,
    GDRHandle_get_info, GDRHandle_map, GDRHandle__del__, GDRHandle_unmap,
    GDRHandle_unpin, GDRHandle_copy_to_mapping, GDRHandle_copy_from_mapping,
    GDRHandle_get_callback_flag, GDRHandle__init__, gdr_handle_of,
    lib_gdr_open, lib_gdr_close, lib_gdr_pin_buffer, lib_gdr_pin_buffer_v2,
    lib_gdr_unpin_buffer, lib_gdr_get_callback_flag, lib_gdr_get_info_v2,
    lib_gdr_map, lib_gdr_unmap, lib_gdr_copy_to_mapping,
    lib_gdr_copy_from_mapping, lib_gdr_runtime_get_version,
    lib_gdr_driver_get_version, lib_gdr_get_attribute, conv_pointer,
    conv_struct, conv_unsigned, _check_error, native, new_context, new_handle,
    put_context, upd_handle, get_context, get_handle, bind, ret, raise in *.

Lemma exec_keeps_mapping (lib : Driver) (op : Op) (w : World) (h : ref)
    (o : GDRHandle.obj) :
  is_mapped o = true ->
  same_mapping h o w ->
  calls_unmap h op = false ->
  same_mapping h o (exec lib op w).
Proof.
  intros Hm (o' & Hs & Hp & Hz) Hop.
  assert (truthy_ptr (GDRHandle._mapped_ptr o') = true) as Hm'
    by (by rewrite Hp).
  destruct op; simpl in Hop; unfold exec; unfold_methods.
  all: repeat (case_match; simplify_eq/=; try done).
  all: try (by exists o').
  all: unfold same_mapping; simpl.
  all: try (rewrite lookup_insert_ne by (by eapply fresh_handle_ne);
            by exists o').
  all: match goal with
       | |- context [alter _ ?k _] =>
           destruct (decide (k = h)) as [->|Hne];
           [ | rewrite !lookup_alter_ne by done; by exists o' ]
       end.
  all: try (by rewrite Nat.eqb_refl in Hop).
  all: simplify_eq/=; try congruence.
  all: rewrite !lookup_alter_eq, Hs; simpl; eexists; split; [done|]; done.
Qed.

Lemma exec_all_keeps_mapping (lib : Driver) (ops : list Op) (w : World) (h : ref)
    (o : GDRHandle.obj) :
  is_mapped o = true ->
  same_mapping h o w ->
  forallb (fun op => negb (calls_unmap h op)) ops = true ->
  same_mapping h o (exec_all lib ops w).
Proof.
  intros Hm. revert w. induction ops as [|op ops IH]; intros w Hs Hops; [done|].
  simpl in Hops. apply andb_true_iff in Hops as [Hop Hops].
  apply negb_true_iff in Hop. simpl. apply IH; [|done].
  by apply exec_keeps_mapping.
Qed.

(** ** Reachable stores are well formed *)

Ltac invert_lookup Hk :=
  repeat first
    [ apply lookup_alter_Some in Hk;
      destruct Hk as [(? & ? & Hk & ?) | (? & Hk)]; subst
    | apply lookup_insert_Some in Hk;
      destruct Hk as [(? & ?) | (? & Hk)]; subst ].

Lemma exec_well_formed (lib : Driver) (op : Op) (w : World) :
  well_formed w -> well_formed (exec lib op w).
Proof.
  intros Hwf.
  destruct op; unfold exec; unfold_methods.
  all: repeat (case_match; simplify_eq/=; try done).
  all: intros k ok; simpl.
  all: try (intros Hk; destruct (Hwf k ok Hk) as [[c Hc] Hsz]; split; [|done];
            match goal with
            | |- context [<[?r := _]> _ !! ?j] =>
                destruct (decide (r = j)) as [->|];
                [rewrite lookup_insert_eq | rewrite lookup_insert_ne by done];
                eauto
            end; fail).
  all: intros Hk; invert_lookup Hk; simpl.
  all: try (destruct (Hwf _ _ Hk) as [Hc Hsz]).
  all: try (split; [by eauto|]; simpl; try done; fail).
  all: split; [done|]; intros _.
  all: match goal with
       | Hr : (0 <=? ?a) && (?a <? _) = true |- _ =>
           apply andb_true_iff in Hr as [?%Z.leb_le ?%Z.ltb_lt]
       end; done.
Qed.

Lemma exec_all_well_formed (lib : Driver) (ops : list Op) (w : World) :
  well_formed w -> well_formed (exec_all lib ops w).
Proof.
  revert w. induction ops as [|op ops IH]; intros w Hwf; [done|].
  simpl. apply IH. by apply exec_well_formed.
Qed.

(** X22. Every store that a program reaches from the empty one is well formed. *)
Lemma reachable_well_formed (lib : Driver) (ops : list Op) :
  well_formed (exec_all lib ops empty_world).
Proof.
  apply exec_all_well_formed. intros h o Hs.
  cbn in Hs. by rewrite lookup_empty in Hs.
Qed.

(** ** The claims about [map] *)

(** C1. While a handle has a live mapping, every [map] call fails with the
    already-mapped error and changes nothing, however often and with
    whatever sizes it is retried, and whatever else the program calls in
    between on any object, as long as it does not call [unmap] (or the
    teardown hook) on the handle; an [unmap] whose native call is issued
    ends this; and on a handle without a live mapping whose native map
    call succeeds, [map] records the host address and the size and returns
    that address, the one the driver wrote, as an integer. *)
Theorem map_requires_no_live_mapping (lib : Driver) (w : World) (self : ref)
    (o : GDRHandle.obj) :
  handles w !! self = Some o ->
  (is_mapped o = true ->
     (forall sizes : list Z,
        run_all (GDRHandle_map lib self <$> sizes) w =
          ((fun _ => Raise AlreadyMappedError) <$> sizes, w))
     /\
     (forall (ops : list Op) (size : Z),
        forallb (fun op => negb (calls_unmap self op)) ops = true ->
        GDRHandle_map lib self size (exec_all lib ops w) =
          (Raise AlreadyMappedError, exec_all lib ops w))
     /\
     (forall (g : ptr) (mh : gdr_mh_t) (va : ptr) (size : Z),
        GDRHandle._mapped_ptr o = Some va ->
        contexts w !! GDRHandle._gdr o = Some (GDRCopy.Build (Some g)) ->
        GDRHandle._handle o = Some mh ->
        0 <= GDRHandle._mapped_size o < 2 ^ 64 ->
        (GDRHandle_map lib self size (GDRHandle_unmap lib self w).2).1
          <> Raise AlreadyMappedError))
  /\
  (is_mapped o = false ->
     forall (g : ptr) (mh : gdr_mh_t) (size : Z) (va : ptr),
       contexts w !! GDRHandle._gdr o = Some (GDRCopy.Build (Some g)) ->
       GDRHandle._handle o = Some mh ->
       0 <= size < 2 ^ 64 ->
       gdr_map lib (calls w) g mh size = (0, va) ->
       GDRHandle_map lib self size w =
         (Return va,
          with_handle self
            (GDRHandle.Build (GDRHandle._gdr o) (Some mh) (Some va) size
               (GDRHandle._info o))
            (log (c_gdr_map g mh size) w))).
Proof.
  intros Hs. split.
  - intros Hm. split; [|split].
    + intros sizes. by apply map_retries_rejected with o.
    + intros ops size Hops.
      destruct (exec_all_keeps_mapping lib ops w self o Hm) as (o' & Hs' & Hp & _);
        [by exists o | done |].
      apply map_already_mapped with o'; [done|].
      unfold is_mapped in *. by rewrite Hp.
    + intros g mh va size Hp Hc Hh Hsz.
      assert (va <> NULL) as Hva.
      { unfold is_mapped in Hm. rewrite Hp in Hm. simpl in Hm.
        by apply negb_true_iff, Z.eqb_neq in Hm. }
      rewrite (unmap_native lib w self o g mh va) by done. cbn [snd].
      apply map_unmapped_not_rejected with (unmapped_obj o).
      * apply with_handle_lookup.
      * reflexivity.
  - intros Hm g mh size va Hc Hh Hsz Hd.
    rewrite (map_native lib w self o g mh size) by done.
    by rewrite Hd.
Qed.

Lemma map_requires_no_live_mapping_witness :
  (run_all (GDRHandle_map mock_ok 0%nat <$> [4096; 1; 8192]) (mapped_world mock_ok) =
     ((fun _ => Raise AlreadyMappedError) <$> [4096; 1; 8192], mapped_world mock_ok))
  /\
  GDRHandle_map mock_ok 0%nat 4096
    (exec_all mock_ok
       [op_get_info 0%nat; op_map 0%nat 1; op_copy_to_mapping 0%nat 77 4096;
        op_close 0%nat; op_unpin 0%nat]
       (mapped_world mock_ok)) =
    (Raise AlreadyMappedError,
     exec_all mock_ok
       [op_get_info 0%nat; op_map 0%nat 1; op_copy_to_mapping 0%nat 77 4096;
        op_close 0%nat; op_unpin 0%nat]
       (mapped_world mock_ok))
  /\
  (GDRHandle_map mock_ok 0%nat 512
     (GDRHandle_unmap mock_ok 0%nat (mapped_world mock_ok)).2).1
    <> Raise AlreadyMappedError
  /\
  GDRHandle_map mock_ok 0%nat 4096 (pinned_world mock_ok) =
    (Return mock_host_va,
     with_handle 0%nat mapped_obj
       (log (c_gdr_map mock_context mock_mh 4096) (pinned_world mock_ok))).
Proof.
  split; [|split; [|split]].
  - apply (proj1 (map_requires_no_live_mapping mock_ok (mapped_world mock_ok)
                    0%nat mapped_obj eq_refl)).
    reflexivity.
  - apply (proj1 (map_requires_no_live_mapping mock_ok (mapped_world mock_ok)
                    0%nat mapped_obj eq_refl)); reflexivity.
  - apply (proj1 (map_requires_no_live_mapping mock_ok (mapped_world mock_ok)
                    0%nat mapped_obj eq_refl))
      with mock_context mock_mh mock_host_va; [reflexivity..|].
    simpl. lia.
  - apply (proj2 (map_requires_no_live_mapping mock_ok (pinned_world mock_ok)
                    0%nat pinned_obj eq_refl)); [reflexivity..| |reflexivity].
    lia.
Defined.

(** C10. When the native map call on a handle without a live mapping
    returns a non-zero status, [map] raises the driver error carrying that
    status and records nothing: the handle object is what it was (with the
    empty record [None], 0 when it held that), it is still unmapped, and a
    later [map] is not refused as already mapped but goes to the driver
    again. *)
Theorem map_failure_records_nothing (lib : Driver) (w : World) (self : ref)
    (o : GDRHandle.obj) (g : ptr) (mh : gdr_mh_t) (size : Z) :
  handles w !! self = Some o ->
  is_mapped o = false ->
  contexts w !! GDRHandle._gdr o = Some (GDRCopy.Build (Some g)) ->
  GDRHandle._handle o = Some mh ->
  0 <= size < 2 ^ 64 ->
  (gdr_map lib (calls w) g mh size).1 <> 0 ->
  GDRHandle_map lib self size w =
    (Raise (DriverError (gdr_map lib (calls w) g mh size).1 "Failed to map buffer"),
     log (c_gdr_map g mh size) w)
  /\ handles (GDRHandle_map lib self size w).2 = handles w
  /\ (GDRHandle._mapped_ptr o = None -> GDRHandle._mapped_size o = 0 ->
      exists o', handles (GDRHandle_map lib self size w).2 !! self = Some o'
                 /\ GDRHandle._mapped_ptr o' = None
                 /\ GDRHandle._mapped_size o' = 0)
  /\ (forall (lib' : Driver) (size' : Z),
        (GDRHandle_map lib' self size' (GDRHandle_map lib self size w).2).1
          <> Raise AlreadyMappedError)
  /\ (forall (lib' : Driver) (size' : Z) (va : ptr),
        0 <= size' < 2 ^ 64 ->
        gdr_map lib' (calls w ++ [c_gdr_map g mh size]) g mh size' = (0, va) ->
        (GDRHandle_map lib' self size' (GDRHandle_map lib self size w).2).1
          = Return (int_of_uintptr va)).
Proof.
  intros Hs Hm Hc Hh Hsz Hst.
  pose proof (map_native lib w self o g mh size Hs Hm Hc Hh Hsz) as E.
  cbn zeta in E. apply Z.eqb_neq in Hst. rewrite Hst in E.
  rewrite E. cbn [snd]. split; [done|]. split; [done|].
  split; [|split].
  - intros Hp Hz. exists o. by rewrite handles_log.
  - intros lib' size'. by apply map_unmapped_not_rejected with o.
  - intros lib' size' va Hsz' Hd.
    rewrite (map_native lib' _ self o g mh size') by done.
    rewrite calls_log, Hd. reflexivity.
Qed.

Lemma map_failure_records_nothing_witness :
  GDRHandle_map (mock_driver is_map) 0%nat 4096 (pinned_world (mock_driver is_map)) =
    (Raise (DriverError 22 "Failed to map buffer"),
     log (c_gdr_map mock_context mock_mh 4096) (pinned_world (mock_driver is_map)))
  /\ (GDRHandle_map mock_ok 0%nat 4096
        (GDRHandle_map (mock_driver is_map) 0%nat 4096
           (pinned_world (mock_driver is_map))).2).1
       = Return (int_of_uintptr mock_host_va).
Proof.
  pose proof (map_failure_records_nothing (mock_driver is_map)
                (pinned_world (mock_driver is_map)) 0%nat pinned_obj
                mock_context mock_mh 4096 eq_refl eq_refl eq_refl eq_refl)
    as H.
  destruct H as (H1 & _ & _ & _ & H5).
  - lia.
  - vm_compute. discriminate.
  - split; [exact H1|].
    apply H5; [lia|reflexivity].
Defined.


(** ** The claims about [unmap] and [unpin] *)

(** C2, as the code has it.  [unmap] on a handle without a live mapping
    (never mapped, or unmapped before) does nothing and raises nothing.  On
    a mapped handle whose native unmap call is issued (the handle holds its
    pin token, its context holds a driver context), the mapping record is
    cleared whatever the status; the call raises the driver error exactly
    when the status is not zero; and an [unmap] that follows does nothing
    and raises nothing. *)
Theorem unmap_clears_then_is_noop (lib : Driver) (w : World) (self : ref)
    (o : GDRHandle.obj) :
  handles w !! self = Some o ->
  (is_mapped o = false -> GDRHandle_unmap lib self w = (Return tt, w))
  /\
  (forall (g : ptr) (mh : gdr_mh_t) (va : ptr),
     GDRHandle._mapped_ptr o = Some va ->
     va <> NULL ->
     contexts w !! GDRHandle._gdr o = Some (GDRCopy.Build (Some g)) ->
     GDRHandle._handle o = Some mh ->
     0 <= GDRHandle._mapped_size o < 2 ^ 64 ->
     GDRHandle_unmap lib self w =
       (status_outcome (gdr_unmap lib (calls w) g mh va (GDRHandle._mapped_size o))
          "Failed to unmap buffer",
        with_handle self
          (GDRHandle.Build (GDRHandle._gdr o) (Some mh) None 0 (GDRHandle._info o))
          (log (c_gdr_unmap g mh va (GDRHandle._mapped_size o)) w))
     /\
     (forall lib' : Driver,
        GDRHandle_unmap lib' self (GDRHandle_unmap lib self w).2 =
          (Return tt, (GDRHandle_unmap lib self w).2))).
Proof.
  intros Hs. split.
  - intros Hm. by apply unmap_unmapped with o.
  - intros g mh va Hp Hva Hc Hh Hsz.
    rewrite (unmap_native lib w self o g mh va) by done. cbn [snd].
    split.
    + unfold unmapped_obj, GDRHandle.set__mapped_size, GDRHandle.set__mapped_ptr.
      simpl. by rewrite Hh.
    + intros lib'. apply unmap_unmapped with (unmapped_obj o).
      * apply with_handle_lookup.
      * reflexivity.
Qed.

Lemma unmap_clears_then_is_noop_witness :
  GDRHandle_unmap mock_ok 0%nat (pinned_world mock_ok) = (Return tt, pinned_world mock_ok)
  /\
  GDRHandle_unmap (mock_driver is_unmap) 0%nat (mapped_world (mock_driver is_unmap)) =
    (Raise (DriverError 22 "Failed to unmap buffer"),
     with_handle 0%nat pinned_obj
       (log (c_gdr_unmap mock_context mock_mh mock_host_va 4096)
          (mapped_world (mock_driver is_unmap))))
  /\
  GDRHandle_unmap (mock_driver is_unmap) 0%nat
    (GDRHandle_unmap (mock_driver is_unmap) 0%nat
       (mapped_world (mock_driver is_unmap))).2 =
    (Return tt,
     (GDRHandle_unmap (mock_driver is_unmap) 0%nat
        (mapped_world (mock_driver is_unmap))).2).
Proof.
  split.
  - apply (proj1 (unmap_clears_then_is_noop mock_ok (pinned_world mock_ok)
                    0%nat pinned_obj eq_refl)).
    reflexivity.
  - assert (0 <= GDRHandle._mapped_size mapped_obj < 2 ^ 64) as Hsz
      by (simpl; lia).
    assert (mock_host_va <> NULL) as Hva by (vm_compute; discriminate).
    pose proof (proj2 (unmap_clears_then_is_noop (mock_driver is_unmap)
                         (mapped_world (mock_driver is_unmap)) 0%nat
                         mapped_obj eq_refl)
                  mock_context mock_mh mock_host_va eq_refl Hva eq_refl eq_refl Hsz)
      as [H1 H2].
    split; [exact H1 | exact (H2 (mock_driver is_unmap))].
Defined.

(** C2 as stated fails on the handle that [examples/basic_example.py]
    leaves behind: mapped and pinned, its context closed.  cffi refuses
    [None] for the [gdr_t] argument before the native call and before the
    record is cleared, so the second [unmap] in a row raises as the first
    did. *)
Lemma unmap_twice_raises_on_orphaned_handle :
  (orphaned_program mock_ok empty_world).1 = Return (0%nat, 0%nat)
  /\ handles (orphaned_world mock_ok) !! 0%nat = Some mapped_obj
  /\ contexts (orphaned_world mock_ok) !! 0%nat = Some (GDRCopy.Build None)
  /\ GDRHandle_unmap mock_ok 0%nat (orphaned_world mock_ok) =
       (Raise TypeError, orphaned_world mock_ok)
  /\ raises (GDRHandle_unmap mock_ok 0%nat
               (GDRHandle_unmap mock_ok 0%nat (orphaned_world mock_ok)).2) = true.
Proof. repeat split; vm_compute; reflexivity. Qed.

(** The second of two [unpin] calls in a row is without effect, whatever
    the first one did. *)
Lemma unpin_again_changes_nothing (lib lib' : Driver) (w : World) (self : ref) :
  (GDRHandle_unpin lib' self (GDRHandle_unpin lib self w).2).2 =
    (GDRHandle_unpin lib self w).2.
Proof.
  destruct (handles w !! self) as [o|] eqn:Hs.
  2: { assert (forall l, GDRHandle_unpin l self w = (Raise DanglingReference, w)) as E.
       { intros l. unfold GDRHandle_unpin, bind, get_handle. by rewrite Hs. }
       by rewrite !E. }
  destruct (GDRHandle._handle o) as [mh|] eqn:Hh.
  2: { assert (is_pinned o = false) as Hp by (unfold is_pinned; by rewrite Hh).
       rewrite (unpin_unpinned lib w self o) by done. cbn [snd].
       by rewrite (unpin_unpinned lib' w self o). }
  assert (truthy_struct (GDRHandle._handle o) = true) as Hp by (by rewrite Hh).
  destruct (contexts w !! GDRHandle._gdr o) as [[[g|]]|] eqn:Hc.
  - rewrite (unpin_native lib w self o g mh) by done. cbn [snd].
    rewrite (unpin_unpinned lib' _ self (GDRHandle.set__handle None o)); [done| |done].
    apply with_handle_lookup.
  - assert (forall l, GDRHandle_unpin l self w = (Raise TypeError, w)) as E.
    { intros l. unfold GDRHandle_unpin. run. rewrite Hp. by run. }
    by rewrite !E.
  - assert (forall l, GDRHandle_unpin l self w = (Raise DanglingReference, w)) as E.
    { intros l. unfold GDRHandle_unpin. run. rewrite Hp.
      unfold gdr_handle_of, bind, get_context. by rewrite Hc. }
    by rewrite !E.
Qed.

(** C3, as the code has it.  The second of two [unpin] calls in a row
    changes nothing and issues no native call, on every handle and whatever
    the first call did.  [unpin] on a handle whose pin token is gone does
    nothing and raises nothing.  On a pinned handle whose context holds a
    driver context, the native unpin call is issued and the token is
    cleared whatever the status; the call raises the driver error exactly
    when the status is not zero; and an [unpin] that follows does nothing
    and raises nothing.  On a pinned handle whose context holds no driver
    context any more, [unpin] raises [TypeError] before the native call and
    keeps the token. *)
Theorem unpin_clears_then_is_noop (lib : Driver) (w : World) (self : ref)
    (o : GDRHandle.obj) :
  handles w !! self = Some o ->
  (is_pinned o = false -> GDRHandle_unpin lib self w = (Return tt, w))
  /\
  (forall (g : ptr) (mh : gdr_mh_t),
     GDRHandle._handle o = Some mh ->
     contexts w !! GDRHandle._gdr o = Some (GDRCopy.Build (Some g)) ->
     GDRHandle_unpin lib self w =
       (status_outcome (gdr_unpin_buffer lib (calls w) g mh) "Failed to unpin buffer",
        with_handle self
          (GDRHandle.Build (GDRHandle._gdr o) None (GDRHandle._mapped_ptr o)
             (GDRHandle._mapped_size o) (GDRHandle._info o))
          (log (c_gdr_unpin_buffer g mh) w))
     /\
     (forall lib' : Driver,
        GDRHandle_unpin lib' self (GDRHandle_unpin lib self w).2 =
          (Return tt, (GDRHandle_unpin lib self w).2)))
  /\
  (forall lib' : Driver,
     (GDRHandle_unpin lib' self (GDRHandle_unpin lib self w).2).2 =
       (GDRHandle_unpin lib self w).2
     /\
     calls (GDRHandle_unpin lib' self (GDRHandle_unpin lib self w).2).2 =
       calls (GDRHandle_unpin lib self w).2)
  /\
  (is_pinned o = true ->
   contexts w !! GDRHandle._gdr o = Some (GDRCopy.Build None) ->
   GDRHandle_unpin lib self w = (Raise TypeError, w)).
Proof.
  intros Hs. split; [|split; [|split]].
  - intros Hp. by apply unpin_unpinned with o.
  - intros g mh Hh Hc.
    rewrite (unpin_native lib w self o g mh) by done. cbn [snd].
    split; [done|].
    intros lib'. apply unpin_unpinned with (GDRHandle.set__handle None o).
    + apply with_handle_lookup.
    + reflexivity.
  - intros lib'.
    pose proof (unpin_again_changes_nothing lib lib' w self) as E.
    split; [exact E|]. by rewrite E.
  - intros Hp Hc. unfold GDRHandle_unpin. run.
    unfold is_pinned in Hp. rewrite Hp. by run.
Qed.

Lemma unpin_clears_then_is_noop_witness :
  GDRHandle_unpin (mock_driver is_unpin) 0%nat (pinned_world (mock_driver is_unpin)) =
    (Raise (DriverError 22 "Failed to unpin buffer"),
     with_handle 0%nat unpinned_obj
       (log (c_gdr_unpin_buffer mock_context mock_mh)
          (pinned_world (mock_driver is_unpin))))
  /\
  GDRHandle_unpin (mock_driver is_unpin) 0%nat
    (GDRHandle_unpin (mock_driver is_unpin) 0%nat
       (pinned_world (mock_driver is_unpin))).2 =
    (Return tt,
     (GDRHandle_unpin (mock_driver is_unpin) 0%nat
        (pinned_world (mock_driver is_unpin))).2)
  /\
  GDRHandle_unpin mock_ok 0%nat
    (with_handle 0%nat unpinned_obj (pinned_world mock_ok)) =
    (Return tt,
     with_handle 0%nat unpinned_obj (pinned_world mock_ok))
  /\
  calls (GDRHandle_unpin mock_ok 0%nat
           (GDRHandle_unpin mock_ok 0%nat (orphaned_world mock_ok)).2).2 =
    calls (GDRHandle_unpin mock_ok 0%nat (orphaned_world mock_ok)).2
  /\
  GDRHandle_unpin mock_ok 0%nat (orphaned_world mock_ok) =
    (Raise TypeError, orphaned_world mock_ok).
Proof.
  pose proof (proj1 (proj2 (unpin_clears_then_is_noop (mock_driver is_unpin)
                              (pinned_world (mock_driver is_unpin)) 0%nat
                              pinned_obj eq_refl))
                mock_context mock_mh eq_refl eq_refl)
    as [H1 H2].
  split; [exact H1|]. split; [exact (H2 (mock_driver is_unpin))|].
  split.
  { apply (proj1 (unpin_clears_then_is_noop mock_ok
                    (with_handle 0%nat unpinned_obj (pinned_world mock_ok)) 0%nat
                    unpinned_obj eq_refl)).
    reflexivity. }
  pose proof (proj2 (proj2 (unpin_clears_then_is_noop mock_ok
                              (orphaned_world mock_ok) 0%nat mapped_obj eq_refl)))
    as [H3 H4].
  split; [exact (proj2 (H3 mock_ok))|].
  apply H4; reflexivity.
Defined.

(** C3 as stated fails on the same orphaned handle: the pin token is still
    held, the context's [_handle] is [None], and every [unpin] raises
    before the native call and before the token is cleared. *)
Lemma unpin_twice_raises_on_orphaned_handle :
  (orphaned_program mock_ok empty_world).1 = Return (0%nat, 0%nat)
  /\ handles (orphaned_world mock_ok) !! 0%nat = Some mapped_obj
  /\ contexts (orphaned_world mock_ok) !! 0%nat = Some (GDRCopy.Build None)
  /\ GDRHandle_unpin mock_ok 0%nat (orphaned_world mock_ok) =
       (Raise TypeError, orphaned_world mock_ok)
  /\ raises (GDRHandle_unpin mock_ok 0%nat
               (GDRHandle_unpin mock_ok 0%nat (orphaned_world mock_ok)).2) = true.
Proof. repeat split; vm_compute; reflexivity. Qed.


(** ** The claims about the copies *)

Lemma copy_to_unmapped (lib : Driver) (w : World) (self : ref) (o : GDRHandle.obj)
    (host size : Z) :
  handles w !! self = Some o ->
  is_mapped o = false ->
  GDRHandle_copy_to_mapping lib self host size w = (Raise NotMappedError, w).
Proof.
  intros Hs Hm. unfold GDRHandle_copy_to_mapping. run.
  unfold is_mapped in Hm. by rewrite Hm.
Qed.

Lemma copy_from_unmapped (lib : Driver) (w : World) (self : ref) (o : GDRHandle.obj)
    (host size : Z) :
  handles w !! self = Some o ->
  is_mapped o = false ->
  GDRHandle_copy_from_mapping lib self host size w = (Raise NotMappedError, w).
Proof.
  intros Hs Hm. unfold GDRHandle_copy_from_mapping. run.
  unfold is_mapped in Hm. by rewrite Hm.
Qed.

Lemma copy_to_native (lib : Driver) (w : World) (self : ref) (o : GDRHandle.obj)
    (mh : gdr_mh_t) (va : ptr) (host size : Z) :
  handles w !! self = Some o ->
  is_mapped o = true ->
  GDRHandle._mapped_ptr o = Some va ->
  GDRHandle._handle o = Some mh ->
  0 <= size < 2 ^ 64 ->
  GDRHandle_copy_to_mapping lib self host size w =
    (status_outcome
       (gdr_copy_to_mapping lib (calls w) mh va (ffi_cast_void_p host) size)
       "Failed to copy to mapping",
     log (c_gdr_copy_to_mapping mh va (ffi_cast_void_p host) size) w).
Proof.
  intros Hs Hm Hp Hh Hsz. unfold GDRHandle_copy_to_mapping. run.
  unfold is_mapped in Hm. rewrite Hm. simpl. rewrite Hp, Hh. run.
  by rewrite check_error_outcome.
Qed.

Lemma copy_from_native (lib : Driver) (w : World) (self : ref) (o : GDRHandle.obj)
    (mh : gdr_mh_t) (va : ptr) (host size : Z) :
  handles w !! self = Some o ->
  is_mapped o = true ->
  GDRHandle._mapped_ptr o = Some va ->
  GDRHandle._handle o = Some mh ->
  0 <= size < 2 ^ 64 ->
  GDRHandle_copy_from_mapping lib self host size w =
    (status_outcome
       (gdr_copy_from_mapping lib (calls w) mh (ffi_cast_void_p host) va size)
       "Failed to copy from mapping",
     log (c_gdr_copy_from_mapping mh (ffi_cast_void_p host) va size) w).
Proof.
  intros Hs Hm Hp Hh Hsz. unfold GDRHandle_copy_from_mapping. run.
  unfold is_mapped in Hm. rewrite Hm. simpl. rewrite Hp, Hh. run.
  by rewrite check_error_outcome.
Qed.

(** C5. On a handle without a live mapping both copies fail with the
    not-mapped error and leave the world, the log of native calls
    included, as it was.  On a mapped handle the wrapper hands the whole
    size to the driver, also when it exceeds the mapped size; when the
    driver rejects the call with a non-zero status, the copy raises the
    driver error carrying that status, and the handle is untouched. *)
Theorem copy_requires_live_mapping (lib : Driver) (w : World) (self : ref)
    (o : GDRHandle.obj) (host size : Z) :
  handles w !! self = Some o ->
  (is_mapped o = false ->
     GDRHandle_copy_to_mapping lib self host size w = (Raise NotMappedError, w)
     /\ GDRHandle_copy_from_mapping lib self host size w = (Raise NotMappedError, w))
  /\
  (is_mapped o = true ->
     forall (mh : gdr_mh_t) (va : ptr),
       GDRHandle._mapped_ptr o = Some va ->
       GDRHandle._handle o = Some mh ->
       GDRHandle._mapped_size o < size ->
       0 <= size < 2 ^ 64 ->
       (forall st : Z,
          gdr_copy_to_mapping lib (calls w) mh va (ffi_cast_void_p host) size = st ->
          st <> 0 ->
          GDRHandle_copy_to_mapping lib self host size w =
            (Raise (DriverError st "Failed to copy to mapping"),
             log (c_gdr_copy_to_mapping mh va (ffi_cast_void_p host) size) w))
       /\
       (forall st : Z,
          gdr_copy_from_mapping lib (calls w) mh (ffi_cast_void_p host) va size = st ->
          st <> 0 ->
          GDRHandle_copy_from_mapping lib self host size w =
            (Raise (DriverError st "Failed to copy from mapping"),
             log (c_gdr_copy_from_mapping mh (ffi_cast_void_p host) va size) w))).
Proof.
  intros Hs. split.
  - intros Hm. split.
    + by apply copy_to_unmapped with o.
    + by apply copy_from_unmapped with o.
  - intros Hm mh va Hp Hh Hbig Hsz. split.
    + intros st Hd Hst.
      rewrite (copy_to_native lib w self o mh va) by done.
      rewrite Hd. unfold status_outcome.
      apply Z.eqb_neq in Hst. by rewrite Hst.
    + intros st Hd Hst.
      rewrite (copy_from_native lib w self o mh va) by done.
      rewrite Hd. unfold status_outcome.
      apply Z.eqb_neq in Hst. by rewrite Hst.
Qed.

Lemma copy_requires_live_mapping_witness :
  (GDRHandle_copy_to_mapping mock_ok 0%nat 77 4096 (pinned_world mock_ok) =
     (Raise NotMappedError, pinned_world mock_ok)
   /\ GDRHandle_copy_from_mapping mock_ok 0%nat 77 4096 (pinned_world mock_ok) =
        (Raise NotMappedError, pinned_world mock_ok))
  /\
  (GDRHandle_copy_to_mapping (mock_driver is_copy) 0%nat 77 8192
     (mapped_world (mock_driver is_copy)) =
     (Raise (DriverError 22 "Failed to copy to mapping"),
      log (c_gdr_copy_to_mapping mock_mh mock_host_va (ffi_cast_void_p 77) 8192)
        (mapped_world (mock_driver is_copy)))
   /\ GDRHandle_copy_from_mapping (mock_driver is_copy) 0%nat 77 8192
        (mapped_world (mock_driver is_copy)) =
        (Raise (DriverError 22 "Failed to copy from mapping"),
         log (c_gdr_copy_from_mapping mock_mh (ffi_cast_void_p 77) mock_host_va 8192)
           (mapped_world (mock_driver is_copy)))).
Proof.
  split.
  - apply (proj1 (copy_requires_live_mapping mock_ok (pinned_world mock_ok)
                    0%nat pinned_obj 77 4096 eq_refl)).
    reflexivity.
  - assert (GDRHandle._mapped_size mapped_obj < 8192) as Hbig by (simpl; lia).
    assert (0 <= 8192 < 2 ^ 64) as Hsz by lia.
    assert ((22 : Z) <> 0) as H22 by lia.
    pose proof (proj2 (copy_requires_live_mapping (mock_driver is_copy)
                         (mapped_world (mock_driver is_copy)) 0%nat mapped_obj
                         77 8192 eq_refl)
                  eq_refl mock_mh mock_host_va eq_refl eq_refl Hbig Hsz)
      as [H1 H2].
    split; [exact (H1 22 eq_refl H22) | exact (H2 22 eq_refl H22)].
Defined.

(** ** The claims about the device context *)

Lemma open_already_open (lib : Driver) (w : World) (self : ref) (c : GDRCopy.obj) :
  contexts w !! self = Some c ->
  is_open c = true ->
  GDRCopy_open lib self w = (Raise AlreadyOpenError, w).
Proof.
  intros Hs Ho. unfold GDRCopy_open. run.
  unfold is_open in Ho. by rewrite Ho.
Qed.

Lemma open_closed (lib : Driver) (w : World) (self : ref) (c : GDRCopy.obj) :
  contexts w !! self = Some c ->
  is_open c = false ->
  GDRCopy_open lib self w =
    (if gdr_open lib (calls w) =? NULL
     then Raise (Exc_GDRError (GDRError__init__ (-1) "Failed to open GDRCopy"))
     else Return tt,
     with_context self (GDRCopy.Build (Some (gdr_open lib (calls w))))
       (log c_gdr_open w)).
Proof.
  intros Hs Ho. unfold GDRCopy_open. run.
  unfold is_open in Ho. rewrite Ho.
  unfold lib_gdr_open. run. simpl.
  by destruct (gdr_open lib (calls w) =? NULL).
Qed.

(** C6. [open] on an open context raises the already-open error and
    leaves the world, the held driver context included, as it was.  On a
    closed context it asks the driver for a context and stores what the
    driver returns; when that is [NULL] it raises the driver error (code
    -1) and the context is still closed, otherwise it returns and the
    context is open. *)
Theorem open_is_guarded (lib : Driver) (w : World) (self : ref) (c : GDRCopy.obj) :
  contexts w !! self = Some c ->
  (is_open c = true -> GDRCopy_open lib self w = (Raise AlreadyOpenError, w))
  /\
  (is_open c = false ->
     (GDRCopy_open lib self w).2 =
       with_context self (GDRCopy.Build (Some (gdr_open lib (calls w))))
         (log c_gdr_open w)
     /\
     (gdr_open lib (calls w) = NULL ->
        (GDRCopy_open lib self w).1 =
          Raise (Exc_GDRError (Build_GDRError (-1) "Failed to open GDRCopy"))
        /\ is_open (GDRCopy.Build (Some (gdr_open lib (calls w)))) = false)
     /\
     (gdr_open lib (calls w) <> NULL ->
        (GDRCopy_open lib self w).1 = Return tt
        /\ is_open (GDRCopy.Build (Some (gdr_open lib (calls w)))) = true)).
Proof.
  intros Hs. split.
  - intros Ho. by apply open_already_open with c.
  - intros Ho. rewrite (open_closed lib w self c) by done. cbn [fst snd].
    split; [done|]. split.
    + intros E. rewrite E. by vm_compute.
    + intros E. apply Z.eqb_neq in E. unfold is_open, truthy_ptr. cbn.
      by rewrite E.
Qed.

Lemma open_is_guarded_witness :
  GDRCopy_open mock_ok 0%nat (pinned_world mock_ok) =
    (Raise AlreadyOpenError, pinned_world mock_ok)
  /\ (GDRCopy_open mock_ok 0%nat fresh_context_world).1 = Return tt
  /\ (GDRCopy_open (mock_driver is_open_call) 0%nat fresh_context_world).1 =
       Raise (Exc_GDRError (Build_GDRError (-1) "Failed to open GDRCopy")).
Proof.
  split; [|split].
  - apply (proj1 (open_is_guarded mock_ok (pinned_world mock_ok) 0%nat
                    open_ctx eq_refl)).
    reflexivity.
  - apply (proj2 (open_is_guarded mock_ok fresh_context_world 0%nat
                    (GDRCopy.Build None) eq_refl)); [reflexivity|].
    vm_compute. discriminate.
  - apply (proj2 (open_is_guarded (mock_driver is_open_call) fresh_context_world
                    0%nat (GDRCopy.Build None) eq_refl)); reflexivity.
Defined.

Lemma close_closed (lib : Driver) (w : World) (self : ref) (c : GDRCopy.obj) :
  contexts w !! self = Some c ->
  is_open c = false ->
  GDRCopy_close lib self w = (Return tt, w).
Proof.
  intros Hs Ho. unfold GDRCopy_close. run.
  unfold is_open in Ho. by rewrite Ho.
Qed.

Lemma close_native (lib : Driver) (w : World) (self : ref) (g : ptr) :
  contexts w !! self = Some (GDRCopy.Build (Some g)) ->
  g <> NULL ->
  GDRCopy_close lib self w =
    (status_outcome (gdr_close lib (calls w) g) "Failed to close GDRCopy",
     with_context self (GDRCopy.Build None) (log (c_gdr_close g) w)).
Proof.
  intros Hs Hg. unfold GDRCopy_close. run. simpl.
  apply Z.eqb_neq in Hg. rewrite Hg. simpl. run.
  by rewrite check_error_outcome.
Qed.

(** C7. [close] on a closed context does nothing and raises nothing.  On
    an open context the native close call is issued and [_handle] is set
    to [None] whatever the status; the call raises the driver error exactly
    when the status is not zero; and a [close] that follows does nothing:
    no exception, no native call. *)
Theorem close_clears_then_is_noop (lib : Driver) (w : World) (self : ref)
    (c : GDRCopy.obj) :
  contexts w !! self = Some c ->
  (is_open c = false -> GDRCopy_close lib self w = (Return tt, w))
  /\
  (is_open c = true ->
     exists g : ptr,
       GDRCopy._handle c = Some g
       /\ GDRCopy_close lib self w =
            (status_outcome (gdr_close lib (calls w) g) "Failed to close GDRCopy",
             with_context self (GDRCopy.Build None) (log (c_gdr_close g) w))
       /\ (gdr_close lib (calls w) g <> 0 ->
           (GDRCopy_close lib self w).1 =
             Raise (DriverError (gdr_close lib (calls w) g) "Failed to close GDRCopy"))
       /\ (forall lib' : Driver,
             GDRCopy_close lib' self (GDRCopy_close lib self w).2 =
               (Return tt, (GDRCopy_close lib self w).2))).
Proof.
  intros Hs. split.
  - intros Ho. by apply close_closed with c.
  - intros Ho. destruct (truthy_ptr_Some _ Ho) as (g & Hg & Hnz).
    exists g. split; [done|].
    destruct c as [h]. simpl in Hg. subst h.
    rewrite (close_native lib w self g) by done. cbn [fst snd].
    split; [done|]. split.
    + intros Hst. unfold status_outcome.
      apply Z.eqb_neq in Hst. by rewrite Hst.
    + intros lib'. apply close_closed with (GDRCopy.Build None).
      * apply with_context_lookup.
      * reflexivity.
Qed.

Lemma close_clears_then_is_noop_witness :
  GDRCopy_close mock_ok 0%nat fresh_context_world = (Return tt, fresh_context_world)
  /\
  exists g : ptr,
    GDRCopy._handle open_ctx = Some g
    /\ GDRCopy_close (mock_driver is_close) 0%nat (pinned_world (mock_driver is_close)) =
         (status_outcome
            (gdr_close (mock_driver is_close)
               (calls (pinned_world (mock_driver is_close))) g)
            "Failed to close GDRCopy",
          with_context 0%nat (GDRCopy.Build None)
            (log (c_gdr_close g) (pinned_world (mock_driver is_close))))
    /\ (gdr_close (mock_driver is_close)
          (calls (pinned_world (mock_driver is_close))) g <> 0 ->
        (GDRCopy_close (mock_driver is_close) 0%nat
           (pinned_world (mock_driver is_close))).1 =
          Raise (DriverError
                   (gdr_close (mock_driver is_close)
                      (calls (pinned_world (mock_driver is_close))) g)
                   "Failed to close GDRCopy"))
    /\ (forall lib' : Driver,
          GDRCopy_close lib' 0%nat
            (GDRCopy_close (mock_driver is_close) 0%nat
               (pinned_world (mock_driver is_close))).2 =
            (Return tt,
             (GDRCopy_close (mock_driver is_close) 0%nat
                (pinned_world (mock_driver is_close))).2)).
Proof.
  split.
  - apply (proj1 (close_clears_then_is_noop mock_ok fresh_context_world 0%nat
                    (GDRCopy.Build None) eq_refl)).
    reflexivity.
  - apply (proj2 (close_clears_then_is_noop (mock_driver is_close)
                    (pinned_world (mock_driver is_close)) 0%nat open_ctx eq_refl)).
    reflexivity.
Defined.


(** ** The guards of the device context *)

Lemma pin_buffer_not_open (lib : Driver) (w : World) (self : ref) (c : GDRCopy.obj)
    (addr size p2p_token va_space : Z) :
  contexts w !! self = Some c ->
  is_open c = false ->
  GDRCopy_pin_buffer lib self addr size p2p_token va_space w = (Raise NotOpenError, w).
Proof.
  intros Hs Ho. unfold GDRCopy_pin_buffer. run.
  unfold is_open in Ho. by rewrite Ho.
Qed.

Lemma pin_buffer_v2_not_open (lib : Driver) (w : World) (self : ref) (c : GDRCopy.obj)
    (addr size flags : Z) :
  contexts w !! self = Some c ->
  is_open c = false ->
  GDRCopy_pin_buffer_v2 lib self addr size flags w = (Raise NotOpenError, w).
Proof.
  intros Hs Ho. unfold GDRCopy_pin_buffer_v2. run.
  unfold is_open in Ho. by rewrite Ho.
Qed.

Lemma get_attribute_not_open (lib : Driver) (w : World) (self : ref) (c : GDRCopy.obj)
    (attr : Z) :
  contexts w !! self = Some c ->
  is_open c = false ->
  GDRCopy_get_attribute lib self attr w = (Raise NotOpenError, w).
Proof.
  intros Hs Ho. unfold GDRCopy_get_attribute. run.
  unfold is_open in Ho. by rewrite Ho.
Qed.

(** [get_driver_version] tests nothing: it hands [_handle] to cffi. *)
Lemma get_driver_version_unguarded (lib : Driver) (w : World) (self : ref)
    (c : GDRCopy.obj) :
  contexts w !! self = Some c ->
  get_driver_version lib self w =
    match GDRCopy._handle c with
    | None => (Raise TypeError, w)
    | Some g =>
        let r := gdr_driver_get_version lib (calls w) g in
        (if r.1 =? 0 then Return r.2
         else Raise (DriverError r.1 "Failed to get driver version"),
         log (c_gdr_driver_get_version g) w)
    end.
Proof.
  intros Hs. unfold get_driver_version. run.
  destruct (GDRCopy._handle c) as [g|]; [|done].
  unfold lib_gdr_driver_get_version. simpl. run.
  destruct ((gdr_driver_get_version lib (calls w) g).1 =? 0) eqn:E.
  - apply Z.eqb_eq in E. rewrite E. by run.
  - apply Z.eqb_neq in E. by run.
Qed.

(** C8 at the failing inputs.  On a context that was never opened the
    three guarded operations raise the not-open error and touch nothing,
    but [get_driver_version] raises the [TypeError] of the argument
    conversion.  On a context whose [open] the driver refused ([_handle]
    is the [NULL] cdata, so the context is closed), [get_driver_version]
    issues the native call with the [NULL] context. *)
Theorem get_driver_version_skips_open_check :
  contexts fresh_context_world !! 0%nat = Some (GDRCopy.Build None)
  /\ GDRCopy_pin_buffer mock_ok 0%nat 4096 4096 0 0 fresh_context_world =
       (Raise NotOpenError, fresh_context_world)
  /\ GDRCopy_pin_buffer_v2 mock_ok 0%nat 4096 4096 GDR_PIN_FLAG_DEFAULT
       fresh_context_world = (Raise NotOpenError, fresh_context_world)
  /\ GDRCopy_get_attribute mock_ok 0%nat GDR_ATTR_USE_PERSISTENT_MAPPING
       fresh_context_world = (Raise NotOpenError, fresh_context_world)
  /\ get_driver_version mock_ok 0%nat fresh_context_world =
       (Raise TypeError, fresh_context_world)
  /\ contexts failed_open_world !! 0%nat = Some (GDRCopy.Build (Some NULL))
  /\ is_open (GDRCopy.Build (Some NULL)) = false
  /\ get_driver_version (mock_driver is_open_call) 0%nat failed_open_world =
       (Return (2, 5), log (c_gdr_driver_get_version NULL) failed_open_world).
Proof. repeat split; vm_compute; reflexivity. Qed.

(** ** Teardown *)

(** C9, as the code has it.  The teardown hook of a handle runs [unmap]
    and then [unpin], that of a context runs [close], and neither handles
    an exception.  With the native calls issued: when the handle is mapped
    and the unmap status is 0, the hook goes on to [unpin] and ends as
    [unpin] ends (silently when that status is 0 too), the handle unmapped
    and unpinned; when the unmap status is not 0 the hook raises that
    driver error, the mapping record cleared; an unmapped pinned handle is
    unpinned, the hook raising the driver error when the unpin status is
    not 0; on a handle with nothing left to release, and on a closed
    context, the hook does nothing; on an open context it ends as [close]
    ends, raising the driver error when the close status is not 0. *)
Theorem teardown_hooks_do_not_catch (lib : Driver) (w : World) :
  (forall (self : ref) (o : GDRHandle.obj) (g : ptr) (mh : gdr_mh_t) (va : ptr),
     handles w !! self = Some o ->
     GDRHandle._mapped_ptr o = Some va ->
     va <> NULL ->
     contexts w !! GDRHandle._gdr o = Some (GDRCopy.Build (Some g)) ->
     GDRHandle._handle o = Some mh ->
     0 <= GDRHandle._mapped_size o < 2 ^ 64 ->
     let c1 := c_gdr_unmap g mh va (GDRHandle._mapped_size o) in
     let st1 := gdr_unmap lib (calls w) g mh va (GDRHandle._mapped_size o) in
     let w1 := with_handle self (unmapped_obj o) (log c1 w) in
     (st1 = 0 ->
        GDRHandle__del__ lib self w =
          (status_outcome (gdr_unpin_buffer lib (calls w ++ [c1]) g mh)
             "Failed to unpin buffer",
           with_handle self (GDRHandle.set__handle None (unmapped_obj o))
             (log (c_gdr_unpin_buffer g mh) w1)))
     /\
     (st1 <> 0 ->
        GDRHandle__del__ lib self w =
          (Raise (DriverError st1 "Failed to unmap buffer"), w1)))
  /\
  (forall (self : ref) (o : GDRHandle.obj) (g : ptr) (mh : gdr_mh_t),
     handles w !! self = Some o ->
     is_mapped o = false ->
     contexts w !! GDRHandle._gdr o = Some (GDRCopy.Build (Some g)) ->
     GDRHandle._handle o = Some mh ->
     GDRHandle__del__ lib self w =
       (status_outcome (gdr_unpin_buffer lib (calls w) g mh) "Failed to unpin buffer",
        with_handle self (GDRHandle.set__handle None o)
          (log (c_gdr_unpin_buffer g mh) w)))
  /\
  (forall (self : ref) (o : GDRHandle.obj),
     handles w !! self = Some o ->
     is_mapped o = false ->
     is_pinned o = false ->
     GDRHandle__del__ lib self w = (Return tt, w))
  /\
  (forall (self : ref) (c : GDRCopy.obj),
     contexts w !! self = Some c ->
     is_open c = false ->
     GDRCopy__del__ lib self w = (Return tt, w))
  /\
  (forall (self : ref) (g : ptr),
     contexts w !! self = Some (GDRCopy.Build (Some g)) ->
     g <> NULL ->
     GDRCopy__del__ lib self w =
       (status_outcome (gdr_close lib (calls w) g) "Failed to close GDRCopy",
        with_context self (GDRCopy.Build None) (log (c_gdr_close g) w))).
Proof.
  split; [|split; [|split; [|split]]].
  - intros self o g mh va Hs Hp Hva Hc Hh Hsz c1 st1 w1. split.
    + intros Hst. unfold GDRHandle__del__.
      erewrite bind_return.
      2:{ rewrite (unmap_native lib w self o g mh va) by done.
          fold st1. rewrite Hst. reflexivity. }
      rewrite (unpin_native lib _ self (unmapped_obj o) g mh).
      * by rewrite calls_with_handle, calls_log.
      * apply with_handle_lookup.
      * done.
      * by rewrite contexts_with_handle, contexts_log.
    + intros Hst. unfold GDRHandle__del__.
      erewrite bind_raise; [reflexivity|].
      rewrite (unmap_native lib w self o g mh va) by done.
      fold st1. unfold status_outcome.
      apply Z.eqb_neq in Hst. by rewrite Hst.
  - intros self o g mh Hs Hm Hc Hh. unfold GDRHandle__del__.
    erewrite bind_return by (by apply unmap_unmapped with o).
    by apply unpin_native.
  - intros self o Hs Hm Hp. unfold GDRHandle__del__.
    erewrite bind_return by (by apply unmap_unmapped with o).
    by apply unpin_unpinned with o.
  - intros self c Hs Ho. by apply close_closed with c.
  - intros self g Hs Hg. by apply close_native.
Qed.

Lemma teardown_hooks_do_not_catch_witness :
  GDRHandle__del__ mock_ok 0%nat (mapped_world mock_ok) =
    (status_outcome
       (gdr_unpin_buffer mock_ok
          (calls (mapped_world mock_ok)
             ++ [c_gdr_unmap mock_context mock_mh mock_host_va 4096])
          mock_context mock_mh)
       "Failed to unpin buffer",
     with_handle 0%nat (GDRHandle.set__handle None (unmapped_obj mapped_obj))
       (log (c_gdr_unpin_buffer mock_context mock_mh)
          (with_handle 0%nat (unmapped_obj mapped_obj)
             (log (c_gdr_unmap mock_context mock_mh mock_host_va 4096)
                (mapped_world mock_ok)))))
  /\
  GDRCopy__del__ (mock_driver is_close) 0%nat (pinned_world (mock_driver is_close)) =
    (status_outcome
       (gdr_close (mock_driver is_close)
          (calls (pinned_world (mock_driver is_close))) mock_context)
       "Failed to close GDRCopy",
     with_context 0%nat (GDRCopy.Build None)
       (log (c_gdr_close mock_context) (pinned_world (mock_driver is_close)))).
Proof.
  split.
  - assert (mock_host_va <> NULL) as Hva by (vm_compute; discriminate).
    assert (0 <= GDRHandle._mapped_size mapped_obj < 2 ^ 64) as Hsz
      by (simpl; lia).
    apply (proj1 (teardown_hooks_do_not_catch mock_ok (mapped_world mock_ok))
             0%nat mapped_obj mock_context mock_mh mock_host_va
             eq_refl eq_refl Hva eq_refl eq_refl Hsz).
    reflexivity.
  - assert (mock_context <> NULL) as Hg by (vm_compute; discriminate).
    apply (proj2 (proj2 (proj2 (proj2
             (teardown_hooks_do_not_catch (mock_driver is_close)
                (pinned_world (mock_driver is_close))))))
             0%nat mock_context eq_refl Hg).
Defined.

(** C9 as stated fails on a mapped, pinned handle whose native unmap call
    fails: the hook raises the driver error, and since the exception
    leaves the hook before [unpin] runs, no unpin call is issued and the
    handle keeps its pin token.  The hook of an open context raises when
    the native close call fails. *)
Lemma handle_teardown_raises_and_skips_unpin :
  GDRHandle__del__ (mock_driver is_unmap) 0%nat (mapped_world (mock_driver is_unmap)) =
    (Raise (DriverError 22 "Failed to unmap buffer"),
     with_handle 0%nat pinned_obj
       (log (c_gdr_unmap mock_context mock_mh mock_host_va 4096)
          (mapped_world (mock_driver is_unmap))))
  /\ forallb (fun c => negb (is_unpin c))
       (calls (GDRHandle__del__ (mock_driver is_unmap) 0%nat
                 (mapped_world (mock_driver is_unmap))).2) = true
  /\ is_pinned pinned_obj = true
  /\ raises (GDRCopy__del__ (mock_driver is_close) 0%nat
               (pinned_world (mock_driver is_close))) = true.
Proof. repeat split; vm_compute; reflexivity. Qed.


(** ** [get_info] and the scenario *)

(** Once a dictionary is cached, [get_info] returns it and asks nothing. *)
Lemma get_info_cached (lib : Driver) (w : World) (self : ref) (o : GDRHandle.obj)
    (d : InfoDict.t) :
  handles w !! self = Some o ->
  GDRHandle._info o = Some d ->
  GDRHandle_get_info lib self w = (Return (Some d), w).
Proof.
  intros Hs Hi. unfold GDRHandle_get_info. run.
  rewrite Hi. simpl. run. unfold ret. by rewrite Hi.
Qed.

Lemma get_info_query (lib : Driver) (w : World) (self : ref) (o : GDRHandle.obj)
    (g : ptr) (mh : gdr_mh_t) :
  handles w !! self = Some o ->
  GDRHandle._info o = None ->
  contexts w !! GDRHandle._gdr o = Some (GDRCopy.Build (Some g)) ->
  GDRHandle._handle o = Some mh ->
  let r := gdr_get_info_v2 lib (calls w) g mh in
  GDRHandle_get_info lib self w =
    if r.1 =? 0
    then (Return (Some (info_dict r.2)),
          with_handle self (GDRHandle.set__info (Some (info_dict r.2)) o)
            (log (c_gdr_get_info_v2 g mh) w))
    else (Raise (DriverError r.1 "Failed to get info"),
          log (c_gdr_get_info_v2 g mh) w).
Proof.
  intros Hs Hi Hc Hh r. unfold GDRHandle_get_info. run.
  rewrite Hi, Hh. simpl.
  destruct (r.1 =? 0) eqn:E.
  - apply Z.eqb_eq in E.
    erewrite bind_return.
    2:{ run. simpl. run. fold r. rewrite E. run.
        apply upd_handle_ok. lookup_tac. }
    run. reflexivity.
  - apply Z.eqb_neq in E.
    erewrite bind_raise; [reflexivity|].
    run. simpl. run. fold r. by run.
Qed.

Lemma pin_buffer_v2_native (lib : Driver) (w : World) (self : ref) (g : ptr)
    (addr size flags : Z) :
  contexts w !! self = Some (GDRCopy.Build (Some g)) ->
  g <> NULL ->
  0 <= addr < 2 ^ 64 -> 0 <= size < 2 ^ 64 -> 0 <= flags < 2 ^ 32 ->
  let r := gdr_pin_buffer_v2 lib (calls w) g addr size flags in
  GDRCopy_pin_buffer_v2 lib self addr size flags w =
    if r.1 =? 0
    then (Return (fresh (dom (handles w))),
          with_handle (fresh (dom (handles w)))
            (GDRHandle.Build self (Some r.2) None 0 None)
            (log (c_gdr_pin_buffer_v2 g addr size flags) w))
    else (Raise (DriverError r.1 "Failed to pin buffer (v2)"),
          log (c_gdr_pin_buffer_v2 g addr size flags) w).
Proof.
  intros Hs Hg Ha Hsz Hf r. unfold GDRCopy_pin_buffer_v2. run. simpl.
  apply Z.eqb_neq in Hg. rewrite Hg. simpl. run. fold r.
  destruct (r.1 =? 0) eqn:E.
  - apply Z.eqb_eq in E. rewrite E. run. reflexivity.
  - apply Z.eqb_neq in E. by run.
Qed.

(** C4, as the code has it.  Against a driver whose calls all succeed the
    scenario runs to its end without an exception; [map] returns the
    non-zero address that the driver gave; the first [get_info] is the
    only one that asks the driver, and the second returns the dictionary
    that the first one cached, so that it reports [mapped] as the first
    did: false when the driver reported the range as not mapped before
    [map]. *)
Theorem scenario_second_get_info_is_cached (lib : Driver) :
  always_succeeds lib ->
  let g := gdr_open lib [] in
  let pin := c_gdr_pin_buffer_v2 g 4096 4096 GDR_PIN_FLAG_DEFAULT in
  let mh := (gdr_pin_buffer_v2 lib [c_gdr_open] g 4096 4096 GDR_PIN_FLAG_DEFAULT).2 in
  let answer := (gdr_get_info_v2 lib [c_gdr_open; pin] g mh).2 in
  let va := (gdr_map lib [c_gdr_open; pin; c_gdr_get_info_v2 g mh] g mh 4096).2 in
  (scenario lib empty_world).1 =
    Return (Some (info_dict answer), int_of_uintptr va, Some (info_dict answer))
  /\ int_of_uintptr va <> 0
  /\ (gdr_info_v2.mapped answer = 0 -> InfoDict.mapped (info_dict answer) = false)
  /\ calls (scenario lib empty_world).2 =
       [c_gdr_open; pin; c_gdr_get_info_v2 g mh; c_gdr_map g mh 4096;
        c_gdr_unmap g mh va 4096; c_gdr_unpin_buffer g mh; c_gdr_close g].
Proof.
  intros (Hopen & Hclose & _ & Hpin & Hunpin & _ & Hinfo & Hmap & Hunmap & _)
    g pin mh answer va.
  set (info := info_dict answer).
  set (w0 := with_context 0%nat (GDRCopy.Build None) empty_world).
  set (w1 := with_context 0%nat (GDRCopy.Build (Some g)) (log c_gdr_open w0)).
  set (w2 := with_handle 0%nat (GDRHandle.Build 0%nat (Some mh) None 0 None)
               (log pin w1)).
  set (w3 := with_handle 0%nat (GDRHandle.Build 0%nat (Some mh) None 0 (Some info))
               (log (c_gdr_get_info_v2 g mh) w2)).
  set (w4 := with_handle 0%nat
               (GDRHandle.Build 0%nat (Some mh) (Some va) 4096 (Some info))
               (log (c_gdr_map g mh 4096) w3)).
  set (w5 := with_handle 0%nat (GDRHandle.Build 0%nat (Some mh) None 0 (Some info))
               (log (c_gdr_unmap g mh va 4096) w4)).
  set (w6 := with_handle 0%nat (GDRHandle.Build 0%nat None None 0 (Some info))
               (log (c_gdr_unpin_buffer g mh) w5)).
  set (w7 := with_context 0%nat (GDRCopy.Build None) (log (c_gdr_close g) w6)).
  assert (g <> NULL) as Hg by apply Hopen.
  assert (va <> NULL) as Hva by apply Hmap.
  assert (GDRCopy__init__ empty_world = (Return 0%nat, w0)) as E0 by reflexivity.
  assert (GDRCopy_open lib 0%nat w0 = (Return tt, w1)) as E1.
  { rewrite (open_closed lib w0 0%nat (GDRCopy.Build None)) by done.
    change (gdr_open lib (calls w0)) with g.
    apply Z.eqb_neq in Hg. by rewrite Hg. }
  assert (GDRCopy_pin_buffer_v2 lib 0%nat 4096 4096 GDR_PIN_FLAG_DEFAULT w1 =
            (Return 0%nat, w2)) as E2.
  { rewrite (pin_buffer_v2_native lib w1 0%nat g) by (done || (unfold GDR_PIN_FLAG_DEFAULT; lia)).
    rewrite Hpin. reflexivity. }
  assert (GDRHandle_get_info lib 0%nat w2 = (Return (Some info), w3)) as E3.
  { rewrite (get_info_query lib w2 0%nat _ g mh) by done.
    rewrite Hinfo. reflexivity. }
  assert (GDRHandle_map lib 0%nat 4096 w3 = (Return (int_of_uintptr va), w4)) as E4.
  { rewrite (map_native lib w3 0%nat _ g mh 4096) by (done || lia).
    rewrite (proj1 (Hmap _ _ _ _)). reflexivity. }
  assert (GDRHandle_get_info lib 0%nat w4 = (Return (Some info), w4)) as E5.
  { by apply get_info_cached with
      (GDRHandle.Build 0%nat (Some mh) (Some va) 4096 (Some info)). }
  assert (GDRHandle_unmap lib 0%nat w4 = (Return tt, w5)) as E6.
  { rewrite (unmap_native lib w4 0%nat _ g mh va) by (done || (simpl; lia)).
    rewrite Hunmap. reflexivity. }
  assert (GDRHandle_unpin lib 0%nat w5 = (Return tt, w6)) as E7.
  { rewrite (unpin_native lib w5 0%nat _ g mh) by done.
    rewrite Hunpin. reflexivity. }
  assert (GDRCopy_close lib 0%nat w6 = (Return tt, w7)) as E8.
  { rewrite (close_native lib w6 0%nat g) by done.
    rewrite Hclose. reflexivity. }
  assert (scenario lib empty_world =
            (Return (Some info, int_of_uintptr va, Some info), w7)) as E.
  { unfold scenario.
    rewrite (bind_return _ _ _ _ _ E0), (bind_return _ _ _ _ _ E1),
      (bind_return _ _ _ _ _ E2), (bind_return _ _ _ _ _ E3),
      (bind_return _ _ _ _ _ E4), (bind_return _ _ _ _ _ E5),
      (bind_return _ _ _ _ _ E6), (bind_return _ _ _ _ _ E7),
      (bind_return _ _ _ _ _ E8).
    reflexivity. }
  rewrite E. cbn [fst snd]. split; [done|]. split; [done|]. split.
  - intros Hz. unfold info_dict, bool_of_int. simpl. by rewrite Hz.
  - reflexivity.
Qed.

Lemma scenario_second_get_info_is_cached_witness :
  (scenario mock_ok empty_world).1 =
    Return (Some (info_dict (mock_info false)), int_of_uintptr mock_host_va,
            Some (info_dict (mock_info false)))
  /\ InfoDict.mapped (info_dict (mock_info false)) = false.
Proof.
  assert (always_succeeds mock_ok) as H.
  { repeat split; intros; vm_compute; congruence. }
  pose proof (scenario_second_get_info_is_cached mock_ok H) as (H1 & _ & H3 & _).
  split; [exact H1 | apply H3; reflexivity].
Defined.

(** C4 as stated fails on the mock driver, whose calls all succeed and
    which reports the mapping as soon as [gdr_map] has run: the second
    [get_info] still reports [mapped] as false. *)
Lemma scenario_second_get_info_is_stale :
  (scenario mock_ok empty_world).1 =
    Return (Some (info_dict (mock_info false)), int_of_uintptr mock_host_va,
            Some (info_dict (mock_info false)))
  /\ InfoDict.mapped (info_dict (mock_info false)) = false
  /\ int_of_uintptr mock_host_va <> 0
  /\ gdr_info_v2.mapped
       (gdr_get_info_v2 mock_ok scenario_calls_until_map mock_context mock_mh).2 = 1.
Proof. repeat split; vm_compute; congruence. Qed.


(** * More of the bindings *)

(** ** What a statement does to the log of native calls *)

(** X1. No retries and no hidden calls: a statement appends at most one native
    call to the log (two for the teardown of a handle, none for the
    constructor), only calls of its own native function, and never drops a
    call. *)
Theorem statement_native_calls (lib : Driver) (op : Op) (w : World) :
  exists l : list Call,
    calls (exec lib op w) = calls w ++ l
    /\ (length l <= max_calls op)%nat
    /\ forallb (may_call op) l = true.
Proof.
  destruct op; unfold exec; unfold_methods.
  all: repeat (case_match; simplify_eq/=; try done).
  all: first
    [ by (exists []; rewrite app_nil_r; repeat split; simpl; lia)
    | by (eexists [_]; repeat split; simpl; lia)
    | by (eexists [_; _]; rewrite <- app_assoc; repeat split; simpl; lia) ].
Qed.

(** ** What an exception leaves behind *)

Lemma length_append (a b : string) :
  String.length (a +:+ b) = (String.length a + String.length b)%nat.
Proof. induction a as [|c a IH]; simpl; [done|]. by rewrite IH. Qed.

Lemma GDRError_message_nonempty (c : Z) (m : string) :
  message (GDRError__init__ c m) <> "".
Proof.
  unfold GDRError__init__. simpl. destruct (String.eqb m "") eqn:E.
  - discriminate.
  - apply String.eqb_neq in E. done.
Qed.

Lemma log_grows (l : list Call) (c : Call) : l ++ [c] <> l.
Proof.
  intros E. apply (f_equal length) in E. rewrite length_app in E. simpl in E. lia.
Qed.

Lemma log_grows2 (l : list Call) (c c' : Call) : (l ++ [c]) ++ [c'] <> l.
Proof.
  intros E. apply (f_equal length) in E. rewrite !length_app in E. simpl in E. lia.
Qed.

(** An object read after an assignment to one of its attributes. *)
Ltac invert_lookups :=
  repeat match goal with
  | H : alter _ _ _ !! _ = None |- _ => rewrite lookup_alter_None in H
  | H : alter _ ?i _ !! ?i = Some _ |- _ =>
      rewrite lookup_alter_eq in H;
      let x := fresh "x" in
      let Hx := fresh "Hx" in
      apply fmap_Some in H as (x & Hx & ->)
  | H : <[?i := _]> _ !! ?i = _ |- _ => rewrite lookup_insert_eq in H
  end; simplify_eq/=.

(** X2. A [GDRError] comes from a native call that the statement issued and
    that reported a failure: its code is not 0 and it has a message.  Every
    other exception (the guards' [RuntimeError], cffi's [TypeError] and
    [OverflowError]) is raised before anything is touched: the objects and
    the log are as they were. *)
Theorem exceptions_and_state (lib : Driver) (op : Op) (w : World) (e : PyExc) :
  raised_by lib op w = Some e ->
  match e with
  | Exc_GDRError g =>
      code g <> 0 /\ message g <> "" /\ calls (exec lib op w) <> calls w
  | _ => exec lib op w = w
  end.
Proof.
  destruct op; unfold raised_by, raised, exec; unfold_methods.
  all: repeat (case_match; simplify_eq/=; try done).
  all: intros; simplify_eq/=; invert_lookups; try congruence.
  all: try (destruct w; reflexivity).
  all: split; [| split].
  all: try apply log_grows; try apply log_grows2.
  all: try (intros E; apply (f_equal String.length) in E;
            rewrite !length_append in E; simpl in E; lia).
  all: try done.
  all: match goal with
       | H : negb (?x =? 0) = true |- ?x <> 0 =>
           by apply negb_true_iff, Z.eqb_neq in H
       end.
Qed.

(** ** Which objects a statement writes *)

Lemma exec_context_frame (lib : Driver) (op : Op) (w : World) (g : ref) :
  context_written_by op <> Some g ->
  is_Some (contexts w !! g) ->
  contexts (exec lib op w) !! g = contexts w !! g.
Proof.
  intros Hg Hs.
  destruct op; unfold exec; unfold_methods; simpl in Hg.
  all: repeat (case_match; simplify_eq/=; try done).
  all: simpl; try done.
  all: try (rewrite lookup_insert_ne; [done | congruence]).
  rewrite lookup_insert_ne; [done|].
  intros E. pose proof (is_fresh (dom (contexts w))) as Hf.
  rewrite E in Hf. by apply Hf, elem_of_dom.
Qed.


(** ** The cached dictionary of [get_info] *)

Lemma exec_keeps_info (lib : Driver) (op : Op) (w : World) (h : ref)
    (d : InfoDict.t) :
  (exists o, handles w !! h = Some o /\ GDRHandle._info o = Some d) ->
  exists o', handles (exec lib op w) !! h = Some o' /\ GDRHandle._info o' = Some d.
Proof.
  intros (o & Hs & Hi).
  destruct op; unfold exec; unfold_methods.
  all: repeat (case_match; simplify_eq/=; try done).
  all: simpl; try (by exists o).
  all: try (rewrite lookup_insert_ne by (by eapply fresh_handle_ne);
            by exists o).
  all: match goal with
       | |- context [alter _ ?k _] =>
           destruct (decide (k = h)) as [->|Hne];
           [ | rewrite !lookup_alter_ne by done; by exists o ]
       end.
  all: simplify_eq/=; try congruence.
  all: try (rewrite !lookup_alter_eq, Hs; simpl; eexists; split; [done|]; done).
  all: match goal with
       | H : negb (truthy_struct (GDRHandle._info _)) = true |- _ =>
           by rewrite Hi in H
       end.
Qed.

(** X4. The dictionary that [get_info] has cached is returned by every later
    [get_info], without a native call, whatever the program has done in
    between: mapping, unmapping, unpinning the handle or closing its
    context does not reset it. *)
Theorem get_info_cache_is_permanent (lib : Driver) (ops : list Op) (w : World)
    (h : ref) (o : GDRHandle.obj) (d : InfoDict.t) :
  handles w !! h = Some o ->
  GDRHandle._info o = Some d ->
  GDRHandle_get_info lib h (exec_all lib ops w) =
    (Return (Some d), exec_all lib ops w).
Proof.
  intros Hs Hi.
  assert (exists o', handles (exec_all lib ops w) !! h = Some o'
                     /\ GDRHandle._info o' = Some d) as (o' & Hs' & Hi').
  { assert (exists o', handles w !! h = Some o' /\ GDRHandle._info o' = Some d)
      as Hw by eauto.
    clear Hs Hi. revert w Hw. induction ops as [|op ops IH]; intros w Hw; [exact Hw|].
    simpl. apply IH. by apply exec_keeps_info. }
  by apply get_info_cached with o'.
Qed.

(** ** A handle without its pin token *)

(** X6. Once the pin token is cleared, no method of the handle reaches the
    driver any more: whatever is called on the handle, the log of native
    calls stays as it is. *)
Theorem no_native_call_after_unpin (lib : Driver) (op : Op) (w : World)
    (h : ref) (o : GDRHandle.obj) :
  handles w !! h = Some o ->
  GDRHandle._handle o = None ->
  handle_of_op op = Some h ->
  calls (exec lib op w) = calls w.
Proof.
  intros Hs Hh Hop.
  destruct op; simpl in Hop; simplify_eq; unfold exec; unfold_methods.
  all: repeat (case_match; simplify_eq/=; try done).
  all: invert_lookups; congruence.
Qed.

(** ** What a normal return guarantees *)

(** X8. When [unmap] returns, the handle has no live mapping; when [unpin]
    returns, it has no pin token; when the teardown of a handle returns, it
    has neither; when [close] returns, the context is closed. *)
Theorem normal_return_means_released (lib : Driver) (w : World) :
  (forall (h : ref),
     (GDRHandle_unmap lib h w).1 = Return tt ->
     exists o', handles (GDRHandle_unmap lib h w).2 !! h = Some o'
                /\ is_mapped o' = false)
  /\
  (forall (h : ref),
     (GDRHandle_unpin lib h w).1 = Return tt ->
     exists o', handles (GDRHandle_unpin lib h w).2 !! h = Some o'
                /\ is_pinned o' = false)
  /\
  (forall (h : ref),
     (GDRHandle__del__ lib h w).1 = Return tt ->
     exists o', handles (GDRHandle__del__ lib h w).2 !! h = Some o'
                /\ is_mapped o' = false /\ is_pinned o' = false)
  /\
  (forall (g : ref),
     (GDRCopy_close lib g w).1 = Return tt ->
     exists c', contexts (GDRCopy_close lib g w).2 !! g = Some c'
                /\ is_open c' = false).
Proof.
  split; [|split; [|split]]; intros r; unfold_methods.
  all: repeat (case_match; simplify_eq/=; try done).
  all: intros; simplify_eq/=; invert_lookups.
  all: try (eexists; split; [by rewrite ?lookup_alter_eq, ?lookup_insert_eq; eauto|]; simpl; done).
  all: rewrite !lookup_alter_eq;
       match goal with H : handles _ !! _ = Some _ |- _ => rewrite H end;
       simpl; eexists; (split; [done|]);
       unfold is_mapped, is_pinned; simpl; auto.
Qed.

(** ** Pinning *)

Lemma fresh_handle_None (w : World) : handles w !! fresh (dom (handles w)) = None.
Proof. apply not_elem_of_dom, is_fresh. Qed.

Lemma lib_gdr_pin_buffer_ok (lib : Driver) (w : World) (g : ptr)
    (addr size p2p_token va_space : Z) :
  0 <= addr < 2 ^ 64 -> 0 <= size < 2 ^ 64 ->
  0 <= p2p_token < 2 ^ 64 -> 0 <= va_space < 2 ^ 32 ->
  lib_gdr_pin_buffer lib (Some g) addr size p2p_token va_space w =
    (Return (gdr_pin_buffer lib (calls w) g addr size p2p_token va_space),
     log (c_gdr_pin_buffer g addr size p2p_token va_space) w).
Proof.
  intros H1 H2 H3 H4. unfold lib_gdr_pin_buffer. simpl. by repeat mstep.
Qed.

Lemma pin_buffer_native (lib : Driver) (w : World) (self : ref) (g : ptr)
    (addr size p2p_token va_space : Z) :
  contexts w !! self = Some (GDRCopy.Build (Some g)) ->
  g <> NULL ->
  0 <= addr < 2 ^ 64 -> 0 <= size < 2 ^ 64 ->
  0 <= p2p_token < 2 ^ 64 -> 0 <= va_space < 2 ^ 32 ->
  let r := gdr_pin_buffer lib (calls w) g addr size p2p_token va_space in
  GDRCopy_pin_buffer lib self addr size p2p_token va_space w =
    if r.1 =? 0
    then (Return (fresh (dom (handles w))),
          with_handle (fresh (dom (handles w)))
            (GDRHandle.Build self (Some r.2) None 0 None)
            (log (c_gdr_pin_buffer g addr size p2p_token va_space) w))
    else (Raise (DriverError r.1 "Failed to pin buffer"),
          log (c_gdr_pin_buffer g addr size p2p_token va_space) w).
Proof.
  intros Hs Hg Ha Hsz Ht Hv r. unfold GDRCopy_pin_buffer. run. simpl.
  apply Z.eqb_neq in Hg. rewrite Hg. simpl.
  erewrite bind_return by (by apply lib_gdr_pin_buffer_ok).
  fold r. destruct (r.1 =? 0) eqn:E.
  - apply Z.eqb_eq in E. rewrite E. run. reflexivity.
  - apply Z.eqb_neq in E. by run.
Qed.

(** X9. A successful pin, of either variant, returns a handle that the store
    did not hold: bound to the context, carrying the token that the driver
    wrote, with no mapping and no cached info, every other object
    untouched.  When the driver reports a failure, the pin raises the
    driver error and creates no handle. *)
Theorem pin_creates_a_fresh_pinned_handle (lib : Driver) (w : World) (self : ref)
    (g : ptr) (addr size : Z) :
  contexts w !! self = Some (GDRCopy.Build (Some g)) ->
  g <> NULL ->
  0 <= addr < 2 ^ 64 ->
  0 <= size < 2 ^ 64 ->
  (forall flags : Z,
     0 <= flags < 2 ^ 32 ->
     let r := gdr_pin_buffer_v2 lib (calls w) g addr size flags in
     let res := GDRCopy_pin_buffer_v2 lib self addr size flags w in
     (r.1 = 0 ->
        exists h : ref,
          res.1 = Return h
          /\ handles w !! h = None
          /\ handles res.2 = <[h := GDRHandle.Build self (Some r.2) None 0 None]> (handles w)
          /\ contexts res.2 = contexts w
          /\ calls res.2 = calls w ++ [c_gdr_pin_buffer_v2 g addr size flags])
     /\
     (r.1 <> 0 ->
        res.1 = Raise (DriverError r.1 "Failed to pin buffer (v2)")
        /\ handles res.2 = handles w))
  /\
  (forall p2p_token va_space : Z,
     0 <= p2p_token < 2 ^ 64 ->
     0 <= va_space < 2 ^ 32 ->
     let r := gdr_pin_buffer lib (calls w) g addr size p2p_token va_space in
     let res := GDRCopy_pin_buffer lib self addr size p2p_token va_space w in
     (r.1 = 0 ->
        exists h : ref,
          res.1 = Return h
          /\ handles w !! h = None
          /\ handles res.2 = <[h := GDRHandle.Build self (Some r.2) None 0 None]> (handles w)
          /\ contexts res.2 = contexts w
          /\ calls res.2 =
               calls w ++ [c_gdr_pin_buffer g addr size p2p_token va_space])
     /\
     (r.1 <> 0 ->
        res.1 = Raise (DriverError r.1 "Failed to pin buffer")
        /\ handles res.2 = handles w)).
Proof.
  intros Hs Hg Ha Hsz. split.
  - intros flags Hf r res.
    pose proof (pin_buffer_v2_native lib w self g addr size flags Hs Hg Ha Hsz Hf)
      as E. cbn zeta in E. fold r in E. fold res in E.
    split; intros Hr.
    + apply Z.eqb_eq in Hr. rewrite Hr in E. rewrite E.
      exists (fresh (dom (handles w))). repeat split.
      apply fresh_handle_None.
    + apply Z.eqb_neq in Hr. rewrite Hr in E. by rewrite E.
  - intros tok vs Ht Hv r res.
    pose proof (pin_buffer_native lib w self g addr size tok vs Hs Hg Ha Hsz Ht Hv)
      as E. cbn zeta in E. fold r in E. fold res in E.
    split; intros Hr.
    + apply Z.eqb_eq in Hr. rewrite Hr in E. rewrite E.
      exists (fresh (dom (handles w))). repeat split.
      apply fresh_handle_None.
    + apply Z.eqb_neq in Hr. rewrite Hr in E. by rewrite E.
Qed.

(** ** Integers that do not fit the C type *)

(** X10. A size below 0 or from 2^64 on never reaches the driver: [map] raises
    [OverflowError] and records nothing, and so do both pins on an open
    context, which create no handle. *)
Theorem size_out_of_range_is_refused (lib : Driver) (w : World) (size : Z) :
  ~ (0 <= size < 2 ^ 64) ->
  (forall (self : ref) (o : GDRHandle.obj) (g : ptr) (mh : gdr_mh_t),
     handles w !! self = Some o ->
     is_mapped o = false ->
     contexts w !! GDRHandle._gdr o = Some (GDRCopy.Build (Some g)) ->
     GDRHandle._handle o = Some mh ->
     GDRHandle_map lib self size w = (Raise OverflowError, w))
  /\
  (forall (self : ref) (g : ptr) (addr flags : Z),
     contexts w !! self = Some (GDRCopy.Build (Some g)) ->
     g <> NULL ->
     0 <= addr < 2 ^ 64 ->
     GDRCopy_pin_buffer_v2 lib self addr size flags w = (Raise OverflowError, w))
  /\
  (forall (self : ref) (g : ptr) (addr p2p_token va_space : Z),
     contexts w !! self = Some (GDRCopy.Build (Some g)) ->
     g <> NULL ->
     0 <= addr < 2 ^ 64 ->
     GDRCopy_pin_buffer lib self addr size p2p_token va_space w =
       (Raise OverflowError, w)).
Proof.
  intros Hbad.
  assert (conv_unsigned 64 size w = (Raise OverflowError, w)) as Hconv.
  { unfold conv_unsigned.
    destruct ((0 <=? size) && (size <? 2 ^ 64)) eqn:E; [|done].
    apply andb_true_iff in E as [?%Z.leb_le ?%Z.ltb_lt]. lia. }
  split; [|split].
  - intros self o g mh Hs Hm Hc Hh.
    assert (lib_gdr_map lib (Some g) (Some mh) size w = (Raise OverflowError, w))
      as Hlib.
    { unfold lib_gdr_map. simpl. repeat mstep.
      erewrite bind_raise; [reflexivity | exact Hconv]. }
    unfold GDRHandle_map. run.
    unfold is_mapped in Hm. rewrite Hm, Hh. run.
    erewrite bind_raise; [reflexivity | exact Hlib].
  - intros self g addr flags Hs Hg Ha.
    assert (lib_gdr_pin_buffer_v2 lib (Some g) addr size flags w =
              (Raise OverflowError, w)) as Hlib.
    { unfold lib_gdr_pin_buffer_v2. simpl. repeat mstep.
      erewrite bind_raise; [reflexivity | exact Hconv]. }
    unfold GDRCopy_pin_buffer_v2. run. simpl.
    apply Z.eqb_neq in Hg. rewrite Hg. simpl.
    erewrite bind_raise; [reflexivity | exact Hlib].
  - intros self g addr tok vs Hs Hg Ha.
    assert (lib_gdr_pin_buffer lib (Some g) addr size tok vs w =
              (Raise OverflowError, w)) as Hlib.
    { unfold lib_gdr_pin_buffer. simpl. repeat mstep.
      erewrite bind_raise; [reflexivity | exact Hconv]. }
    unfold GDRCopy_pin_buffer. run. simpl.
    apply Z.eqb_neq in Hg. rewrite Hg. simpl.
    erewrite bind_raise; [reflexivity | exact Hlib].
Qed.

(** ** Round trips *)

(** X11. [map] and then [unmap], both granted by the driver, hand back to the
    driver exactly the address it returned and the size that [map] was
    given, and leave the handle with the empty record: a handle that held
    the empty record before (fresh from a pin, or unmapped) is the same
    object again, and so is the whole store; only the log has grown, by the
    two calls. *)
Theorem map_then_unmap_restores_the_handle (lib : Driver) (w : World) (self : ref)
    (o : GDRHandle.obj) (g : ptr) (mh : gdr_mh_t) (size : Z) (va : ptr) :
  handles w !! self = Some o ->
  GDRHandle._mapped_ptr o = None ->
  GDRHandle._mapped_size o = 0 ->
  contexts w !! GDRHandle._gdr o = Some (GDRCopy.Build (Some g)) ->
  GDRHandle._handle o = Some mh ->
  0 <= size < 2 ^ 64 ->
  gdr_map lib (calls w) g mh size = (0, va) ->
  va <> NULL ->
  gdr_unmap lib (calls w ++ [c_gdr_map g mh size]) g mh va size = 0 ->
  (GDRHandle_map lib self size ;;; GDRHandle_unmap lib self) w =
    (Return tt,
     set_calls (calls w ++ [c_gdr_map g mh size; c_gdr_unmap g mh va size]) w).
Proof.
  intros Hs Hp Hz Hc Hh Hsz Hmap Hva Hunmap.
  erewrite bind_return.
  2:{ rewrite (map_native lib w self o g mh size); try done.
      - rewrite Hmap. reflexivity.
      - unfold is_mapped. by rewrite Hp. }
  cbn [snd].
  rewrite (unmap_native lib _ self
             (GDRHandle.Build (GDRHandle._gdr o) (Some mh) (Some va) size
                (GDRHandle._info o)) g mh va);
    [| apply with_handle_lookup | done..].
  cbn [GDRHandle._mapped_size]. rewrite calls_with_handle, calls_log, Hunmap.
  unfold status_outcome. simpl. f_equal.
  unfold unmapped_obj, GDRHandle.set__mapped_size, GDRHandle.set__mapped_ptr.
  simpl. unfold with_handle, log, set_handles, set_calls. simpl.
  rewrite insert_insert_eq, <- app_assoc. simpl.
  rewrite insert_id; [done|].
  rewrite Hs. f_equal. destruct o. simpl in *. by subst.
Qed.

(** X12. A pin and then [unpin] of the new handle, both granted by the driver:
    the driver sees the pin and the unpin of the token it gave, in this
    order and nothing else, and the handle that stays behind holds no
    token, no mapping and no cached info. *)
Theorem pin_then_unpin_releases_the_token (lib : Driver) (w : World) (self : ref)
    (g : ptr) (addr size flags : Z) (mh : gdr_mh_t) :
  contexts w !! self = Some (GDRCopy.Build (Some g)) ->
  g <> NULL ->
  0 <= addr < 2 ^ 64 -> 0 <= size < 2 ^ 64 -> 0 <= flags < 2 ^ 32 ->
  gdr_pin_buffer_v2 lib (calls w) g addr size flags = (0, mh) ->
  gdr_unpin_buffer lib (calls w ++ [c_gdr_pin_buffer_v2 g addr size flags]) g mh = 0 ->
  (h <- GDRCopy_pin_buffer_v2 lib self addr size flags ;; GDRHandle_unpin lib h) w =
    (Return tt,
     with_handle (fresh (dom (handles w)))
       (GDRHandle.Build self None None 0 None)
       (set_calls (calls w ++ [c_gdr_pin_buffer_v2 g addr size flags;
                               c_gdr_unpin_buffer g mh]) w)).
Proof.
  intros Hs Hg Ha Hsz Hf Hpin Hunpin.
  erewrite bind_return.
  2:{ rewrite (pin_buffer_v2_native lib w self g addr size flags) by done.
      rewrite Hpin. reflexivity. }
  rewrite (unpin_native lib _ (fresh (dom (handles w)))
             (GDRHandle.Build self (Some mh) None 0 None) g mh);
    [| apply with_handle_lookup | done | done].
  rewrite calls_with_handle, calls_log, Hunpin.
  unfold status_outcome. simpl. f_equal.
  unfold with_handle, log, set_handles, set_calls. simpl.
  by rewrite insert_insert_eq, <- app_assoc.
Qed.

(** X13. A [close] whose native call was issued leaves a context that [open]
    accepts again: the next [open] is not refused, it asks the driver for
    a new context and stores what it gets. *)
Theorem close_then_open_reopens (lib : Driver) (w : World) (self : ref) (g : ptr) :
  contexts w !! self = Some (GDRCopy.Build (Some g)) ->
  g <> NULL ->
  let w1 := (GDRCopy_close lib self w).2 in
  GDRCopy_open lib self w1 =
    (if gdr_open lib (calls w ++ [c_gdr_close g]) =? NULL
     then Raise (Exc_GDRError (GDRError__init__ (-1) "Failed to open GDRCopy"))
     else Return tt,
     with_context self
       (GDRCopy.Build (Some (gdr_open lib (calls w ++ [c_gdr_close g]))))
       (log c_gdr_open w1)).
Proof.
  intros Hs Hg w1. unfold w1.
  rewrite (close_native lib w self g) by done. cbn [snd].
  rewrite (open_closed lib _ self (GDRCopy.Build None));
    [| apply with_context_lookup | done].
  by rewrite calls_with_context, calls_log.
Qed.

(** ** [get_info] when the query fails *)

(** X5. A query that the driver refuses is not cached: [get_info] raises the
    driver error, the handle keeps no dictionary, and the next [get_info]
    asks the driver again and returns what it answers then. *)
Theorem get_info_failure_is_not_cached (lib : Driver) (w : World) (self : ref)
    (o : GDRHandle.obj) (g : ptr) (mh : gdr_mh_t) :
  handles w !! self = Some o ->
  GDRHandle._info o = None ->
  contexts w !! GDRHandle._gdr o = Some (GDRCopy.Build (Some g)) ->
  GDRHandle._handle o = Some mh ->
  (gdr_get_info_v2 lib (calls w) g mh).1 <> 0 ->
  GDRHandle_get_info lib self w =
    (Raise (DriverError (gdr_get_info_v2 lib (calls w) g mh).1 "Failed to get info"),
     log (c_gdr_get_info_v2 g mh) w)
  /\
  (forall (lib' : Driver) (info : gdr_info_v2.t),
     gdr_get_info_v2 lib' (calls w ++ [c_gdr_get_info_v2 g mh]) g mh = (0, info) ->
     (GDRHandle_get_info lib' self (GDRHandle_get_info lib self w).2).1 =
       Return (Some (info_dict info))).
Proof.
  intros Hs Hi Hc Hh Hst.
  pose proof (get_info_query lib w self o g mh Hs Hi Hc Hh) as E. cbn zeta in E.
  apply Z.eqb_neq in Hst. rewrite Hst in E. rewrite E. split; [done|].
  intros lib' info Hd. cbn [snd].
  rewrite (get_info_query lib' _ self o g mh) by done.
  rewrite calls_log, Hd. reflexivity.
Qed.

(** ** The copies *)

(** X14. The copies do not consult the context of the handle: whatever the
    store holds as contexts (the context open, closed, or gone), a copy
    has the same outcome and the same effect. *)
Theorem copies_ignore_the_context (lib : Driver) (w : World) (self : ref)
    (host size : Z) (m : gmap ref GDRCopy.obj) :
  GDRHandle_copy_to_mapping lib self host size (set_contexts m w) =
    ((GDRHandle_copy_to_mapping lib self host size w).1,
     set_contexts m (GDRHandle_copy_to_mapping lib self host size w).2)
  /\
  GDRHandle_copy_from_mapping lib self host size (set_contexts m w) =
    ((GDRHandle_copy_from_mapping lib self host size w).1,
     set_contexts m (GDRHandle_copy_from_mapping lib self host size w).2).
Proof.
  split; unfold_methods; simpl.
  all: repeat (case_match; simplify_eq/=; try done).
Qed.

(** X15. Of the two integers of a copy only the size can be refused: the host
    address goes through [ffi.cast], which takes every integer, the size is
    converted to [size_t].  On a mapped and pinned handle, and for every
    host address (negative ones and those from 2^64 on included), a copy
    with a size below 0 or from 2^64 on raises [OverflowError] with no
    native call and no change, and a copy with a size in range issues its
    native call and raises nothing but the driver error of a non-zero
    status. *)
Theorem copy_refuses_the_size_not_the_host_address (lib : Driver) (w : World)
    (self : ref) (o : GDRHandle.obj) (mh : gdr_mh_t) (va : ptr) (host size : Z) :
  handles w !! self = Some o ->
  is_mapped o = true ->
  GDRHandle._mapped_ptr o = Some va ->
  GDRHandle._handle o = Some mh ->
  (~ (0 <= size < 2 ^ 64) ->
     GDRHandle_copy_to_mapping lib self host size w = (Raise OverflowError, w)
     /\
     GDRHandle_copy_from_mapping lib self host size w = (Raise OverflowError, w))
  /\
  (0 <= size < 2 ^ 64 ->
     GDRHandle_copy_to_mapping lib self host size w =
       (status_outcome
          (gdr_copy_to_mapping lib (calls w) mh va (ffi_cast_void_p host) size)
          "Failed to copy to mapping",
        log (c_gdr_copy_to_mapping mh va (ffi_cast_void_p host) size) w)
     /\
     GDRHandle_copy_from_mapping lib self host size w =
       (status_outcome
          (gdr_copy_from_mapping lib (calls w) mh (ffi_cast_void_p host) va size)
          "Failed to copy from mapping",
        log (c_gdr_copy_from_mapping mh (ffi_cast_void_p host) va size) w)).
Proof.
  intros Hs Hm Hp Hh. split.
  - intros Hbad.
    assert (conv_unsigned 64 size w = (Raise OverflowError, w)) as Hconv.
    { unfold conv_unsigned.
      destruct ((0 <=? size) && (size <? 2 ^ 64)) eqn:E; [|done].
      apply andb_true_iff in E as [?%Z.leb_le ?%Z.ltb_lt]. lia. }
    unfold is_mapped in Hm. split.
    + assert (lib_gdr_copy_to_mapping lib (Some mh) (Some va)
                (ffi_cast_void_p host) size w = (Raise OverflowError, w)) as Hlib.
      { unfold lib_gdr_copy_to_mapping. simpl. repeat mstep.
        erewrite bind_raise; [reflexivity | exact Hconv]. }
      unfold GDRHandle_copy_to_mapping. run. rewrite Hm. simpl. rewrite Hp, Hh.
      erewrite bind_raise; [reflexivity | exact Hlib].
    + assert (lib_gdr_copy_from_mapping lib (Some mh) (ffi_cast_void_p host)
                (Some va) size w = (Raise OverflowError, w)) as Hlib.
      { unfold lib_gdr_copy_from_mapping. simpl. repeat mstep.
        erewrite bind_raise; [reflexivity | exact Hconv]. }
      unfold GDRHandle_copy_from_mapping. run. rewrite Hm. simpl. rewrite Hp, Hh.
      erewrite bind_raise; [reflexivity | exact Hlib].
  - intros Hsz. split.
    + by apply copy_to_native with o.
    + by apply copy_from_native with o.
Qed.

Lemma copy_refuses_the_size_not_the_host_address_witness :
  (GDRHandle_copy_to_mapping mock_ok 0%nat (-1) (2 ^ 64) (mapped_world mock_ok) =
     (Raise OverflowError, mapped_world mock_ok)
   /\
   GDRHandle_copy_from_mapping mock_ok 0%nat (-1) (2 ^ 64) (mapped_world mock_ok) =
     (Raise OverflowError, mapped_world mock_ok))
  /\
  (GDRHandle_copy_to_mapping mock_ok 0%nat (-1) 4096 (mapped_world mock_ok) =
     (Return tt,
      log (c_gdr_copy_to_mapping mock_mh mock_host_va 18446744073709551615 4096)
        (mapped_world mock_ok))
   /\
   GDRHandle_copy_from_mapping mock_ok 0%nat (-1) 4096 (mapped_world mock_ok) =
     (Return tt,
      log (c_gdr_copy_from_mapping mock_mh 18446744073709551615 mock_host_va 4096)
        (mapped_world mock_ok))).
Proof.
  split.
  - apply (proj1 (copy_refuses_the_size_not_the_host_address mock_ok
                    (mapped_world mock_ok) 0%nat mapped_obj mock_mh mock_host_va
                    (-1) (2 ^ 64) eq_refl eq_refl eq_refl eq_refl)).
    lia.
  - apply (proj2 (copy_refuses_the_size_not_the_host_address mock_ok
                    (mapped_world mock_ok) 0%nat mapped_obj mock_mh mock_host_va
                    (-1) 4096 eq_refl eq_refl eq_refl eq_refl)).
    lia.
Defined.

(** ** Loading the native library *)

Lemma join_step_length (path b : string) :
  starts_with_sep b = false ->
  (String.length path + String.length b <= String.length (join_step path b))%nat.
Proof.
  intros Hb. unfold join_step. rewrite Hb.
  destruct (String.eqb path "" || ends_with_sep path).
  - rewrite length_append. lia.
  - rewrite !length_append. simpl. lia.
Qed.

Lemma append_assoc (a b c : string) : (a +:+ b) +:+ c = a +:+ (b +:+ c).
Proof.
  induction a as [|x a IH]; [done|].
  change (String x ((a +:+ b) +:+ c) = String x (a +:+ (b +:+ c))).
  by rewrite IH.
Qed.

Lemma ends_with_sep_append (p : string) : ends_with_sep (p +:+ "/") = true.
Proof.
  induction p as [|c p IH]; [done|].
  simpl. destruct (p +:+ "/") eqn:E; [|done].
  destruct p; discriminate.
Qed.

(** X18. The module tries two names and no more, in the order of
    [library_candidates]: the library is the first of them that opens, and
    the import fails exactly when neither opens, with the text of the
    second failure in the message. *)
Theorem load_library_takes_first_candidate {L : Type} (environ_get : option string)
    (package_root : string) (dlopen : string -> L + string) :
  (forall l : L,
     load_library environ_get package_root dlopen = Library l <->
     first_opening dlopen (library_candidates environ_get package_root) = Some l)
  /\
  ((exists msg, load_library environ_get package_root dlopen = ImportError msg) <->
   Forall (fun n => exists e, dlopen n = inr e)
     (library_candidates environ_get package_root))
  /\
  (forall msg,
     load_library environ_get package_root dlopen = ImportError msg ->
     exists e,
       dlopen (os_path_join package_root ["src"; "libgdrapi.so"]) = inr e
       /\ msg = "Could not load GDRCopy library: " +:+ e +:+
                ". Make sure libgdrapi.so is installed or set GDRCOPY_LIBRARY_PATH environment variable.").
Proof.
  unfold load_library, library_candidates, first_opening.
  split; [|split].
  - intros l. repeat case_match; simplify_eq/=; split; intros; simplify_eq/=;
      try done; congruence.
  - split.
    + intros [msg H]. repeat case_match; simplify_eq/=;
        repeat constructor; eauto.
    + intros H. apply Forall_cons in H as [[e1 H1] H].
      apply Forall_cons in H as [[e2 H2] _].
      repeat case_match; simplify_eq/=; eauto; congruence.
  - intros msg H. repeat case_match; simplify_eq/=; eauto.
Qed.

(** X19. When [GDRCOPY_LIBRARY_PATH] is set to a non-empty directory, the bare
    name ["libgdrapi.so"], the one that is looked up on the system search
    path, is never handed to [dlopen]: the outcome of the import does not
    depend on whether that name opens.  The directory may be written with
    or without a final slash.  An empty value counts as unset. *)
Theorem library_path_overrides_system_search {L : Type} (lib_path package_root : string)
    (dlopen dlopen' : string -> L + string) :
  lib_path <> "" ->
  (forall n, n <> "libgdrapi.so" -> dlopen n = dlopen' n) ->
  load_library (Some lib_path) package_root dlopen =
    load_library (Some lib_path) package_root dlopen'
  /\ (ends_with_sep lib_path = false ->
      os_path_join (lib_path +:+ "/") ["libgdrapi.so"] =
        os_path_join lib_path ["libgdrapi.so"])
  /\ load_library (Some "") package_root dlopen = load_library None package_root dlopen.
Proof.
  intros Hne Hagree.
  assert (forall n, (String.length "libgdrapi.so" < String.length n)%nat ->
                    dlopen n = dlopen' n) as Hlong.
  { intros n Hn. apply Hagree. intros ->. lia. }
  assert (String.eqb lib_path "" = false) as E by (by apply String.eqb_neq).
  split; [|split].
  - unfold load_library. rewrite E. simpl.
    rewrite <- (Hlong (join_step lib_path "libgdrapi.so")).
    2:{ pose proof (join_step_length lib_path "libgdrapi.so" eq_refl) as Hl.
        destruct lib_path; [done|]. simpl in *. lia. }
    rewrite <- (Hlong (join_step (join_step package_root "src") "libgdrapi.so")).
    2:{ pose proof (join_step_length (join_step package_root "src")
                      "libgdrapi.so" eq_refl) as Hl.
        pose proof (join_step_length package_root "src" eq_refl) as Hl'.
        simpl in *. lia. }
    reflexivity.
  - intros Hsep. unfold os_path_join. simpl. unfold join_step. simpl.
    rewrite ends_with_sep_append, Hsep, E, orb_true_r. simpl.
    by rewrite append_assoc.
  - reflexivity.
Qed.

(** ** The example program *)

Lemma preserves_bind {A B : Type} (I : World -> Prop) (m : M A) (k : A -> M B) :
  preserves I m -> (forall a, preserves I (k a)) -> preserves I (bind m k).
Proof.
  intros Hm Hk w Hw. unfold bind. specialize (Hm w Hw).
  destruct (m w) as [[a|e] w']; simpl in *; [by apply Hk | done].
Qed.

Lemma preserves_try_finally {A : Type} (I : World -> Prop) (body : M A)
    (fin : M unit) :
  preserves I body -> preserves I fin -> preserves I (try_finally body fin).
Proof.
  intros Hb Hf w Hw. unfold try_finally. simpl.
  specialize (Hf _ (Hb w Hw)).
  by destruct (fin (body w).2) as [[a|e] w'].
Qed.

Lemma preserves_foreign {A : Type} (I : World -> Prop) (r : Outcome A) :
  preserves I (foreign r).
Proof. by intros w Hw. Qed.

(** The calls that a statement appends are calls of its own function. *)
Lemma exec_appends_own_calls (lib : Driver) (op : Op) (w : World) :
  exists l : list Call,
    calls (exec lib op w) = calls w ++ l /\ forallb (may_call op) l = true.
Proof.
  destruct op; unfold exec; unfold_methods.
  all: repeat (case_match; simplify_eq/=; try done).
  all: first
    [ by (exists []; rewrite app_nil_r)
    | by (eexists [_])
    | by (eexists [_; _]; rewrite <- app_assoc) ].
Qed.

Lemma exec_log_extends (lib : Driver) (op : Op) (base : list Call)
    (P : Call -> bool) (w : World) :
  (forall c, may_call op c = true -> P c = true) ->
  log_extends base P w -> log_extends base P (exec lib op w).
Proof.
  intros HP (l & Hl & Hall).
  destruct (exec_appends_own_calls lib op w) as (l' & Hl' & Hall').
  exists (l ++ l'). split.
  - by rewrite Hl', Hl, app_assoc.
  - rewrite forallb_app, Hall. simpl.
    apply forallb_forall. intros c Hc.
    apply HP. by eapply forallb_forall in Hall'.
Qed.

Lemma exec_keeps_context (lib : Driver) (op : Op) (g : ref) (c : GDRCopy.obj)
    (w : World) :
  context_written_by op <> Some g ->
  contexts w !! g = Some c -> contexts (exec lib op w) !! g = Some c.
Proof.
  intros Hop Hg.
  rewrite (exec_context_frame lib op w g Hop); eauto.
Qed.

(** The statements of the example body keep an invariant that every
    statement of the bindings, [unmap], [unpin] and the methods of the
    context apart, keeps. *)
Lemma example_body_preserves (lib : Driver) (I : World -> Prop) (gdr : ref)
    (gpu_ptr nbytes : Z) (np_zeros_like : Outcome Z)
    (np_iadd cp_asnumpy : Outcome unit) :
  (forall op w,
     context_written_by op = None ->
     (forall c, may_call op c = true -> not_a_release c = true) ->
     I w -> I (exec lib op w)) ->
  preserves I
    (handle <- GDRCopy_pin_buffer_v2 lib gdr gpu_ptr nbytes GDR_PIN_FLAG_DEFAULT ;;
     info <- GDRHandle_get_info lib handle ;;
     mapped_ptr <- GDRHandle_map lib handle nbytes ;;
     host_ptr <- foreign np_zeros_like ;;
     GDRHandle_copy_from_mapping lib handle host_ptr nbytes ;;;
     foreign np_iadd ;;;
     GDRHandle_copy_to_mapping lib handle host_ptr nbytes ;;;
     foreign cp_asnumpy).
Proof.
  intros HI.
  apply preserves_bind.
  { intros w Hw.
    apply (HI (op_pin_buffer_v2 gdr gpu_ptr nbytes GDR_PIN_FLAG_DEFAULT) w);
      [done | by intros [] | done]. }
  intros handle. apply preserves_bind.
  { intros w Hw. apply (HI (op_get_info handle) w); [done | by intros [] | done]. }
  intros info. apply preserves_bind.
  { intros w Hw. apply (HI (op_map handle nbytes) w); [done | by intros [] | done]. }
  intros mapped_ptr. apply preserves_bind; [apply preserves_foreign|].
  intros host_ptr. apply preserves_bind.
  { intros w Hw.
    apply (HI (op_copy_from_mapping handle host_ptr nbytes) w);
      [done | by intros [] | done]. }
  intros _. apply preserves_bind; [apply preserves_foreign|].
  intros _. apply preserves_bind; [|intros _; apply preserves_foreign].
  intros w Hw.
  apply (HI (op_copy_to_mapping handle host_ptr nbytes) w);
    [done | by intros [] | done].
Qed.

(** X20. Whatever the driver and the array libraries do, the example never
    calls [gdr_unmap] or [gdr_unpin_buffer], and it leaves its context
    closed: once [open] has gone through, the [finally] clause runs
    [close] on every path. *)
Theorem basic_example_closes_but_never_releases (lib : Driver) (w : World)
    (gpu_ptr nbytes : Z) (np_zeros_like : Outcome Z)
    (np_iadd cp_asnumpy : Outcome unit) :
  let r := basic_example lib gpu_ptr nbytes np_zeros_like np_iadd cp_asnumpy w in
  (exists l : list Call,
     calls r.2 = calls w ++ l /\ forallb not_a_release l = true)
  /\
  (exists c : GDRCopy.obj,
     contexts r.2 !! fresh (dom (contexts w)) = Some c /\ is_open c = false).
Proof.
  intros r. unfold r. clear r. split.
  - assert (preserves (log_extends (calls w) not_a_release)
              (basic_example lib gpu_ptr nbytes np_zeros_like np_iadd cp_asnumpy))
      as H.
    { unfold basic_example. apply preserves_bind.
      { intros w' Hw'. by apply (exec_log_extends lib op_GDRCopy). }
      intros gdr. apply preserves_bind.
      { intros w' Hw'. apply (exec_log_extends lib (op_open gdr)); [by intros []|done]. }
      intros _. apply preserves_try_finally.
      - apply example_body_preserves. intros op w' _ Hop Hw'.
        by apply exec_log_extends.
      - intros w' Hw'. apply (exec_log_extends lib (op_close gdr)); [by intros []|done]. }
    apply H. exists []. by rewrite app_nil_r.
  - set (g := fresh (dom (contexts w))).
    set (w0 := with_context g (GDRCopy.Build None) w).
    unfold basic_example.
    erewrite bind_return by reflexivity. fold g. fold w0.
    pose proof (open_closed lib w0 g (GDRCopy.Build None)
                  (with_context_lookup w g _) eq_refl) as Hopen.
    destruct (gdr_open lib (calls w0) =? NULL) eqn:Ep.
    + erewrite bind_raise by exact Hopen. cbn [snd].
      eexists. split; [apply with_context_lookup|].
      unfold is_open, truthy_ptr. cbn [GDRCopy._handle]. by rewrite Ep.
    + erewrite bind_return by exact Hopen.
      set (p := gdr_open lib (calls w0)) in *.
      set (w1 := with_context g (GDRCopy.Build (Some p)) (log c_gdr_open w0)).
      unfold try_finally.
      match goal with
      | |- context [GDRCopy_close lib g (?body w1).2] => set (w2 := (body w1).2)
      end.
      assert (contexts w2 !! g = Some (GDRCopy.Build (Some p))) as Hg.
      { unfold w2.
        apply (example_body_preserves lib
                 (fun w' => contexts w' !! g = Some (GDRCopy.Build (Some p)))).
        - intros op w' Hop _ Hw'. apply exec_keeps_context; [|done].
          rewrite Hop. done.
        - apply with_context_lookup. }
      rewrite (close_native lib w2 g p Hg) by (by apply Z.eqb_neq).
      exists (GDRCopy.Build None). split; [|done].
      destruct (status_outcome _ _); apply with_context_lookup.
Qed.

(** ** A handle whose context is closed *)

Lemma unmap_orphaned (lib : Driver) (w : World) (h : ref) (o : GDRHandle.obj) :
  handles w !! h = Some o ->
  contexts w !! GDRHandle._gdr o = Some (GDRCopy.Build None) ->
  is_mapped o = true ->
  GDRHandle_unmap lib h w = (Raise TypeError, w).
Proof.
  intros Hs Hc Hm. unfold GDRHandle_unmap. run.
  unfold is_mapped in Hm. rewrite Hm. by run.
Qed.

Lemma unpin_orphaned (lib : Driver) (w : World) (h : ref) (o : GDRHandle.obj) :
  handles w !! h = Some o ->
  contexts w !! GDRHandle._gdr o = Some (GDRCopy.Build None) ->
  is_pinned o = true ->
  GDRHandle_unpin lib h w = (Raise TypeError, w).
Proof.
  intros Hs Hc Hp. unfold GDRHandle_unpin. run.
  unfold is_pinned in Hp. rewrite Hp. by run.
Qed.

Lemma teardown_orphaned (lib : Driver) (w : World) (h : ref) (o : GDRHandle.obj) :
  handles w !! h = Some o ->
  contexts w !! GDRHandle._gdr o = Some (GDRCopy.Build None) ->
  is_mapped o = true \/ is_pinned o = true ->
  GDRHandle__del__ lib h w = (Raise TypeError, w).
Proof.
  intros Hs Hc Hr. unfold GDRHandle__del__.
  destruct (is_mapped o) eqn:Hm.
  - erewrite bind_raise; [reflexivity | by apply unmap_orphaned with o].
  - destruct Hr as [?|Hp]; [done|].
    erewrite bind_return by (by apply unmap_unmapped with o).
    by apply unpin_orphaned with o.
Qed.

(** X16. On a handle whose context holds no driver context any more ([_handle]
    is [None]: closed, or never opened), every method that needs the
    context raises [TypeError] and changes nothing: [unmap] when there is
    a live mapping, [unpin] when the token is held, [map] when there is no
    live mapping, [get_info] when nothing is cached, [get_callback_flag],
    and the teardown hook when there is anything to release. *)
Theorem orphaned_handle_raises_TypeError (lib : Driver) (w : World) (h : ref)
    (o : GDRHandle.obj) :
  handles w !! h = Some o ->
  contexts w !! GDRHandle._gdr o = Some (GDRCopy.Build None) ->
  (is_mapped o = true -> GDRHandle_unmap lib h w = (Raise TypeError, w))
  /\ (is_pinned o = true -> GDRHandle_unpin lib h w = (Raise TypeError, w))
  /\ (is_mapped o = false ->
      forall size, GDRHandle_map lib h size w = (Raise TypeError, w))
  /\ (GDRHandle._info o = None -> GDRHandle_get_info lib h w = (Raise TypeError, w))
  /\ GDRHandle_get_callback_flag lib h w = (Raise TypeError, w)
  /\ (is_mapped o = true \/ is_pinned o = true ->
      GDRHandle__del__ lib h w = (Raise TypeError, w)).
Proof.
  intros Hs Hc.
  split; [by apply unmap_orphaned|]. split; [by apply unpin_orphaned|].
  split; [|split; [|split]].
  - intros Hm size. unfold GDRHandle_map. run.
    unfold is_mapped in Hm. rewrite Hm. by run.
  - intros Hi. unfold GDRHandle_get_info. run. rewrite Hi. simpl.
    rewrite (bind_raise _ _ w w TypeError); [done|]. by run.
  - unfold GDRHandle_get_callback_flag. by run.
  - intros Hr. by apply teardown_orphaned with o.
Qed.

(** X21. With a driver whose calls all succeed and array libraries that do not
    raise, the example returns and leaves its handle mapped and pinned
    behind a closed context; the teardown of that handle then raises
    [TypeError] and releases nothing, whatever the driver. *)
Theorem basic_example_leaks_mapping_and_pin (lib : Driver) (w : World)
    (gpu_ptr nbytes host_ptr : Z) :
  always_succeeds lib ->
  0 <= gpu_ptr < 2 ^ 64 ->
  0 <= nbytes < 2 ^ 64 ->
  let r := basic_example lib gpu_ptr nbytes (Return host_ptr) (Return tt)
             (Return tt) w in
  r.1 = Return tt
  /\ (exists o : GDRHandle.obj,
        handles r.2 !! fresh (dom (handles w)) = Some o
        /\ is_mapped o = true /\ is_pinned o = true
        /\ GDRHandle._gdr o = fresh (dom (contexts w)))
  /\ contexts r.2 !! fresh (dom (contexts w)) = Some (GDRCopy.Build None)
  /\ (forall lib' : Driver,
        GDRHandle__del__ lib' (fresh (dom (handles w))) r.2 = (Raise TypeError, r.2)).
Proof.
  intros (Hopen & Hclose & _ & Hpin & _ & _ & Hinfo & Hmap & _ & Hto & Hfrom & _)
    Hgpu Hn r.
  set (g := fresh (dom (contexts w))).
  set (h := fresh (dom (handles w))).
  set (w0 := with_context g (GDRCopy.Build None) w).
  set (p := gdr_open lib (calls w0)).
  set (w1 := with_context g (GDRCopy.Build (Some p)) (log c_gdr_open w0)).
  set (cpin := c_gdr_pin_buffer_v2 p gpu_ptr nbytes GDR_PIN_FLAG_DEFAULT).
  set (mh := (gdr_pin_buffer_v2 lib (calls w1) p gpu_ptr nbytes GDR_PIN_FLAG_DEFAULT).2).
  set (w2 := with_handle h (GDRHandle.Build g (Some mh) None 0 None) (log cpin w1)).
  set (info := info_dict (gdr_get_info_v2 lib (calls w2) p mh).2).
  set (w3 := with_handle h (GDRHandle.Build g (Some mh) None 0 (Some info))
               (log (c_gdr_get_info_v2 p mh) w2)).
  set (va := (gdr_map lib (calls w3) p mh nbytes).2).
  set (o4 := GDRHandle.Build g (Some mh) (Some va) nbytes (Some info)).
  set (w4 := with_handle h o4 (log (c_gdr_map p mh nbytes) w3)).
  set (w5 := log (c_gdr_copy_from_mapping mh (ffi_cast_void_p host_ptr) va nbytes) w4).
  set (w6 := log (c_gdr_copy_to_mapping mh va (ffi_cast_void_p host_ptr) nbytes) w5).
  set (w7 := with_context g (GDRCopy.Build None) (log (c_gdr_close p) w6)).
  assert (p <> NULL) as Hp by apply Hopen.
  assert (va <> NULL) as Hva by apply Hmap.
  assert (is_mapped o4 = true) as Hm4.
  { unfold is_mapped, truthy_ptr. cbn [GDRHandle._mapped_ptr o4].
    apply Z.eqb_neq in Hva. by rewrite Hva. }
  assert (GDRCopy_open lib g w0 = (Return tt, w1)) as E1.
  { rewrite (open_closed lib w0 g (GDRCopy.Build None));
      [| apply with_context_lookup | done].
    fold p. apply Z.eqb_neq in Hp. by rewrite Hp. }
  assert (GDRCopy_pin_buffer_v2 lib g gpu_ptr nbytes GDR_PIN_FLAG_DEFAULT w1 =
            (Return h, w2)) as E2.
  { rewrite (pin_buffer_v2_native lib w1 g p);
      [| apply with_context_lookup | done | done | done
       | unfold GDR_PIN_FLAG_DEFAULT; lia ].
    rewrite Hpin. reflexivity. }
  assert (GDRHandle_get_info lib h w2 = (Return (Some info), w3)) as E3.
  { rewrite (get_info_query lib w2 h (GDRHandle.Build g (Some mh) None 0 None) p mh);
      [| apply with_handle_lookup | done | apply with_context_lookup | done].
    rewrite Hinfo. reflexivity. }
  assert (GDRHandle_map lib h nbytes w3 = (Return (int_of_uintptr va), w4)) as E4.
  { rewrite (map_native lib w3 h
               (GDRHandle.Build g (Some mh) None 0 (Some info)) p mh nbytes);
      [| apply with_handle_lookup | done | apply with_context_lookup | done | done].
    rewrite (proj1 (Hmap _ _ _ _)). reflexivity. }
  assert (GDRHandle_copy_from_mapping lib h host_ptr nbytes w4 = (Return tt, w5)) as E5.
  { rewrite (copy_from_native lib w4 h o4 mh va);
      [| apply with_handle_lookup | done..].
    rewrite Hfrom. reflexivity. }
  assert (GDRHandle_copy_to_mapping lib h host_ptr nbytes w5 = (Return tt, w6)) as E6.
  { rewrite (copy_to_native lib w5 h o4 mh va);
      [| apply with_handle_lookup | done..].
    rewrite Hto. reflexivity. }
  assert (GDRCopy_close lib g w6 = (Return tt, w7)) as E7.
  { rewrite (close_native lib w6 g p); [| apply with_context_lookup | done].
    rewrite Hclose. reflexivity. }
  assert (r = (Return tt, w7)) as E.
  { unfold r, basic_example.
    erewrite bind_return by reflexivity. fold g. fold w0.
    rewrite (bind_return _ _ _ _ _ E1).
    match goal with
    | |- try_finally ?body _ w1 = _ =>
        assert (body w1 = (Return tt, w6)) as Eb
    end.
    { rewrite (bind_return _ _ _ _ _ E2), (bind_return _ _ _ _ _ E3),
        (bind_return _ _ _ _ _ E4).
      unfold foreign at 1. erewrite bind_return by reflexivity.
      rewrite (bind_return _ _ _ _ _ E5).
      unfold foreign at 1. erewrite bind_return by reflexivity.
      by rewrite (bind_return _ _ _ _ _ E6). }
    unfold try_finally. rewrite Eb. cbn [fst snd]. by rewrite E7. }
  rewrite E. cbn [fst snd].
  assert (handles w7 !! h = Some o4) as Hh7 by apply with_handle_lookup.
  assert (contexts w7 !! g = Some (GDRCopy.Build None)) as Hg7
    by apply with_context_lookup.
  split; [done|]. split; [by exists o4|]. split; [done|].
  intros lib'.
  apply (teardown_orphaned lib' w7 h o4 Hh7 Hg7). by left.
Qed.

(** ** What never changes about a handle *)

Lemma exec_keeps_owner_and_cleared_token (lib : Driver) (op : Op) (w : World)
    (h g : ref) (unpinned : bool) :
  (exists o, handles w !! h = Some o /\ GDRHandle._gdr o = g
             /\ (unpinned = true -> GDRHandle._handle o = None)) ->
  exists o', handles (exec lib op w) !! h = Some o' /\ GDRHandle._gdr o' = g
             /\ (unpinned = true -> GDRHandle._handle o' = None).
Proof.
  intros (o & Hs & Hg & Hu).
  destruct op; unfold exec; unfold_methods.
  all: repeat (case_match; simplify_eq/=; try done).
  all: simpl; try (by exists o).
  all: try (rewrite lookup_insert_ne by (by eapply fresh_handle_ne);
            by exists o).
  all: match goal with
       | |- context [alter _ ?k _] =>
           destruct (decide (k = h)) as [->|Hne];
           [ | rewrite !lookup_alter_ne by done; by exists o ]
       end.
  all: simplify_eq/=.
  all: rewrite !lookup_alter_eq, Hs; simpl; eexists; split; [done|]; done.
Qed.

(** X7. Whatever a program does, a handle stays in the store and stays bound
    to the context that created it, and a pin token that was cleared
    stays cleared: no statement pins a handle again. *)
Theorem handle_owner_and_unpinned_are_final (lib : Driver) (ops : list Op)
    (w : World) (h : ref) (o : GDRHandle.obj) :
  handles w !! h = Some o ->
  exists o',
    handles (exec_all lib ops w) !! h = Some o'
    /\ GDRHandle._gdr o' = GDRHandle._gdr o
    /\ (GDRHandle._handle o = None -> GDRHandle._handle o' = None).
Proof.
  intros Hs.
  destruct (GDRHandle._handle o) as [mh|] eqn:Hh.
  - assert (exists o', handles (exec_all lib ops w) !! h = Some o'
                       /\ GDRHandle._gdr o' = GDRHandle._gdr o
                       /\ (false = true -> GDRHandle._handle o' = None))
      as (o' & ? & ? & _).
    { assert (exists o', handles w !! h = Some o'
                         /\ GDRHandle._gdr o' = GDRHandle._gdr o
                         /\ (false = true -> GDRHandle._handle o' = None))
        as Hw by (exists o; done).
      clear Hs. revert w Hw.
      induction ops as [|op ops IH]; intros w Hw; [exact Hw|].
      simpl. apply IH. by apply exec_keeps_owner_and_cleared_token. }
    exists o'. done.
  - assert (exists o', handles (exec_all lib ops w) !! h = Some o'
                       /\ GDRHandle._gdr o' = GDRHandle._gdr o
                       /\ (true = true -> GDRHandle._handle o' = None))
      as (o' & ? & ? & Hn).
    { assert (exists o', handles w !! h = Some o'
                         /\ GDRHandle._gdr o' = GDRHandle._gdr o
                         /\ (true = true -> GDRHandle._handle o' = None))
        as Hw by (exists o; done).
      clear Hs. revert w Hw.
      induction ops as [|op ops IH]; intros w Hw; [exact Hw|].
      simpl. apply IH. by apply exec_keeps_owner_and_cleared_token. }
    exists o'. auto.
Qed.

Lemma handle_owner_and_unpinned_are_final_witness :
  GDRHandle._handle unpinned_obj = None
  /\
  exists o',
    handles (exec_all mock_ok
               [op_close 0%nat; op_open 0%nat; op_map 0%nat 4096;
                op_pin_buffer_v2 0%nat 4096 4096 0; op_get_info 0%nat;
                op_unpin 0%nat]
               (exec_all mock_ok [op_unpin 0%nat] (pinned_world mock_ok))) !! 0%nat
      = Some o'
    /\ GDRHandle._gdr o' = GDRHandle._gdr unpinned_obj
    /\ GDRHandle._handle o' = None.
Proof.
  split; [reflexivity|].
  destruct (handle_owner_and_unpinned_are_final mock_ok
              [op_close 0%nat; op_open 0%nat; op_map 0%nat 4096;
               op_pin_buffer_v2 0%nat 4096 4096 0; op_get_info 0%nat;
               op_unpin 0%nat]
              (exec_all mock_ok [op_unpin 0%nat] (pinned_world mock_ok))
              0%nat unpinned_obj eq_refl)
    as (o' & H1 & H2 & H3).
  exists o'. split; [exact H1|]. split; [exact H2|].
  apply H3. reflexivity.
Defined.

(** ** The queries *)

Lemma lib_gdr_get_attribute_ok (lib : Driver) (w : World) (g : ptr) (attr : Z) :
  0 <= attr < 2 ^ 32 ->
  lib_gdr_get_attribute lib (Some g) attr w =
    (Return (gdr_get_attribute lib (calls w) g attr), log (c_gdr_get_attribute g attr) w).
Proof. intros H. unfold lib_gdr_get_attribute. simpl. by repeat mstep. Qed.

Lemma lib_gdr_get_callback_flag_ok (lib : Driver) (w : World) (g : ptr) (mh : gdr_mh_t) :
  lib_gdr_get_callback_flag lib (Some g) (Some mh) w =
    (Return (gdr_get_callback_flag lib (calls w) g mh),
     log (c_gdr_get_callback_flag g mh) w).
Proof. unfold lib_gdr_get_callback_flag. simpl. by repeat mstep. Qed.

(** X17. The queries hand back what the driver wrote.  On an open context
    [get_attribute] returns the value for status 0 and raises the driver
    error, which names the attribute, otherwise; an attribute number that
    does not fit 32 bits is refused with [OverflowError] before the call.
    On a pinned handle of a context that holds a driver context,
    [get_callback_flag] returns whether the flag is non-zero.
    [get_version] needs no context and never raises. *)
Theorem queries_return_the_driver_answer (lib : Driver) (w : World) :
  (forall (self : ref) (g : ptr) (attr : Z),
     contexts w !! self = Some (GDRCopy.Build (Some g)) ->
     g <> NULL ->
     (0 <= attr < 2 ^ 32 ->
        GDRCopy_get_attribute lib self attr w =
          (if (gdr_get_attribute lib (calls w) g attr).1 =? 0
           then Return (gdr_get_attribute lib (calls w) g attr).2
           else Raise (DriverError (gdr_get_attribute lib (calls w) g attr).1
                         ("Failed to get attribute " +:+ pretty attr)),
           log (c_gdr_get_attribute g attr) w))
     /\ (~ (0 <= attr < 2 ^ 32) ->
         GDRCopy_get_attribute lib self attr w = (Raise OverflowError, w)))
  /\
  (forall (self : ref) (o : GDRHandle.obj) (g : ptr) (mh : gdr_mh_t),
     handles w !! self = Some o ->
     contexts w !! GDRHandle._gdr o = Some (GDRCopy.Build (Some g)) ->
     GDRHandle._handle o = Some mh ->
     GDRHandle_get_callback_flag lib self w =
       (if (gdr_get_callback_flag lib (calls w) g mh).1 =? 0
        then Return (negb ((gdr_get_callback_flag lib (calls w) g mh).2 =? 0))
        else Raise (DriverError (gdr_get_callback_flag lib (calls w) g mh).1
                      "Failed to get callback flag"),
        log (c_gdr_get_callback_flag g mh) w))
  /\
  get_version lib w =
    (Return (gdr_runtime_get_version lib (calls w)), log c_gdr_runtime_get_version w).
Proof.
  split; [|split; [|done]].
  - intros self g attr Hs Hg. apply Z.eqb_neq in Hg. split.
    + intros Ha. unfold GDRCopy_get_attribute. run. simpl. rewrite Hg. simpl.
      erewrite bind_return by (by apply lib_gdr_get_attribute_ok).
      destruct ((gdr_get_attribute lib (calls w) g attr).1 =? 0) eqn:E.
      * apply Z.eqb_eq in E. rewrite E. by run.
      * apply Z.eqb_neq in E. by run.
    + intros Ha.
      assert (lib_gdr_get_attribute lib (Some g) attr w = (Raise OverflowError, w))
        as Hlib.
      { unfold lib_gdr_get_attribute. simpl. repeat mstep.
        erewrite bind_raise; [reflexivity|].
        unfold conv_unsigned.
        destruct ((0 <=? attr) && (attr <? 2 ^ 32)) eqn:E; [|done].
        apply andb_true_iff in E as [?%Z.leb_le ?%Z.ltb_lt]. lia. }
      unfold GDRCopy_get_attribute. run. simpl. rewrite Hg. simpl.
      erewrite bind_raise; [reflexivity | exact Hlib].
  - intros self o g mh Hs Hc Hh. unfold GDRHandle_get_callback_flag. run.
    rewrite Hh.
    erewrite bind_return by apply lib_gdr_get_callback_flag_ok.
    destruct ((gdr_get_callback_flag lib (calls w) g mh).1 =? 0) eqn:E.
    + apply Z.eqb_eq in E. rewrite E. by run.
    + apply Z.eqb_neq in E. by run.
Qed.

Lemma queries_return_the_driver_answer_witness :
  GDRCopy_get_attribute mock_ok 0%nat GDR_ATTR_SUPPORT_PIN_FLAG_FORCE_PCIE
    (pinned_world mock_ok) =
    (Return 1,
     log (c_gdr_get_attribute mock_context GDR_ATTR_SUPPORT_PIN_FLAG_FORCE_PCIE)
       (pinned_world mock_ok))
  /\ GDRCopy_get_attribute mock_ok 0%nat (-1) (pinned_world mock_ok) =
       (Raise OverflowError, pinned_world mock_ok)
  /\ GDRHandle_get_callback_flag mock_ok 0%nat (pinned_world mock_ok) =
       (Return false, log (c_gdr_get_callback_flag mock_context mock_mh)
                        (pinned_world mock_ok)).
Proof.
  assert (mock_context <> NULL) as Hg by (vm_compute; discriminate).
  pose proof (queries_return_the_driver_answer mock_ok (pinned_world mock_ok))
    as (Hattr & Hflag & _).
  split; [|split].
  - apply (proj1 (Hattr 0%nat mock_context GDR_ATTR_SUPPORT_PIN_FLAG_FORCE_PCIE
                    eq_refl Hg)).
    unfold GDR_ATTR_SUPPORT_PIN_FLAG_FORCE_PCIE. lia.
  - apply (proj2 (Hattr 0%nat mock_context (-1) eq_refl Hg)). lia.
  - apply (Hflag 0%nat pinned_obj mock_context mock_mh); reflexivity.
Defined.

(** ** Instances on the mock driver *)

Lemma mock_ok_always_succeeds : always_succeeds mock_ok.
Proof. repeat split; intros; vm_compute; congruence. Qed.

Lemma exceptions_and_state_witness :
  calls (exec (mock_driver is_unmap) (op_unmap 0%nat) (mapped_world (mock_driver is_unmap)))
    <> calls (mapped_world (mock_driver is_unmap))
  /\ exec mock_ok (op_unmap 0%nat) (orphaned_world mock_ok) = orphaned_world mock_ok.
Proof.
  split.
  - assert (raised_by (mock_driver is_unmap) (op_unmap 0%nat)
              (mapped_world (mock_driver is_unmap)) =
            Some (DriverError 22 "Failed to unmap buffer")) as H
      by (vm_compute; reflexivity).
    exact (proj2 (proj2 (exceptions_and_state _ _ _ _ H))).
  - assert (raised_by mock_ok (op_unmap 0%nat) (orphaned_world mock_ok) =
            Some TypeError) as H by (vm_compute; reflexivity).
    exact (exceptions_and_state _ _ _ _ H).
Defined.


(** The store after the first [get_info] of the scenario. *)
Lemma get_info_cache_is_permanent_witness :
  GDRHandle_get_info mock_ok 0%nat
    (exec_all mock_ok
       [op_map 0%nat 4096; op_unmap 0%nat; op_unpin 0%nat; op_close 0%nat]
       (exec mock_ok (op_get_info 0%nat) (pinned_world mock_ok))) =
    (Return (Some (info_dict (mock_info false))),
     exec_all mock_ok
       [op_map 0%nat 4096; op_unmap 0%nat; op_unpin 0%nat; op_close 0%nat]
       (exec mock_ok (op_get_info 0%nat) (pinned_world mock_ok))).
Proof.
  apply (get_info_cache_is_permanent mock_ok _
           (exec mock_ok (op_get_info 0%nat) (pinned_world mock_ok)) 0%nat
           (GDRHandle.Build 0%nat (Some mock_mh) None 0
              (Some (info_dict (mock_info false)))));
    reflexivity.
Defined.

Lemma no_native_call_after_unpin_witness :
  calls (exec mock_ok (op_get_callback_flag 0%nat)
           (exec mock_ok (op_unpin 0%nat) (mapped_world mock_ok))) =
    calls (exec mock_ok (op_unpin 0%nat) (mapped_world mock_ok))
  /\ calls (exec mock_ok (op_copy_to_mapping 0%nat 77 4096)
              (exec mock_ok (op_unpin 0%nat) (mapped_world mock_ok))) =
       calls (exec mock_ok (op_unpin 0%nat) (mapped_world mock_ok)).
Proof.
  split.
  - apply (no_native_call_after_unpin mock_ok (op_get_callback_flag 0%nat)
             (exec mock_ok (op_unpin 0%nat) (mapped_world mock_ok)) 0%nat
             (GDRHandle.Build 0%nat None (Some mock_host_va) 4096 None));
      reflexivity.
  - apply (no_native_call_after_unpin mock_ok (op_copy_to_mapping 0%nat 77 4096)
             (exec mock_ok (op_unpin 0%nat) (mapped_world mock_ok)) 0%nat
             (GDRHandle.Build 0%nat None (Some mock_host_va) 4096 None));
      reflexivity.
Defined.

Lemma normal_return_means_released_witness :
  (exists o', handles (GDRHandle__del__ mock_ok 0%nat (mapped_world mock_ok)).2 !! 0%nat
                = Some o'
              /\ is_mapped o' = false /\ is_pinned o' = false)
  /\ (exists c', contexts (GDRCopy_close mock_ok 0%nat (mapped_world mock_ok)).2 !! 0%nat
                   = Some c'
                 /\ is_open c' = false).
Proof.
  pose proof (normal_return_means_released mock_ok (mapped_world mock_ok))
    as (_ & _ & Hdel & Hclose).
  split.
  - apply Hdel. reflexivity.
  - apply Hclose. reflexivity.
Defined.

Lemma pin_creates_a_fresh_pinned_handle_witness :
  (exists h : ref,
     (GDRCopy_pin_buffer_v2 mock_ok 0%nat 8192 4096 GDR_PIN_FLAG_FORCE_PCIE
        (pinned_world mock_ok)).1 = Return h
     /\ handles (pinned_world mock_ok) !! h = None)
  /\ (GDRCopy_pin_buffer (mock_driver (fun _ => true)) 0%nat 8192 4096 0 0
        (pinned_world mock_ok)).1 = Raise (DriverError 22 "Failed to pin buffer").
Proof.
  assert (mock_context <> NULL) as Hg by (vm_compute; discriminate).
  split.
  - destruct (proj1 (pin_creates_a_fresh_pinned_handle mock_ok (pinned_world mock_ok)
                       0%nat mock_context 8192 4096 eq_refl Hg
                       ltac:(lia) ltac:(lia))
                GDR_PIN_FLAG_FORCE_PCIE ltac:(unfold GDR_PIN_FLAG_FORCE_PCIE; lia))
      as [Hok _].
    destruct (Hok eq_refl) as (h & H1 & H2 & _). by exists h.
  - destruct (proj2 (pin_creates_a_fresh_pinned_handle (mock_driver (fun _ => true))
                       (pinned_world mock_ok) 0%nat mock_context 8192 4096
                       eq_refl Hg ltac:(lia) ltac:(lia))
                0 0 ltac:(lia) ltac:(lia))
      as [_ Hbad].
    apply Hbad. vm_compute. discriminate.
Defined.

Lemma size_out_of_range_is_refused_witness :
  GDRHandle_map mock_ok 0%nat (-1) (pinned_world mock_ok) =
    (Raise OverflowError, pinned_world mock_ok)
  /\ GDRCopy_pin_buffer_v2 mock_ok 0%nat 4096 (2 ^ 64) 0 (pinned_world mock_ok) =
       (Raise OverflowError, pinned_world mock_ok).
Proof.
  assert (mock_context <> NULL) as Hg by (vm_compute; discriminate).
  split.
  - apply (proj1 (size_out_of_range_is_refused mock_ok (pinned_world mock_ok) (-1)
                    ltac:(lia))
             0%nat pinned_obj mock_context mock_mh); reflexivity.
  - apply (proj1 (proj2 (size_out_of_range_is_refused mock_ok (pinned_world mock_ok)
                           (2 ^ 64) ltac:(lia)))
             0%nat mock_context 4096 0 eq_refl Hg). lia.
Defined.

Lemma map_then_unmap_restores_the_handle_witness :
  (GDRHandle_map mock_ok 0%nat 4096 ;;; GDRHandle_unmap mock_ok 0%nat)
    (pinned_world mock_ok) =
    (Return tt,
     set_calls
       (calls (pinned_world mock_ok)
          ++ [c_gdr_map mock_context mock_mh 4096;
              c_gdr_unmap mock_context mock_mh mock_host_va 4096])
       (pinned_world mock_ok)).
Proof.
  apply (map_then_unmap_restores_the_handle mock_ok (pinned_world mock_ok) 0%nat
           pinned_obj mock_context mock_mh 4096 mock_host_va);
    try reflexivity; try lia.
  vm_compute. discriminate.
Defined.

Lemma pin_then_unpin_releases_the_token_witness :
  (h <- GDRCopy_pin_buffer_v2 mock_ok 0%nat 8192 4096 0 ;; GDRHandle_unpin mock_ok h)
    (pinned_world mock_ok) =
    (Return tt,
     with_handle (fresh (dom (handles (pinned_world mock_ok))))
       (GDRHandle.Build 0%nat None None 0 None)
       (set_calls
          (calls (pinned_world mock_ok)
             ++ [c_gdr_pin_buffer_v2 mock_context 8192 4096 0;
                 c_gdr_unpin_buffer mock_context (Build_gdr_mh 3)])
          (pinned_world mock_ok))).
Proof.
  apply (pin_then_unpin_releases_the_token mock_ok (pinned_world mock_ok) 0%nat
           mock_context 8192 4096 0 (Build_gdr_mh 3));
    try reflexivity; try lia.
  vm_compute. discriminate.
Defined.

Lemma close_then_open_reopens_witness :
  (GDRCopy_open mock_ok 0%nat
     (GDRCopy_close mock_ok 0%nat (pinned_world mock_ok)).2).1 = Return tt.
Proof.
  assert (mock_context <> NULL) as Hg by (vm_compute; discriminate).
  rewrite (close_then_open_reopens mock_ok (pinned_world mock_ok) 0%nat
             mock_context eq_refl Hg).
  reflexivity.
Defined.

Lemma get_info_failure_is_not_cached_witness :
  (GDRHandle_get_info mock_ok 0%nat
     (GDRHandle_get_info (mock_driver (fun _ => true)) 0%nat
        (pinned_world mock_ok)).2).1 =
    Return (Some (info_dict (mock_info false))).
Proof.
  apply (proj2 (get_info_failure_is_not_cached (mock_driver (fun _ => true))
                  (pinned_world mock_ok) 0%nat pinned_obj mock_context mock_mh
                  eq_refl eq_refl eq_refl eq_refl
                  ltac:(vm_compute; discriminate))).
  reflexivity.
Defined.

(** A library directory and a package directory, and a [dlopen] that finds
    the library in the package only. *)
Lemma load_library_takes_first_candidate_witness :
  library_candidates (Some "/opt/gdrcopy/lib") "/usr/lib/python3/site-packages" =
    ["/opt/gdrcopy/lib/libgdrapi.so";
     "/usr/lib/python3/site-packages/src/libgdrapi.so"]
  /\ load_library (Some "/opt/gdrcopy/lib") "/usr/lib/python3/site-packages"
       (fun n => if String.eqb n "/usr/lib/python3/site-packages/src/libgdrapi.so"
                 then inl 1%nat else inr "cannot open shared object file") =
     Library 1%nat.
Proof.
  split; [reflexivity|].
  apply (proj1 (load_library_takes_first_candidate (Some "/opt/gdrcopy/lib")
                  "/usr/lib/python3/site-packages" _)).
  reflexivity.
Defined.

Lemma library_path_overrides_system_search_witness :
  load_library (Some "/opt/gdrcopy/lib") "/pkg"
    (fun n => if String.eqb n "libgdrapi.so" then inl 1%nat else inr "not found") =
  load_library (Some "/opt/gdrcopy/lib") "/pkg" (fun _ => inr "not found").
Proof.
  apply (library_path_overrides_system_search "/opt/gdrcopy/lib" "/pkg").
  - discriminate.
  - intros n Hn. apply String.eqb_neq in Hn. by rewrite Hn.
Defined.

Lemma orphaned_handle_raises_TypeError_witness :
  GDRHandle_unmap mock_ok 0%nat (orphaned_world mock_ok) =
    (Raise TypeError, orphaned_world mock_ok)
  /\ GDRHandle_get_callback_flag mock_ok 0%nat (orphaned_world mock_ok) =
       (Raise TypeError, orphaned_world mock_ok).
Proof.
  pose proof (orphaned_handle_raises_TypeError mock_ok (orphaned_world mock_ok)
                0%nat mapped_obj eq_refl eq_refl) as (H1 & _ & _ & _ & H5 & _).
  split; [apply H1; reflexivity | exact H5].
Defined.

Lemma basic_example_leaks_mapping_and_pin_witness :
  (basic_example mock_ok 4096 4000 (Return 77) (Return tt) (Return tt)
     empty_world).1 = Return tt
  /\ forall lib' : Driver,
       GDRHandle__del__ lib' (fresh (dom (handles empty_world)))
         (basic_example mock_ok 4096 4000 (Return 77) (Return tt) (Return tt)
            empty_world).2 =
       (Raise TypeError,
        (basic_example mock_ok 4096 4000 (Return 77) (Return tt) (Return tt)
           empty_world).2).
Proof.
  pose proof (basic_example_leaks_mapping_and_pin mock_ok empty_world 4096 4000 77
                mock_ok_always_succeeds ltac:(lia) ltac:(lia))
    as (H1 & _ & _ & H4).
  split; [exact H1 | exact H4].
Defined.
